(** * CN-projects: grade engine, result stores and bookstore login

    A shallow embedding of the three single-file applications of the
    repository:

    - [src/VIT-result-th.py]: the Flask results portal (module [Portal]),
      with the page script that grades subjects and aggregates them;
    - [src/vit_result_system.py]: the Streamlit results dashboard
      (module [Dashboard]);
    - [src/bookstore.py]: the bookstore storefront (module [Bookstore]).

    The definitions come first, module by module; the lemmas and the
    theorems follow.

    Numbers are IEEE-754 binary64 values, as in Python and JavaScript: they
    are embedded as the kernel's primitive [float], so that comparisons,
    products and sums are the ones the programs run.  A MongoDB collection
    is the list of its documents in natural (insertion) order; a document
    is a finite map from field names to values. *)

From Stdlib Require Import ZArith Floats Lia List Ascii String Sorted.
From stdpp Require Import base gmap strings list fin_maps pretty.
Set Warnings "-inexact-float".

(** ** Binary64 numbers *)

Module Float64.

(** Python's and JavaScript's [x >= c], [x <= c], [x < c], [x > c]: false
    as soon as one side is NaN. *)
Definition ge (x c : float) : bool := (c <=? x)%float.
Definition le (x c : float) : bool := (x <=? c)%float.
Definition lt (x c : float) : bool := (x <? c)%float.
Definition gt (x c : float) : bool := (c <? x)%float.

(** The integer nearest to [num / den] ([den > 0]); a tie goes to the even
    neighbour when [to_even], and upwards otherwise. *)
Definition round_div (to_even : bool) (num den : Z) : Z :=
  let q := (num / den)%Z in
  let r := (num mod den)%Z in
  match (2 * r ?= den)%Z with
  | Lt => q
  | Gt => (q + 1)%Z
  | Eq => if to_even && Z.even q then q else (q + 1)%Z
  end.

(** [|x| * 100] rounded to an integer, for a finite non-zero [x] given by
    its mantissa and exponent ([|x| = m * 2^e]). *)
Definition hundredths (to_even : bool) (m : positive) (e : Z) : Z :=
  match e with
  | Zneg k => round_div to_even (Zpos m * 100) (2 ^ Zpos k)
  | _ => (Zpos m * 2 ^ e * 100)%Z
  end.

(** The binary64 value nearest to [n / 100], for [n >= 0]. *)
Definition of_hundredths (n : Z) : float :=
  match n with
  | Zpos p =>
      if (n <? 2 ^ 53)%Z
      then (of_uint63 (Uint63.of_Z n) / 100)%float
      else SF2Prim (SFdiv prec emax (S754_finite false p 0) (S754_finite false 100 0))
  | _ => 0%float
  end.

(** Python's [round(x, 2)] on a float: NaN, the infinities and the zeros
    round to themselves; a finite [x] is rounded half-to-even to two
    decimals on its exact value, and the result is the nearest float to
    that decimal, with the sign of [x]. *)
Definition py_round2 (x : float) : float :=
  match Prim2SF x with
  | S754_finite s m e =>
      let r := of_hundredths (hundredths true m e) in
      if s then (- r)%float else r
  | _ => x
  end.

(** JavaScript's [x || 0] on a number: 0, -0 and NaN are falsy. *)
Definition or_zero (x : float) : float :=
  if (is_nan x || is_zero x)%bool then 0%float else x.

(** The float of an integer (exact below 2^53 in absolute value). *)
Definition of_Z (n : Z) : float :=
  match n with
  | Z0 => 0%float
  | Zpos _ => of_uint63 (Uint63.of_Z n)
  | Zneg p => (- of_uint63 (Uint63.of_Z (Zpos p)))%float
  end.

(** The float that [float(text)] gives for the decimal [a / 100] written
    with two decimals: the nearest to it. *)
Definition cents (a : Z) : float := (of_Z a / 100)%float.

End Float64.

(** ** Grade engine *)

Module Grade.
Import Float64.
Local Open Scope string_scope.

(** [calculate_grade] of [vit_result_system.py]. *)
Definition calculate_grade (total : float) : string :=
  if ge total 90 then "A+"
  else if ge total 80 then "A"
  else if ge total 70 then "B+"
  else if ge total 60 then "B"
  else if ge total 50 then "C"
  else "F".

(** The object [{ grade, gpa }] returned by the page script. *)
Record gradeInfo : Type := GradeInfo { grade : string; gpa : Z }.

(** [calculateGrade] of the page script in [VIT-result-th.py]. *)
Definition calculateGrade (marks : float) : gradeInfo :=
  if ge marks 90 then GradeInfo "A+" 10
  else if ge marks 80 then GradeInfo "A" 9
  else if ge marks 70 then GradeInfo "B+" 8
  else if ge marks 60 then GradeInfo "B" 7
  else if ge marks 50 then GradeInfo "C" 6
  else GradeInfo "F" 0.

(** [calculateTotal] of the page script: [parseFloat] of a number is that
    number. *)
Definition calculateTotal (mse ese : float) : float :=
  (mse * 0.3 + ese * 0.7)%float.

(** *** The reference step function, in the words of the specification *)

(** The five bands with their inclusive lower bounds, highest first. *)
Definition bands : list (float * gradeInfo) :=
  [ (90%float, GradeInfo "A+" 10);
    (80%float, GradeInfo "A" 9);
    (70%float, GradeInfo "B+" 8);
    (60%float, GradeInfo "B" 7);
    (50%float, GradeInfo "C" 6) ].

Definition failing_band : gradeInfo := GradeInfo "F" 0.

(** The first band whose lower bound the total reaches, else the failing
    band. *)
Fixpoint step_function (table : list (float * gradeInfo)) (total : float) : gradeInfo :=
  match table with
  | [] => failing_band
  | (lower, band) :: rest =>
      if (lower <=? total)%float then band else step_function rest total
  end.

Definition gradeOf (total : float) : gradeInfo := step_function bands total.

(** The grade point of a letter grade, read off the same table. *)
Definition grade_point (g : string) : Z :=
  match List.find (fun b => String.eqb (grade (snd b)) g) bands with
  | Some b => gpa (snd b)
  | None => 0
  end.

End Grade.

(** ** Documents and collections *)

Module Mongo.
Local Open Scope string_scope.

(** The field values the three applications store: strings, doubles,
    datetimes (microseconds since the epoch) and ObjectIds (96-bit
    numbers). *)
Inductive value : Type :=
| VStr (s : string)
| VNum (x : float)
| VTime (t : Z)
| VId (o : N).

Abbreviation doc := (gmap string value).

(** Equality as an equality query sees it: numbers by numeric equality
    (NaN equal to NaN), the rest by identity. *)
Definition value_eqb (v w : value) : bool :=
  match v, w with
  | VStr a, VStr b => String.eqb a b
  | VNum x, VNum y => ((x =? y)%float || (is_nan x && is_nan y))%bool
  | VTime a, VTime b => Z.eqb a b
  | VId a, VId b => N.eqb a b
  | _, _ => false
  end.

(** The query [{k: v}]. *)
Definition field_is (k : string) (v : value) (d : doc) : bool :=
  match d !! k with
  | Some w => value_eqb v w
  | None => false
  end.

(** The query [{k1: v1, ..., kn: vn}]: every field equal. *)
Definition matches (q : list (string * value)) (d : doc) : bool :=
  forallb (fun kv => field_is (fst kv) (snd kv) d) q.

(** [find_one]: the first document, in natural order, that the query
    selects. *)
Definition find_one (P : doc -> bool) (c : list doc) : option doc := List.find P c.

(** [{"$set": upd}] applied to one document: the fields of [upd] are
    overwritten, the others are kept. *)
Definition set_fields (upd d : doc) : doc := upd ∪ d.

(** [update_one(q, u)] without upsert: [u] is applied to the first
    selected document, if there is one. *)
Fixpoint update_first (P : doc -> bool) (u : doc -> doc) (c : list doc) : list doc :=
  match c with
  | [] => []
  | d :: c' => if P d then u d :: c' else d :: update_first P u c'
  end.

(** [delete_one(q)]: the first selected document is removed; the second
    component is [deleted_count]. *)
Fixpoint delete_one (P : doc -> bool) (c : list doc) : list doc * nat :=
  match c with
  | [] => ([], 0)
  | d :: c' =>
      if P d then (c', 1)
      else let (r, n) := delete_one P c' in (d :: r, n)
  end.

(** [delete_many(q)]: every selected document is removed. *)
Definition delete_many (P : doc -> bool) (c : list doc) : list doc :=
  List.filter (fun d => negb (P d)) c.

(** [update_one(q, {"$set": upd, "$setOnInsert": ins}, upsert=True)]: the
    first selected document is updated with [upd]; when the query selects
    nothing, one document is inserted, made of the query's fields, [upd]
    and [ins], under the fresh identifier [fresh]. *)
Definition upsert_one (q : list (string * value)) (upd ins : doc) (fresh : N)
    (c : list doc) : list doc :=
  if existsb (matches q) c
  then update_first (matches q) (set_fields upd) c
  else c ++ [ <["_id" := VId fresh]> (upd ∪ ins ∪ list_to_map q) ].

(** How many documents a query selects. *)
Definition count (P : doc -> bool) (c : list doc) : nat := length (List.filter P c).

(** A unique index on field [k] refuses a document whose [k] (a missing
    field counts as one more value) is already taken. *)
Definition same_key (k : string) (d d' : doc) : bool :=
  match d !! k, d' !! k with
  | Some v, Some w => value_eqb v w
  | None, None => true
  | _, _ => false
  end.

Definition key_taken (k : string) (d : doc) (c : list doc) : bool :=
  existsb (same_key k d) c.

(** *** ObjectIds as text *)

Definition hex_char (n : N) : ascii :=
  match String.get (N.to_nat n) "0123456789abcdef" with
  | Some a => a
  | None => "0"%char
  end.

Fixpoint hex_digits (k : nat) (n : N) (acc : string) : string :=
  match k with
  | O => acc
  | S k' => hex_digits k' (n / 16)%N (String (hex_char (n mod 16)%N) acc)
  end.

(** [str(oid)]: 24 lower-case hexadecimal digits. *)
Definition oid_str (o : N) : string := hex_digits 24 o "".

Definition hex_value (a : ascii) : option N :=
  let n := N_of_ascii a in
  if ((48 <=? n) && (n <=? 57))%N then Some (n - 48)%N
  else if ((97 <=? n) && (n <=? 102))%N then Some (n - 87)%N
  else if ((65 <=? n) && (n <=? 70))%N then Some (n - 55)%N
  else None.

(** ASCII white space as [bytes.fromhex] knows it: the blank and the
    characters from the tab to the carriage return. *)
Definition hex_space (a : ascii) : bool :=
  let n := N_of_ascii a in
  ((n =? 32) || ((9 <=? n) && (n <=? 13)))%N.

(** [bytes.fromhex(text)]: two hexadecimal digits for each byte, white
    space being skipped before a byte and at the end; [None] stands for
    [ValueError]. *)
Fixpoint fromhex (text : string) : option (list N) :=
  match text with
  | EmptyString => Some []
  | String a rest =>
      if hex_space a then fromhex rest
      else
        match hex_value a, rest with
        | Some top, String b rest' =>
            match hex_value b, fromhex rest' with
            | Some bot, Some bytes => Some ((top * 16 + bot)%N :: bytes)
            | _, _ => None
            end
        | _, _ => None
        end
  end.

(** The number that the bytes of an identifier write, the first byte being
    the highest. *)
Definition of_bytes (bytes : list N) : N :=
  List.fold_left (fun acc b => (acc * 256 + b)%N) bytes 0%N.

(** [ObjectId(text)]: a text of 24 characters that [bytes.fromhex] reads;
    [None] stands for the [InvalidId] exception.  The constructor keeps the
    bytes it gets without counting them: 24 digits give the 12 bytes of an
    identifier, and white space among the 24 characters gives fewer. *)
Definition ObjectId (text : string) : option (list N) :=
  if Nat.eqb (String.length text) 24 then fromhex text else None.

(** The [k] low bytes of [n], the highest first, before [acc]. *)
Fixpoint bytes_be (k : nat) (n : N) (acc : list N) : list N :=
  match k with
  | O => acc
  | S k' => bytes_be k' (n / 256)%N ((n mod 256)%N :: acc)
  end.

(** [oid.binary]: the 12 bytes of an identifier. *)
Definition binary (o : N) : list N := bytes_be 12 o [].

(** Every character of [text] is a hexadecimal digit. *)
Fixpoint hex_text (text : string) : bool :=
  match text with
  | EmptyString => true
  | String a rest => (bool_decide (is_Some (hex_value a)) && hex_text rest)%bool
  end.

(** How many characters of [text] are white space. *)
Fixpoint spaces (text : string) : nat :=
  match text with
  | EmptyString => 0
  | String a rest => (if hex_space a then 1 else 0) + spaces rest
  end.

End Mongo.

(** ** The results portal ([VIT-result-th.py]) *)

Module Portal.
Import Float64 Grade Mongo.
Local Open Scope string_scope.

(** What the portal takes from its runtime and never defines: Python's
    [float(text)] ([None] for [ValueError]), [datetime.isoformat()],
    [str()] on values other than strings and ObjectIds, JavaScript's
    [x.toFixed(2)], the database's regular-expression engine with the
    [i] option ([regex_valid]: the pattern compiles; [regex_host]: it
    matches somewhere in the subject), and what the driver and the database
    make of a query on an identifier that has not 12 bytes ([short_id]:
    the documents that the query selects, or [None] when the query is
    refused). *)
Class Host : Type := {
  py_float : string -> option float;
  isoformat : Z -> string;
  py_str : value -> string;
  toFixed2 : float -> string;
  regex_valid : string -> bool;
  regex_host : string -> string -> bool;
  short_id : list N -> option (doc -> bool)
}.

(** *** The page script: grading and aggregation *)

(** One subject card of the form: the numbers [parseFloat] reads in its two
    mark inputs (NaN for an empty input) and its three read-only outputs. *)
Record card : Type := Card {
  mse_marks : float;
  ese_marks : float;
  total_marks : string;
  grade_field : string;
  gpa_field : string
}.

(** The accumulators of [updateCalculations]. *)
Record tally : Type := Tally { totalGPA : Z; subjectCount : Z; hasFailed : bool }.

(** What [updateCalculations] leaves on the page. *)
Record display : Type := Display {
  cards : list card;
  displayCGPA : string;
  displayStatus : string;
  statusClass : string
}.

(** The range guard of the loop body. *)
Definition out_of_range (mse ese : float) : bool :=
  (lt mse 0 || lt ese 0 || gt mse 100 || gt ese 100)%bool.

(** The grade the loop body gives a card: none when the guard alerts and
    returns. *)
Definition graded (c : card) : option gradeInfo :=
  let mse := or_zero (mse_marks c) in
  let ese := or_zero (ese_marks c) in
  if out_of_range mse ese then None
  else Some (calculateGrade (calculateTotal mse ese)).

Section PageScript.
Context `{Host}.

(** The body of [subjects.forEach]: a card outside the range is left as it
    is and counts for nothing. *)
Definition visit (acc : tally) (c : card) : tally * card :=
  let mse := or_zero (mse_marks c) in
  let ese := or_zero (ese_marks c) in
  if out_of_range mse ese then (acc, c)
  else
    let total := calculateTotal mse ese in
    let gradeInfo := calculateGrade total in
    (Tally (totalGPA acc + gpa gradeInfo) (subjectCount acc + 1)
           (if String.eqb (grade gradeInfo) "F" then true else hasFailed acc),
     Card (mse_marks c) (ese_marks c) (toFixed2 total) (grade gradeInfo)
          (pretty (gpa gradeInfo))).

Fixpoint forEach (acc : tally) (subjects : list card) : tally * list card :=
  match subjects with
  | [] => (acc, [])
  | c :: rest =>
      let (acc1, c1) := visit acc c in
      let (acc2, rest1) := forEach acc1 rest in
      (acc2, c1 :: rest1)
  end.

Definition updateCalculations (subjects : list card) : display :=
  let (acc, subjects1) := forEach (Tally 0 0 false) subjects in
  let cgpa :=
    if (0 <? subjectCount acc)%Z
    then toFixed2 (of_Z (totalGPA acc) / of_Z (subjectCount acc))%float
    else "0.00" in
  let status := if hasFailed acc then "Fail" else "Pass" in
  Display subjects1 cgpa status (if hasFailed acc then "status-fail" else "status-pass").

End PageScript.

(** *** The routes *)

(** The collection with the next ObjectId the driver will generate. *)
Record store : Type := Store { results : list doc; next_oid : N }.

Inductive exn : Type :=
| KeyError (k : string)
| ValueError
| AttributeError
| InvalidId
| DuplicateKeyError
| OperationFailure.

(** The JSON answers: [{success: True, message}], [{success: True, data}]
    and [{success: False, message: "Error: ..."}]. *)
Inductive response : Type :=
| Success (message : string)
| SuccessData (data : list doc)
| Failure (e : exn).

Definition success (r : response) : bool :=
  match r with
  | Failure _ => false
  | _ => true
  end.

(** [data[k]] on the request's JSON object, whose members are the strings
    the page sends. *)
Definition getitem (data : gmap string string) (k : string) : exn + string :=
  match data !! k with
  | Some v => inr v
  | None => inl (KeyError k)
  end.

(** [insert_one] under the unique index on [roll_number]. *)
Definition insert_one (d : doc) (s : store) : exn + store :=
  if key_taken "roll_number" d (results s) then inl DuplicateKeyError
  else inr (Store (results s ++ [ <["_id" := VId (next_oid s)]> d ]) (N.succ (next_oid s))).

Section Routes.
Context `{Host}.

(** The dictionary [result_data] that [save_result] builds, at time [now]. *)
Definition result_data (now : Z) (data : gmap string string) : exn + doc :=
  match getitem data "student_name" with
  | inl e => inl e
  | inr student_name =>
  match getitem data "roll_number" with
  | inl e => inl e
  | inr roll_number =>
  match getitem data "subjects_json" with
  | inl e => inl e
  | inr subjects_json =>
  match getitem data "cgpa" with
  | inl e => inl e
  | inr cgpa_text =>
  match py_float cgpa_text with
  | None => inl ValueError
  | Some cgpa =>
  match getitem data "status" with
  | inl e => inl e
  | inr status =>
      inr ({[ "student_name" := VStr student_name;
              "roll_number" := VStr roll_number;
              "subjects_json" := VStr subjects_json;
              "cgpa" := VNum cgpa;
              "status" := VStr status;
              "created_at" := VTime now ]} : doc)
  end end end end end end.

(** [save_result]: an exception leaves the collection as it was. *)
Definition save_result (now : Z) (data : gmap string string) (s : store) : store * response :=
  match result_data now data, getitem data "roll_number" with
  | inr rd, inr roll =>
      let q := [("roll_number", VStr roll)] in
      match find_one (matches q) (results s) with
      | Some existing =>
          (Store (update_first (matches q) (set_fields rd) (results s)) (next_oid s),
           Success "Result updated successfully!")
      | None =>
          match insert_one rd s with
          | inr s' => (s', Success "Result saved successfully!")
          | inl e => (s, Failure e)
          end
      end
  | inl e, _ | _, inl e => (s, Failure e)
  end.

(** The query [{"_id": oid}] for the bytes of [oid]: twelve bytes are an
    identifier; what fewer bytes select is the host's matter. *)
Definition id_query (bytes : list N) : option (doc -> bool) :=
  if Nat.eqb (length bytes) 12 then Some (field_is "_id" (VId (of_bytes bytes)))
  else short_id bytes.

(** [delete_result]: the answer does not depend on what was deleted. *)
Definition delete_result (data : gmap string string) (s : store) : store * response :=
  match getitem data "id" with
  | inl e => (s, Failure e)
  | inr result_id =>
      match ObjectId result_id with
      | None => (s, Failure InvalidId)
      | Some bytes =>
          match id_query bytes with
          | None => (s, Failure OperationFailure)
          | Some q =>
              (Store (fst (delete_one q (results s))) (next_oid s),
               Success "Result deleted successfully!")
          end
      end
  end.

(** **** Searching: [{"$regex": term, "$options": "i"}]

    The engine itself belongs to the database.  Its behaviour is written
    out on one fragment: patterns made of ordinary ASCII characters, each
    standing for itself in either case, and of the dot, which stands for
    any character but a line feed.  Everything else goes to the host's
    engine. *)

Definition meta_chars : string := "\^$.|?*+()[]{}".

Fixpoint occurs (a : ascii) (s : string) : bool :=
  match s with
  | EmptyString => false
  | String b s' => (Ascii.eqb a b || occurs a s')%bool
  end.

(** An ASCII character other than NUL, which no pattern may hold. *)
Definition ascii_char (a : ascii) : bool :=
  ((1 <=? N_of_ascii a) && (N_of_ascii a <=? 127))%N.

(** A character that a pattern takes literally: any but the fourteen
    metacharacters. *)
Definition ordinary (a : ascii) : bool := (ascii_char a && negb (occurs a meta_chars))%bool.

Inductive atom : Type :=
| Lit (a : ascii)
| AnyChar.

Fixpoint compile (pattern : string) : option (list atom) :=
  match pattern with
  | EmptyString => Some []
  | String a rest =>
      match compile rest with
      | None => None
      | Some atoms =>
          if ordinary a then Some (Lit a :: atoms)
          else if Ascii.eqb a "." then Some (AnyChar :: atoms)
          else None
      end
  end.

(** The atoms of a term in which every character stands for itself. *)
Fixpoint lits (term : string) : list atom :=
  match term with
  | EmptyString => []
  | String a rest => Lit a :: lits rest
  end.

(** ASCII case folding. *)
Definition lower (a : ascii) : ascii :=
  let n := N_of_ascii a in
  if ((65 <=? n) && (n <=? 90))%N then ascii_of_N (n + 32) else a.

Fixpoint lower_string (s : string) : string :=
  match s with
  | EmptyString => EmptyString
  | String a s' => String (lower a) (lower_string s')
  end.

Definition atom_matches (t : atom) (a : ascii) : bool :=
  match t with
  | Lit c => Ascii.eqb (lower c) (lower a)
  | AnyChar => negb (Ascii.eqb a (ascii_of_N 10))
  end.

Fixpoint match_here (atoms : list atom) (subject : string) : bool :=
  match atoms with
  | [] => true
  | t :: atoms' =>
      match subject with
      | EmptyString => false
      | String a subject' => (atom_matches t a && match_here atoms' subject')%bool
      end
  end.

Fixpoint match_anywhere (atoms : list atom) (subject : string) : bool :=
  (match_here atoms subject ||
   match subject with
   | EmptyString => false
   | String _ subject' => match_anywhere atoms subject'
   end)%bool.

Fixpoint ascii_only (s : string) : bool :=
  match s with
  | EmptyString => true
  | String a s' => ((N_of_ascii a <? 128)%N && ascii_only s')%bool
  end.

(** The compiled pattern as a test on subjects, or [None] when the pattern
    does not compile.  A subject beyond ASCII (where one character is
    several bytes, and case is a matter of Unicode) is left to the host as
    well. *)
Definition regex_i (pattern : string) : option (string -> bool) :=
  match compile pattern with
  | Some atoms =>
      Some (fun subject =>
              if ascii_only subject then match_anywhere atoms subject
              else regex_host pattern subject)
  | None =>
      if regex_valid pattern then Some (regex_host pattern) else None
  end.

(** A regular-expression condition on field [k]: only a string can
    match. *)
Definition regex_field (re : string -> bool) (k : string) (d : doc) : bool :=
  match d !! k with
  | Some (VStr s) => re s
  | _ => false
  end.

(** The loop that makes a found document fit for JSON. *)
Definition str_id (v : value) : string :=
  match v with
  | VId o => oid_str o
  | VStr s => s
  | _ => py_str v
  end.

Definition jsonable (d : doc) : exn + doc :=
  match d !! "_id" with
  | None => inl (KeyError "_id")
  | Some i =>
      let d1 := <["_id" := VStr (str_id i)]> d in
      let d2 := <["id" := VStr (str_id i)]> d1 in
      match d2 !! "created_at" with
      | None => inl (KeyError "created_at")
      | Some (VTime t) => inr (<["created_at" := VStr (isoformat t)]> d2)
      | Some _ => inl AttributeError
      end
  end.

Fixpoint jsonable_all (ds : list doc) : exn + list doc :=
  match ds with
  | [] => inr []
  | d :: rest =>
      match jsonable d with
      | inl e => inl e
      | inr d' =>
          match jsonable_all rest with
          | inl e => inl e
          | inr rest' => inr (d' :: rest')
          end
      end
  end.

(** [search_result]. *)
Definition search_result (data : gmap string string) (s : store) : response :=
  match getitem data "search_term" with
  | inl e => Failure e
  | inr search_term =>
      match regex_i search_term with
      | None => Failure OperationFailure
      | Some re =>
          let found :=
            List.filter (fun d => (regex_field re "roll_number" d ||
                                   regex_field re "student_name" d)%bool)
                        (results s) in
          match jsonable_all found with
          | inl e => Failure e
          | inr data' => SuccessData data'
          end
      end
  end.

End Routes.

(** In the words of the specification: [subject] contains [term] as a
    case-insensitive substring. *)
Definition contains_ci (term subject : string) : Prop :=
  exists before after : string,
    lower_string subject = before ++ lower_string term ++ after.

(** The text field [k] of [d] contains [term]. *)
Definition field_contains (term k : string) (d : doc) : Prop :=
  exists v : string, d !! k = Some (VStr v) /\ contains_ci term v.

(** [subject] has a character other than a line feed. *)
Definition more_than_line_feeds (subject : string) : Prop :=
  exists (before : string) (a : ascii) (after : string),
    subject = before ++ String a after /\ a <> ascii_of_N 10.

(** The text field [k] of [d] has a character other than a line feed. *)
Definition field_has_character (k : string) (d : doc) : Prop :=
  exists v : string, d !! k = Some (VStr v) /\ more_than_line_feeds v.

(** A term of ASCII characters none of which a pattern reads specially. *)
Fixpoint plain (term : string) : bool :=
  match term with
  | EmptyString => true
  | String a rest => (ordinary a && plain rest)%bool
  end.

(** The roll number and the name of [d] are ASCII text, where they are
    text. *)
Definition ascii_fields (d : doc) : Prop :=
  forall v : string,
    d !! "roll_number" = Some (VStr v) \/ d !! "student_name" = Some (VStr v) ->
    ascii_only v = true.

(** What [save_result] keeps true of the collection: every result has an
    identifier and a time stamp, and no roll number is taken twice. *)
Definition well_formed (s : store) : Prop :=
  (forall d, In d (results s) ->
             exists i t, d !! "_id" = Some i /\ d !! "created_at" = Some (VTime t)) /\
  (forall roll, count (matches [("roll_number", VStr roll)]) (results s) <= 1).

End Portal.

(** ** The results dashboard ([vit_result_system.py]) *)

Module Dashboard.
Import Float64 Grade Mongo.
Local Open Scope string_scope.

(** The three collections of [Database], with the next ObjectId. *)
Record state : Type := State {
  students : list doc;
  subjects : list doc;
  marks : list doc;
  next_id : N
}.

(** [StudentService.delete_student]: the student's marks go first, then
    the student; the answer is [deleted_count > 0]. *)
Definition delete_student (roll_no : string) (s : state) : state * bool :=
  let marks' := delete_many (matches [("studentId", VStr roll_no)]) (marks s) in
  let (students', deleted_count) :=
    delete_one (matches [("rollNo", VStr roll_no)]) (students s) in
  (State students' (subjects s) marks' (next_id s), Nat.ltb 0 deleted_count).

(** The total that [add_or_update_marks] computes before rounding. *)
Definition raw_total (mse ese : float) : float :=
  let mse_percent := ((mse / 30) * 30)%float in
  let ese_percent := ((ese / 70) * 70)%float in
  (mse_percent + ese_percent)%float.

(** The dictionary [mark] of [add_or_update_marks], at time [now]. *)
Definition mark (now : Z) (student_id subject_id : string) (mse ese : float) : doc :=
  let total := raw_total mse ese in
  let grade := calculate_grade total in
  {[ "studentId" := VStr student_id;
     "subjectId" := VStr subject_id;
     "mseMarks" := VNum mse;
     "eseMarks" := VNum ese;
     "total" := VNum (py_round2 total);
     "grade" := VStr grade;
     "updatedAt" := VTime now ]}.

(** [MarkService.add_or_update_marks]: one upsert on the pair
    [(studentId, subjectId)]; [createdAt] is written on insert only.  The
    clock is read twice: [now] for [updatedAt], then [later] for
    [createdAt]. *)
Definition add_or_update_marks (now later : Z) (student_id subject_id : string)
    (mse ese : float) (s : state) : state * bool :=
  let q := [("studentId", VStr student_id); ("subjectId", VStr subject_id)] in
  let marks' :=
    upsert_one q (mark now student_id subject_id mse ese)
               {[ "createdAt" := VTime later ]} (next_id s) (marks s) in
  (State (students s) (subjects s) marks' (N.succ (next_id s)), true).

(** *** [MarkService.get_student_marks]: the aggregation pipeline *)

(** [$lookup] compares the local and the foreign field; two missing
    fields are equal. *)
Definition joins (local foreign : option value) : bool :=
  match local, foreign with
  | Some v, Some w => value_eqb v w
  | None, None => true
  | _, _ => false
  end.

(** [$lookup] into [subject] followed by [$unwind]: one row per subject
    whose [code] is the mark's [subjectId]. *)
Definition lookup_unwind (subjects : list doc) (m : doc) : list (doc * doc) :=
  List.map (fun sub => (m, sub))
           (List.filter (fun sub => joins (m !! "subjectId") (sub !! "code")) subjects).

Definition put (k : string) (v : option value) (d : doc) : doc :=
  match v with
  | Some x => <[k := x]> d
  | None => d
  end.

(** [$project]. *)
Definition project (row : doc * doc) : doc :=
  let (m, subject) := row in
  put "subjectCode" (m !! "subjectId")
    (put "subjectName" (subject !! "subjectName")
       (put "mseMarks" (m !! "mseMarks")
          (put "eseMarks" (m !! "eseMarks")
             (put "total" (m !! "total")
                (put "grade" (m !! "grade") ∅))))).

(** The order in which a sort compares values: a missing field first,
    then numbers, strings, ObjectIds and dates. *)
Definition type_rank (v : option value) : nat :=
  match v with
  | None => 0
  | Some (VNum _) => 1
  | Some (VStr _) => 2
  | Some (VId _) => 3
  | Some (VTime _) => 4
  end.

Definition sort_leb (v w : option value) : bool :=
  match v, w with
  | Some (VNum x), Some (VNum y) => (is_nan x || (x <=? y)%float)%bool
  | Some (VStr a), Some (VStr b) => String.leb a b
  | Some (VId a), Some (VId b) => (a <=? b)%N
  | Some (VTime a), Some (VTime b) => (a <=? b)%Z
  | _, _ => Nat.leb (type_rank v) (type_rank w)
  end.

Fixpoint insert_sorted (k : string) (d : doc) (sorted : list doc) : list doc :=
  match sorted with
  | [] => [d]
  | d' :: rest =>
      if sort_leb (d !! k) (d' !! k) then d :: sorted
      else d' :: insert_sorted k d rest
  end.

(** [{"$sort": {k: 1}}]. *)
Definition sort_by (k : string) (ds : list doc) : list doc :=
  List.fold_right (insert_sorted k) [] ds.

Definition get_student_marks (student_id : string) (s : state) : list doc :=
  let matched := List.filter (matches [("studentId", VStr student_id)]) (marks s) in
  let rows := List.flat_map (lookup_unwind (subjects s)) matched in
  sort_by "subjectCode" (List.map project rows).

(** *** The class average of [MarkService.get_dashboard_stats] *)

(** The numeric [total]s that [$avg] averages. *)
Definition numeric_totals (ms : list doc) : list float :=
  List.flat_map (fun d => match d !! "total" with
                          | Some (VNum x) => [x]
                          | _ => []
                          end) ms.

(** [$group] with [_id: None] gives no group on an empty collection and
    one otherwise, whose average is null when no [total] is a number;
    [avg] is the server's mean of a non-empty list. *)
Definition avg_result (avg : list float -> float) (ms : list doc) : list (option float) :=
  match ms with
  | [] => []
  | _ =>
      match numeric_totals ms with
      | [] => [None]
      | ts => [Some (avg ts)]
      end
  end.

(** [class_average]: [None] stands for the [TypeError] of rounding a
    null. *)
Definition class_average (avg : list float -> float) (ms : list doc) : option float :=
  match avg_result avg ms with
  | [] => Some 0%float
  | r :: _ =>
      match r with
      | Some a => Some (py_round2 a)
      | None => None
      end
  end.

(** What [add_or_update_marks] keeps true of the marks: no pair of student
    and subject is taken twice. *)
Definition marks_unique (s : state) : Prop :=
  forall sid subj,
    count (matches [("studentId", VStr sid); ("subjectId", VStr subj)]) (marks s) <= 1.

End Dashboard.

(** ** Checking the stored total on a grid of marks *)

Module TotalCheck.
Import Float64.

(** The floats next to [c], two steps either way. *)
Definition near (c : float) : list float :=
  [c; next_up c; next_down c; next_up (next_up c); next_down (next_down c)].

(** Those of them that [round(_, 2)] sends to [k / 100]. *)
Definition rounding_to (k : Z) : list float :=
  List.filter (fun v => PrimFloat.Leibniz.eqb (py_round2 v) (cents k)) (near (cents k)).

(** The integers from 0 to [n - 1]. *)
Definition zrange (n : Z) : list Z := List.map Z.of_nat (List.seq 0 (Z.to_nat n)).

(** The raw total of [x] with each of [ys] is in the list at the same
    place in [Ds]. *)
Fixpoint check_row (x : float) (ys : list float) (Ds : list (list float)) : bool :=
  match ys, Ds with
  | y :: ys', D :: Ds' =>
      (List.existsb (PrimFloat.Leibniz.eqb (Dashboard.raw_total x y)) D
       && check_row x ys' Ds')%bool
  | [], _ => true
  | _ :: _, [] => false
  end.

(** The same for each of [xs], the lists moving one place along at each
    step. *)
Fixpoint check_rows (xs ys : list float) (Ds : list (list float)) : bool :=
  match xs with
  | [] => true
  | x :: xs' => (check_row x ys Ds && check_rows xs' ys (List.tl Ds))%bool
  end.

End TotalCheck.

(** ** The bookstore ([bookstore.py]) *)

Module Bookstore.
Import Mongo.
Local Open Scope string_scope.

(** The [users] collection, the session and the messages flashed but not
    yet shown.  (Flask keeps the pending messages in the session cookie
    under a key of its own; they are kept apart here.) *)
Record app : Type := App {
  users : list doc;
  session : gmap string value;
  flashes : list (string * string)
}.

Inductive http_method : Type := GET | POST.

(** What the client gets: a redirect to the home page, the login page
    (which shows and empties the pending messages), or an error page. *)
Inductive page : Type :=
| RedirectHome
| LoginPage (messages : list (string * string))
| BadRequest
| ServerError.

Definition flash (message category : string) (a : app) : app :=
  App (users a) (session a) (flashes a ++ [(category, message)]).

Definition render_login (a : app) : app * page :=
  (App (users a) (session a) [], LoginPage (flashes a)).

(** [login]. *)
Definition login (m : http_method) (form : gmap string string) (a : app) : app * page :=
  match m with
  | GET => render_login a
  | POST =>
      match form !! "email", form !! "password" with
      | Some email, Some password =>
          match find_one (matches [("email", VStr email); ("password", VStr password)])
                         (users a) with
          | Some user =>
              match user !! "name" with
              | None => (a, ServerError)
              | Some name =>
                  let a1 := App (users a) (<["user" := name]> (session a)) (flashes a) in
                  match name with
                  | VStr n => (flash ("Welcome back, " ++ n ++ "!") "success" a1, RedirectHome)
                  | _ => (a1, ServerError)
                  end
              end
          | None => render_login (flash "Invalid credentials!" "error" a)
          end
      | _, _ => (a, BadRequest)
      end
  end.

End Bookstore.

(** ** Data for the worked examples *)

Module Sample.
Import Float64 Mongo.
Local Open Scope string_scope.

(** The digits of [text] read as one integer, the dot skipped, with the
    number of digits after the dot; [None] on any other character. *)
Fixpoint read_digits (text : string) (acc : Z) (after_dot : option Z) : option (Z * Z) :=
  match text with
  | EmptyString => Some (acc, default 0%Z after_dot)
  | String a rest =>
      let n := Z.of_N (N_of_ascii a) in
      if ((48 <=? n) && (n <=? 57))%Z
      then read_digits rest (acc * 10 + (n - 48))%Z (fmap Z.succ after_dot)
      else if (Ascii.eqb a "." && negb (bool_decide (is_Some after_dot)))%bool
      then read_digits rest acc (Some 0%Z)
      else None
  end.

(** A reader of plain decimals such as 4.50. *)
Definition read_decimal (text : string) : option float :=
  match read_digits text 0 None with
  | Some (n, k) => Some (of_Z n / of_Z (10 ^ k))%float
  | None => None
  end.

(** A two-decimal writer for finite numbers that are not negative. *)
Definition write_fixed2 (x : float) : string :=
  match Prim2SF x with
  | S754_zero _ => "0.00"
  | S754_finite false m e =>
      let n := hundredths false m e in
      pretty (n / 100)%Z ++ "." ++ pretty (n mod 100 / 10)%Z ++ pretty (n mod 10)%Z
  | _ => "NaN"
  end.

(** A host that reads and writes plain decimals, whose engine knows no
    pattern beyond the fragment written out in [Portal], and whose database
    finds nothing under an identifier that has not 12 bytes. *)
Definition host : Portal.Host := {|
  Portal.py_float := read_decimal;
  Portal.isoformat := fun t => pretty t;
  Portal.py_str := fun _ => "";
  Portal.toFixed2 := write_fixed2;
  Portal.regex_valid := fun _ => false;
  Portal.regex_host := fun _ _ => false;
  Portal.short_id := fun _ => Some (fun _ => false)
|}.

(** The request of the page for a student with the average 4.50. *)
Definition request : gmap string string :=
  {[ "student_name" := "Asha Rao";
     "roll_number" := "21AIML001";
     "subjects_json" := "[]";
     "cgpa" := "4.50";
     "status" := "Fail" ]}.

(** What [save_result] stores for it at time [now]. *)
Definition request_fields (now : Z) : doc :=
  {[ "student_name" := VStr "Asha Rao";
     "roll_number" := VStr "21AIML001";
     "subjects_json" := VStr "[]";
     "cgpa" := VNum 4.5;
     "status" := VStr "Fail";
     "created_at" := VTime now ]}.

Definition empty_store : Portal.store := Portal.Store [] 0.

(** A store with the result of one student. *)
Definition one_result : Portal.store :=
  fst (Portal.save_result (H := host) 1 request empty_store).

Definition empty_state : Dashboard.state := Dashboard.State [] [] [] 0.

(** A dashboard with one student, the four default subjects of
    [_initialize_data] and one mark. *)
Definition one_mark : Dashboard.state :=
  fst (Dashboard.add_or_update_marks 1 2 "21AIML001" "ML3001" 24 56
         (Dashboard.State
            [ {[ "rollNo" := VStr "21AIML001"; "name" := VStr "Asha Rao";
                 "email" := VStr "asha@example.org" ]} ]
            [ {[ "subjectName" := VStr "Computer Network Technology"; "code" := VStr "ML3001" ]};
              {[ "subjectName" := VStr "Design and Analysis of Algorithms"; "code" := VStr "ML3002" ]};
              {[ "subjectName" := VStr "Machine Learning"; "code" := VStr "ML3003" ]};
              {[ "subjectName" := VStr "Cloud Computing"; "code" := VStr "ML3004" ]} ]
            [] 0)).

(** A bookstore with one registered user. *)
Definition one_user : Bookstore.app :=
  Bookstore.App
    [ {[ "_id" := VId 1; "name" := VStr "Asha"; "email" := VStr "asha@example.org";
         "password" := VStr "s3cret" ]} ]
    ∅ [].

End Sample.

(** ** More of the database driver

    What the remaining routes and services use of the driver: the identity
    of stored values, the precision of stored datetimes, [insert_many] and
    descending sorts. *)

Module Driver.
Import Float64 Mongo.
Local Open Scope string_scope.

(** Two stored numbers are the same value when they are the same binary64
    number. *)
#[global] Instance float_eq_dec : EqDecision float.
Proof.
  intros x y. destruct (PrimFloat.Leibniz.eqb x y) eqn:E.
  - left. apply FloatAxioms.Leibniz.eqb_spec, E.
  - right. intros Heq. apply FloatAxioms.Leibniz.eqb_spec in Heq. congruence.
Defined.

#[global] Instance value_eq_dec : EqDecision value.
Proof. solve_decision. Defined.

(** A datetime as the database keeps it: to the millisecond.  The
    precision matters where a stored time is compared with a new one, as
    [modified_count] does. *)
Definition millis (t : Z) : Z := (t / 1000 * 1000)%Z.

(** Whether [{"$set": upd}] changes the document: what [modified_count]
    counts. *)
Definition modified (upd d : doc) : bool := negb (bool_decide (set_fields upd d = d)).

(** [insert_many]: the documents are appended in order, under consecutive
    fresh identifiers. *)
Fixpoint insert_many (ds : list doc) (fresh : N) (c : list doc) : list doc * N :=
  match ds with
  | [] => (c, fresh)
  | d :: rest => insert_many rest (N.succ fresh) (c ++ [ <["_id" := VId fresh]> d ])
  end.

(** [{k: -1}] as a sort: the order of [Dashboard.sort_leb] reversed.  The
    database leaves the order of documents that compare equal open; here
    they keep their natural order. *)
Fixpoint insert_sorted_desc (k : string) (d : doc) (sorted : list doc) : list doc :=
  match sorted with
  | [] => [d]
  | d' :: rest =>
      if Dashboard.sort_leb (d' !! k) (d !! k) then d :: sorted
      else d' :: insert_sorted_desc k d rest
  end.

Definition sort_by_desc (k : string) (ds : list doc) : list doc :=
  List.fold_right (insert_sorted_desc k) [] ds.

(** [d] sorts before or with [d'] on field [k]. *)
Definition before (k : string) (d d' : doc) : Prop :=
  Dashboard.sort_leb (d !! k) (d' !! k) = true.

End Driver.

(** ** The student and subject services ([vit_result_system.py]) *)

Module Services.
Import Float64 Grade Mongo Driver Dashboard.
Local Open Scope string_scope.

(** [Database._initialize_data]: the four subjects of the semester are
    inserted when the collection holds none. *)
Definition default_subjects : list doc :=
  [ {[ "subjectName" := VStr "Computer Network Technology"; "code" := VStr "ML3001" ]};
    {[ "subjectName" := VStr "Design and Analysis of Algorithms"; "code" := VStr "ML3002" ]};
    {[ "subjectName" := VStr "Machine Learning"; "code" := VStr "ML3003" ]};
    {[ "subjectName" := VStr "Cloud Computing"; "code" := VStr "ML3004" ]} ].

Definition _initialize_data (s : state) : state :=
  if Nat.eqb (count (fun _ => true) (subjects s)) 0
  then let (subjects', fresh) := insert_many default_subjects (next_id s) (subjects s) in
       State (students s) subjects' (marks s) fresh
  else s.

(** The dictionary [student] of [add_student]; the clock is read twice. *)
Definition student (now later : Z) (roll_no name email : string) : doc :=
  {[ "rollNo" := VStr roll_no;
     "name" := VStr name;
     "email" := VStr email;
     "createdAt" := VTime (millis now);
     "updatedAt" := VTime (millis later) ]}.

(** [StudentService.add_student]: [insert_one] under the unique indexes
    on [rollNo] and on [email] that [_create_indexes] declares; the
    duplicate-key error is caught and answered with [False]. *)
Definition add_student (now later : Z) (roll_no name email : string) (s : state) :
    state * bool :=
  let d := student now later roll_no name email in
  if (key_taken "rollNo" d (students s) || key_taken "email" d (students s))%bool
  then (s, false)
  else (State (students s ++ [ <["_id" := VId (next_id s)]> d ]) (subjects s) (marks s)
              (N.succ (next_id s)),
        true).

(** [StudentService.get_all_students]: every student without its [_id],
    by roll number. *)
Definition get_all_students (s : state) : list doc :=
  List.map (delete "_id") (sort_by "rollNo" (students s)).

(** [StudentService.get_student_by_roll_no]. *)
Definition get_student_by_roll_no (roll_no : string) (s : state) : option doc :=
  delete "_id" <$> find_one (matches [("rollNo", VStr roll_no)]) (students s).

(** [StudentService.update_student]: [update_one] without upsert on the
    first student with the roll number.  The unique index on [email]
    refuses an address that another student holds (the error is caught
    and answered with [False]); the answer is [modified_count > 0]. *)
Definition update_student (now : Z) (roll_no name email : string) (s : state) :
    state * bool :=
  let q := matches [("rollNo", VStr roll_no)] in
  let upd : doc := {[ "name" := VStr name; "email" := VStr email;
                      "updatedAt" := VTime (millis now) ]} in
  match find_one q (students s) with
  | None => (s, false)
  | Some d =>
      if key_taken "email" (set_fields upd d) (fst (delete_one q (students s)))
      then (s, false)
      else (State (update_first q (set_fields upd) (students s)) (subjects s) (marks s)
                  (next_id s),
            modified upd d)
  end.

(** [SubjectService.get_all_subjects]. *)
Definition get_all_subjects (s : state) : list doc :=
  List.map (delete "_id") (subjects s).

(** What the unique indexes on the students keep true. *)
Definition students_unique (s : state) : Prop :=
  (forall roll_no, count (matches [("rollNo", VStr roll_no)]) (students s) <= 1) /\
  (forall email, count (matches [("email", VStr email)]) (students s) <= 1).

End Services.

(** ** The marks page ([show_marks] of [vit_result_system.py]) *)

Module MarksPage.
Import Float64 Grade Mongo Driver Dashboard.
Local Open Scope string_scope.

(** [get_grade_color]. *)
Definition colors : gmap string string :=
  {[ "A+" := "#10b981";
     "A" := "#22c55e";
     "B+" := "#3b82f6";
     "B" := "#60a5fa";
     "C" := "#f59e0b";
     "F" := "#ef4444" ]}.

Definition get_grade_color (grade : string) : string :=
  default "#6b7280" (colors !! grade).

Section Page.
(** Python's [float(text)] ([None] for [ValueError]) and [text.strip()]. *)
Variable py_float : string -> option float.
Variable strip : string -> string.

(** [float(value)] on a stored value: a datetime or an ObjectId raises
    [TypeError]. *)
Definition to_float (value : value) : option float :=
  match value with
  | VNum x => Some x
  | VStr text => py_float text
  | _ => None
  end.

(** The loop of [_normalize_mark], with the attempts that are left. *)
Fixpoint rescale (attempts : nat) (v : float) : float :=
  match attempts with
  | O => v
  | S attempts' => if lt v 1 then rescale attempts' (v * 100)%float else v
  end.

(** [_normalize_mark], nested in [show_marks]. *)
Definition _normalize_mark (value : value) (max_mark : Z) : float :=
  match to_float value with
  | None => 0%float
  | Some v =>
      let v := if (lt 0 v && le v 1)%bool then (v * of_Z max_mark)%float else v in
      let v := rescale 4 v in
      let v := if lt v 0 then 0%float else v in
      let v := if gt v (of_Z max_mark) then of_Z max_mark else v in
      py_round2 v
  end.

(** One text input of the form: an input left empty or blank counts as
    0.0; [None] stands for the error shown when the text is no number. *)
Definition parse_input (text : string) : option float :=
  if (negb (String.eqb text "") && negb (String.eqb (strip text) ""))%bool
  then py_float text
  else Some 0%float.

(** The errors of the form. *)
Inductive form_error : Type :=
| InvalidMSE
| InvalidESE
| MSEOutOfRange
| ESEOutOfRange.

(** Parsing and range validation: the two numbers, [parse_ok] and the
    errors shown. *)
Definition read_marks (mse_text ese_text : string) : float * float * bool * list form_error :=
  let mse := parse_input mse_text in
  let ese := parse_input ese_text in
  let mse_num := default 0%float mse in
  let ese_num := default 0%float ese in
  match mse, ese with
  | Some _, Some _ =>
      let mse_bad := (lt mse_num 0 || gt mse_num 30)%bool in
      let ese_bad := (lt ese_num 0 || gt ese_num 70)%bool in
      (mse_num, ese_num, (negb mse_bad && negb ese_bad)%bool,
       ((if mse_bad then [MSEOutOfRange] else []) ++
        (if ese_bad then [ESEOutOfRange] else []))%list)
  | _, _ =>
      (mse_num, ese_num, false,
       (match mse with None => [InvalidMSE] | Some _ => [] end ++
        match ese with None => [InvalidESE] | Some _ => [] end)%list)
  end.

(** The preview: the total and the grade shown before submitting, when
    there is something to show. *)
Definition preview (mse_text ese_text : string) : option (float * string) :=
  let '(mse_num, ese_num, parse_ok, _) := read_marks mse_text ese_text in
  if (parse_ok && (gt mse_num 0 || gt ese_num 0))%bool
  then let total := py_round2 (mse_num + ese_num)%float in
       Some (total, calculate_grade total)
  else None.

(** What submitting the form answers. *)
Inductive submitted : Type :=
| MarksSaved
| SaveFailed
| FixInputErrors.

(** The submit button. *)
Definition submit (now later : Z) (student_id subject_id mse_text ese_text : string)
    (s : state) : state * submitted :=
  let '(mse_num, ese_num, parse_ok, _) := read_marks mse_text ese_text in
  if parse_ok
  then let (s', ok) := add_or_update_marks now later student_id subject_id mse_num ese_num s in
       (s', if ok then MarksSaved else SaveFailed)
  else (s, FixInputErrors).

End Page.

End MarksPage.

(** ** Checks by evaluation on the marks with two decimals *)

Module GridCheck.
Import Float64 TotalCheck.

(** The [count] integers from [i] on. *)
Fixpoint from (count : nat) (i : Z) : list Z :=
  match count with
  | O => []
  | S count' => i :: from count' (i + 1)%Z
  end.

(** The integers from 0 to [n - 1]: the list [zrange n], made by counting
    upwards. *)
Definition upto (n : Z) : list Z := from (Z.to_nat n) 0.

(** [total x y] is in the list at the same place in [Ds], for each [y] of
    [ys]. *)
Fixpoint row_in (total : float -> float -> float) (x : float) (ys : list float)
    (Ds : list (list float)) : bool :=
  match ys, Ds with
  | y :: ys', D :: Ds' =>
      (List.existsb (PrimFloat.Leibniz.eqb (total x y)) D && row_in total x ys' Ds')%bool
  | [], _ => true
  | _ :: _, [] => false
  end.

(** The same for each of [xs], the lists moving one place along at each
    step. *)
Fixpoint rows_in (total : float -> float -> float) (xs ys : list float)
    (Ds : list (list float)) : bool :=
  match xs with
  | [] => true
  | x :: xs' => (row_in total x ys Ds && rows_in total xs' ys (List.tl Ds))%bool
  end.

(** None of the floats next to one of the first [N] multiples of 0.05 has
    a better grade than that multiple. *)
Definition grades_below (N : Z) : bool :=
  forallb (fun n =>
             forallb (fun v => (Grade.grade_point (Grade.calculate_grade v) <=?
                                Grade.grade_point (Grade.calculate_grade (cents (5 * n))))%Z)
                     (near (cents (5 * n))))
          (upto N).

(** The multiples of 0.05 up to [K] are neither below 0 nor above [K],
    and above 0 from the second on. *)
Definition marks_in_range (K : Z) : bool :=
  forallb (fun i => (negb (lt (cents (5 * i)) 0) && negb (gt (cents (5 * i)) (of_Z K)) &&
                     (Z.eqb i 0 || gt (cents (5 * i)) 0))%bool)
          (upto (20 * K + 1)).

(** The nearest floats to the decimals [n / 100] up to [K] are between 0
    and [K]. *)
Definition rounds_within (K : Z) : bool :=
  forallb (fun n => (le 0 (of_hundredths n) && le (of_hundredths n) (of_Z K))%bool)
          (upto (100 * K + 1)).

(** [_normalize_mark] gives back the stored marks from 1.01 to [K], in
    steps of 0.01. *)
Definition shown_as_stored (K : Z) : bool :=
  forallb (fun n => PrimFloat.Leibniz.eqb
                      (MarksPage._normalize_mark (fun _ => None) (Mongo.VNum (cents n)) K)
                      (cents n))
          (List.map (fun i => i + 101)%Z (upto (100 * K - 100))).

(** [_normalize_mark] gives more than the stored mark from 0.01 to 1.00. *)
Definition shown_larger (K : Z) : bool :=
  forallb (fun n => lt (cents n)
                       (MarksPage._normalize_mark (fun _ => None) (Mongo.VNum (cents n)) K))
          (List.map (fun i => i + 1)%Z (upto 100)).

(** Pairs of floats, one pair for each total in turn. *)
Inductive brackets : Type :=
| BNil
| BCons (lo hi : float) (rest : brackets).

Definition rest_of (Ds : brackets) : brackets :=
  match Ds with
  | BNil => BNil
  | BCons _ _ rest => rest
  end.

(** [x + y] is between the two floats at the same place in [Ds], for each
    [y] of [ys]. *)
Fixpoint row_within (x : float) (ys : list float) (Ds : brackets) : bool :=
  match ys, Ds with
  | y :: ys', BCons lo hi Ds' =>
      let v := (x + y)%float in
      if (lo <=? v)%float
      then if (v <=? hi)%float then row_within x ys' Ds' else false
      else false
  | [], _ => true
  | _ :: _, BNil => false
  end.

(** The same for each of [xs], the pairs moving one place along at each
    step. *)
Fixpoint rows_within (xs ys : list float) (Ds : brackets) : bool :=
  match xs with
  | [] => true
  | x :: xs' => if row_within x ys Ds then rows_within xs' ys (rest_of Ds) else false
  end.

(** The second float below and the second float above [k / 100]. *)
Definition under (k : Z) : float := next_down (next_down (cents k)).
Definition over (k : Z) : float := next_up (next_up (cents k)).

Fixpoint table (ks : list Z) : brackets :=
  match ks with
  | [] => BNil
  | k :: ks' => BCons (under k) (over k) (table ks')
  end.

(** [x] is a positive number with an exponent below 0, and [100 x] is
    above [k - 1/2]. *)
Definition lower_ok (k : Z) (x : float) : bool :=
  match Prim2SF x with
  | S754_finite false m (Zneg p) => ((2 * k - 1) * 2 ^ Zpos p <? 200 * Zpos m)%Z
  | _ => false
  end.

(** The same, with [100 x] below [k + 1/2]. *)
Definition upper_ok (k : Z) (x : float) : bool :=
  match Prim2SF x with
  | S754_finite false m (Zneg p) => (200 * Zpos m <? (2 * k + 1) * 2 ^ Zpos p)%Z
  | _ => false
  end.

(** The pairs for the totals from 0.01 to [N / 100] are such numbers. *)
Definition brackets_ok (N : Z) : bool :=
  forallb (fun k => (lower_ok k (under k) && upper_ok k (over k))%bool)
          (from (Z.to_nat N) 1).

(** The marks [i / 100] from [i0] on, [A] of them, scaled as
    [add_or_update_marks] scales the first component, against the marks
    [j / 100] from [j0] on, [B] of them, scaled as the second. *)
Definition totals_within (A B i0 j0 : Z) : bool :=
  rows_within (List.map (fun i => (cents i / 30 * 30)%float) (from (Z.to_nat A) i0))
              (List.map (fun j => (cents j / 70 * 70)%float) (from (Z.to_nat B) j0))
              (table (from (Z.to_nat (A + B)) (i0 + j0))).

End GridCheck.

(** ** The grades behind the average of the page script *)

Module Aggregate.
Import Grade Portal.

(** The grades that [updateCalculations] gives: those of the cards within
    range, in the order of the cards. *)
Definition grades (subjects : list card) : list gradeInfo := omap graded subjects.

(** The sum of their grade points. *)
Definition points (gs : list gradeInfo) : Z := List.fold_right Z.add 0%Z (List.map gpa gs).

End Aggregate.

(** ** Listing the results ([get_all_results] of [VIT-result-th.py]) *)

Module Listing.
Import Mongo Driver Portal.
Local Open Scope string_scope.

Section Routes.
Context `{Host}.

(** [get_all_results]: the newest first. *)
Definition get_all_results (s : store) : response :=
  match jsonable_all (sort_by_desc "created_at" (results s)) with
  | inl e => Failure e
  | inr data => SuccessData data
  end.

End Routes.

(** The calls that change the collection. *)
Inductive call : Type :=
| SaveResult (now : Z) (data : gmap string string)
| DeleteResult (data : gmap string string).

Definition handle `{Host} (s : store) (c : call) : store :=
  match c with
  | SaveResult now data => fst (save_result now data s)
  | DeleteResult data => fst (delete_result data s)
  end.

(** The identifiers in use were all generated, and are distinct. *)
Definition ids_fresh (s : store) : Prop :=
  (forall d, In d (results s) -> exists o, d !! "_id" = Some (VId o) /\ (o < next_oid s)%N) /\
  (forall o, count (field_is "_id" (VId o)) (results s) <= 1).

End Listing.

(** ** Accounts of the bookstore ([register] and [logout] of [bookstore.py]) *)

Module Accounts.
Import Mongo Bookstore.
Local Open Scope string_scope.

(** What [register] answers: a redirect to the login page, the
    registration page with the pending messages, or the error page for a
    missing form field. *)
Inductive reply : Type :=
| RedirectLogin
| RegisterPage (messages : list (string * string))
| MissingField.

Definition render_register (a : app) : app * reply :=
  (App (users a) (session a) [], RegisterPage (flashes a)).

(** [register]; [fresh] is the identifier the driver generates. *)
Definition register (fresh : N) (m : http_method) (form : gmap string string) (a : app) :
    app * reply :=
  match m with
  | GET => render_register a
  | POST =>
      match form !! "email" with
      | None => (a, MissingField)
      | Some email =>
          match find_one (matches [("email", VStr email)]) (users a) with
          | Some _ => render_register (flash "Email already exists!" "error" a)
          | None =>
              match form !! "name", form !! "password" with
              | Some name, Some password =>
                  let user : doc := {[ "name" := VStr name; "email" := VStr email;
                                       "password" := VStr password ]} in
                  (flash "Account created successfully! Please login." "success"
                         (App (users a ++ [ <["_id" := VId fresh]> user ]) (session a)
                              (flashes a)),
                   RedirectLogin)
              | _, _ => (a, MissingField)
              end
          end
      end
  end.

(** [logout]. *)
Definition logout (a : app) : app * page :=
  (flash "Logged out successfully" "info"
         (App (users a) (delete "user" (session a)) (flashes a)),
   RedirectHome).

(** What a visitor does. *)
Inductive action : Type :=
| Register (fresh : N) (m : http_method) (form : gmap string string)
| Login (m : http_method) (form : gmap string string)
| Logout.

Definition perform (a : app) (act : action) : app :=
  match act with
  | Register fresh m form => fst (register fresh m form a)
  | Login m form => fst (login m form a)
  | Logout => fst (logout a)
  end.

(** What the routes keep true: each user has a name, no address is
    registered twice, and the user of the session, if any, is the name of
    a registered user. *)
Definition accounts_ok (a : app) : Prop :=
  (forall d, In d (users a) -> exists n, d !! "name" = Some (VStr n)) /\
  (forall email, count (matches [("email", VStr email)]) (users a) <= 1) /\
  (forall v, session a !! "user" = Some v ->
             exists d, In d (users a) /\ d !! "name" = Some v).

End Accounts.

(** ** More data for the worked examples *)

Module Examples.
Import Mongo.
Local Open Scope string_scope.

(** The white space of ASCII, as [str.strip] sees it. *)
Definition is_space (a : ascii) : bool :=
  let n := N_of_ascii a in
  (((9 <=? n) && (n <=? 13)) || ((28 <=? n) && (n <=? 32)))%N.

Fixpoint lstrip (text : string) : string :=
  match text with
  | EmptyString => EmptyString
  | String a rest => if is_space a then lstrip rest else text
  end.

Fixpoint rstrip (text : string) : string :=
  match text with
  | EmptyString => EmptyString
  | String a rest =>
      match rstrip rest with
      | EmptyString => if is_space a then EmptyString else String a EmptyString
      | kept => String a kept
      end
  end.

(** [strip] on ASCII text. *)
Definition strip (text : string) : string := rstrip (lstrip text).

(** The student of [Sample.one_mark]. *)
Definition asha : doc :=
  {[ "rollNo" := VStr "21AIML001"; "name" := VStr "Asha Rao";
     "email" := VStr "asha@example.org" ]}.

(** The stored result of [Sample.one_result]. *)
Definition asha_result : doc := <["_id" := VId 0]> (Sample.request_fields 1).

(** The registration form of a second reader. *)
Definition ravi_form : gmap string string :=
  {[ "name" := "Ravi"; "email" := "ravi@example.org"; "password" := "pa55" ]}.

End Examples.

(** ** Order lemmas on binary64 *)

(** Closes an equation between closed terms by evaluation. *)
Ltac compute_eq :=
  lazymatch goal with
  | |- ?a = ?b => vm_cast_no_check (@eq_refl _ b)
  end.

Lemma SFleb_trans (x y z : spec_float) :
  SFleb x y = true -> SFleb y z = true -> SFleb x z = true.
Proof.
  unfold SFleb.
  destruct x as [sx|sx| |sx mx ex], y as [sy|sy| |sy my ey], z as [sz|sz| |sz mz ez];
    simpl; try done;
    repeat match goal with s : bool |- _ => destruct s end; simpl; try done.
  all: rewrite ?Pos.compare_cont_spec; unfold Pos.switch_Eq.
  all: destruct (Z.compare_spec ex ey), (Z.compare_spec ey ez), (Z.compare_spec ex ez);
       try done; try lia.
  all: subst; destruct (Pos.compare_spec mx my), (Pos.compare_spec my mz),
         (Pos.compare_spec mx mz); simpl; try done; try lia.
Qed.

Lemma float_leb_trans (x y z : float) :
  (x <=? y)%float = true -> (y <=? z)%float = true -> (x <=? z)%float = true.
Proof. rewrite !leb_spec. apply SFleb_trans. Qed.

Section GradeFacts.
Import Float64 Grade.
Local Open Scope string_scope.

Lemma ge_mono (c a b : float) :
  ge a c = true -> (a <=? b)%float = true -> ge b c = true.
Proof. unfold ge. apply float_leb_trans. Qed.

Lemma calculateGrade_gradeOf (total : float) : calculateGrade total = gradeOf total.
Proof.
  unfold calculateGrade, gradeOf, bands, step_function, failing_band, ge.
  repeat case_match; reflexivity.
Qed.

Lemma calculate_grade_calculateGrade (total : float) :
  calculate_grade total = grade (calculateGrade total).
Proof.
  unfold calculate_grade, calculateGrade. repeat case_match; reflexivity.
Qed.

Lemma grade_point_calculateGrade (total : float) :
  grade_point (grade (calculateGrade total)) = gpa (calculateGrade total).
Proof. unfold calculateGrade. repeat case_match; reflexivity. Qed.

(** The grade point never decreases when the total grows, on all of
    binary64 (a NaN is below or equal to nothing). *)
Lemma calculateGrade_mono (a b : float) :
  (a <=? b)%float = true -> (gpa (calculateGrade a) <= gpa (calculateGrade b))%Z.
Proof.
  intros Hab. unfold calculateGrade.
  destruct (ge a 90) eqn:H90; [rewrite (ge_mono _ _ _ H90 Hab); simpl; lia|].
  destruct (ge a 80) eqn:H80;
    [rewrite (ge_mono _ _ _ H80 Hab); destruct (ge b 90); simpl; lia|].
  destruct (ge a 70) eqn:H70;
    [rewrite (ge_mono _ _ _ H70 Hab); destruct (ge b 90), (ge b 80); simpl; lia|].
  destruct (ge a 60) eqn:H60;
    [rewrite (ge_mono _ _ _ H60 Hab);
     destruct (ge b 90), (ge b 80), (ge b 70); simpl; lia|].
  destruct (ge a 50) eqn:H50;
    [rewrite (ge_mono _ _ _ H50 Hab);
     destruct (ge b 90), (ge b 80), (ge b 70), (ge b 60); simpl; lia|].
  repeat case_match; simpl; lia.
Qed.

(** C1. [calculate_grade] and [calculateGrade] are the reference step
    function over the six bands (inclusive lower bounds 90, 80, 70, 60, 50
    tried highest first, else F), for every binary64 total; 90 is graded
    A+, 89.99 A, 50 C and 49.99 F; and on [0, 100) the grade never drops
    when the total grows. *)
Theorem calculate_grade_is_step_function :
  (forall total : float,
      calculateGrade total = gradeOf total /\
      calculate_grade total = grade (gradeOf total)) /\
  (calculate_grade 90 = "A+" /\ calculate_grade 89.99 = "A" /\
   calculate_grade 50 = "C" /\ calculate_grade 49.99 = "F") /\
  (forall a b : float,
      (0 <=? a)%float = true -> (a <=? b)%float = true -> (b <? 100)%float = true ->
      (gpa (calculateGrade a) <= gpa (calculateGrade b))%Z /\
      (grade_point (calculate_grade a) <= grade_point (calculate_grade b))%Z).
Proof.
  split; [|split].
  - intros total. split; [apply calculateGrade_gradeOf|].
    rewrite <- calculateGrade_gradeOf. apply calculate_grade_calculateGrade.
  - repeat split; vm_compute; reflexivity.
  - intros a b _ Hab _.
    rewrite !calculate_grade_calculateGrade, !grade_point_calculateGrade.
    split; apply calculateGrade_mono, Hab.
Qed.

Lemma calculate_grade_is_step_function_witness :
  (gpa (calculateGrade 49.99) <= gpa (calculateGrade 50))%Z /\
  (grade_point (calculate_grade 49.99) <= grade_point (calculate_grade 50))%Z.
Proof.
  apply (proj2 (proj2 calculate_grade_is_step_function) 49.99%float 50%float);
    vm_compute; reflexivity.
Defined.

End GradeFacts.

(** ** Facts about queries and collections *)

Section MongoFacts.
Import Mongo.
Local Open Scope string_scope.

Lemma value_eqb_VStr (a : string) (w : value) :
  value_eqb (VStr a) w = true <-> w = VStr a.
Proof.
  destruct w; simpl; try (split; [discriminate | intros [=]]).
  rewrite String.eqb_eq. split; [intros ->; reflexivity | intros [=]; congruence].
Qed.

Lemma value_eqb_VId (o : N) (w : value) :
  value_eqb (VId o) w = true <-> w = VId o.
Proof.
  destruct w; simpl; try (split; [discriminate | intros [=]]).
  rewrite N.eqb_eq. split; [intros ->; reflexivity | intros [=]; congruence].
Qed.

Lemma field_is_VStr (k a : string) (d : doc) :
  field_is k (VStr a) d = true <-> d !! k = Some (VStr a).
Proof.
  unfold field_is. destruct (d !! k) as [w|].
  - rewrite value_eqb_VStr. split; [intros ->; reflexivity | intros [=]; assumption].
  - split; discriminate.
Qed.

Lemma field_is_VId (k : string) (o : N) (d : doc) :
  field_is k (VId o) d = true <-> d !! k = Some (VId o).
Proof.
  unfold field_is. destruct (d !! k) as [w|].
  - rewrite value_eqb_VId. split; [intros ->; reflexivity | intros [=]; assumption].
  - split; discriminate.
Qed.

Lemma matches_one (k a : string) (d : doc) :
  matches [(k, VStr a)] d = true <-> d !! k = Some (VStr a).
Proof. unfold matches. simpl. rewrite andb_true_r. apply field_is_VStr. Qed.

Lemma matches_two (k1 a1 k2 a2 : string) (d : doc) :
  matches [(k1, VStr a1); (k2, VStr a2)] d = true <->
  d !! k1 = Some (VStr a1) /\ d !! k2 = Some (VStr a2).
Proof.
  unfold matches. simpl. rewrite andb_true_r, andb_true_iff, !field_is_VStr.
  reflexivity.
Qed.

Lemma find_one_Some (P : doc -> bool) (c : list doc) (d : doc) :
  find_one P c = Some d -> In d c /\ P d = true.
Proof. apply List.find_some. Qed.

Lemma find_one_None (P : doc -> bool) (c : list doc) :
  find_one P c = None <-> existsb P c = false.
Proof.
  unfold find_one. induction c as [|d c IH]; simpl; [tauto|].
  destruct (P d); simpl; [split; discriminate | exact IH].
Qed.

Lemma find_one_exists (P : doc -> bool) (c : list doc) :
  existsb P c = true <-> exists d, find_one P c = Some d.
Proof.
  destruct (find_one P c) as [d|] eqn:E.
  - split; [eauto|]. intros _. apply find_one_Some in E as [Hin HP].
    apply existsb_exists. eauto.
  - apply find_one_None in E. rewrite E. split; [discriminate | intros [d [=]]].
Qed.

Lemma count_zero (P : doc -> bool) (c : list doc) :
  count P c = 0 <-> existsb P c = false.
Proof.
  unfold count. induction c as [|d c IH]; simpl; [tauto|].
  destruct (P d); simpl; [split; discriminate | exact IH].
Qed.

Lemma count_one (P : doc -> bool) (d : doc) : P d = true -> count P [d] = 1.
Proof. intros Hd. unfold count. cbn [List.filter]. rewrite Hd. reflexivity. Qed.

Lemma count_single (P : doc -> bool) (d : doc) : count P [d] = if P d then 1 else 0.
Proof. unfold count. cbn [List.filter]. destruct (P d); reflexivity. Qed.

Lemma count_app (P : doc -> bool) (c1 c2 : list doc) :
  count P (c1 ++ c2) = count P c1 + count P c2.
Proof. unfold count. rewrite List.filter_app, length_app. reflexivity. Qed.

(** An update that keeps the updated document selected moves no document
    in or out of the selection. *)
Lemma count_update_first (P : doc -> bool) (u : doc -> doc) (c : list doc) :
  (forall d, P d = true -> P (u d) = true) ->
  count P (update_first P u c) = count P c.
Proof.
  intros Hu. unfold count. induction c as [|d c IH]; simpl; [reflexivity|].
  destruct (P d) eqn:E; simpl.
  - rewrite (Hu d E). reflexivity.
  - rewrite E. exact IH.
Qed.

(** An update that no other query can tell from the document it replaces
    changes no count of that query. *)
Lemma count_update_first_same (P P' : doc -> bool) (u : doc -> doc) (c : list doc) :
  (forall d, P d = true -> P' (u d) = P' d) ->
  count P' (update_first P u c) = count P' c.
Proof.
  intros Hu. unfold count. induction c as [|d c IH]; simpl; [reflexivity|].
  destruct (P d) eqn:E; simpl.
  - rewrite (Hu d E). destruct (P' d); reflexivity.
  - destruct (P' d); simpl; congruence.
Qed.

Lemma In_update_first (P : doc -> bool) (u : doc -> doc) (c : list doc) (d : doc) :
  In d (update_first P u c) -> In d c \/ exists d0, In d0 c /\ d = u d0.
Proof.
  induction c as [|d0 c IH]; simpl; [tauto|].
  destruct (P d0); simpl.
  - intros [<-|Hin]; [right; exists d0; auto | left; auto].
  - intros [<-|Hin]; [left; auto|].
    destruct (IH Hin) as [Hc | (d1 & Hd1 & ->)]; [left; auto | right; exists d1; auto].
Qed.

Lemma length_update_first (P : doc -> bool) (u : doc -> doc) (c : list doc) :
  length (update_first P u c) = length c.
Proof.
  induction c as [|d c IH]; simpl; [reflexivity|].
  destruct (P d); simpl; congruence.
Qed.

Lemma find_one_update_first (P : doc -> bool) (u : doc -> doc) (c : list doc) (d : doc) :
  (forall d, P d = true -> P (u d) = true) ->
  find_one P c = Some d -> find_one P (update_first P u c) = Some (u d).
Proof.
  intros Hu. unfold find_one. induction c as [|d0 c IH]; simpl; [discriminate|].
  destruct (P d0) eqn:E; simpl.
  - intros [= ->]. rewrite (Hu d E). reflexivity.
  - rewrite E. exact IH.
Qed.

Lemma find_one_app_new (P : doc -> bool) (c : list doc) (d : doc) :
  existsb P c = false -> P d = true -> find_one P (c ++ [d]) = Some d.
Proof.
  intros Hc Hd. unfold find_one. induction c as [|d0 c IH]; simpl in *.
  - rewrite Hd. reflexivity.
  - apply orb_false_iff in Hc as [-> Hc]. apply IH, Hc.
Qed.

Lemma delete_one_count (P : doc -> bool) (c : list doc) :
  snd (delete_one P c) = if existsb P c then 1 else 0.
Proof.
  induction c as [|d c IH]; simpl; [reflexivity|].
  destruct (P d); simpl; [reflexivity|].
  destruct (delete_one P c). simpl in *. exact IH.
Qed.

Lemma delete_one_none (P : doc -> bool) (c : list doc) :
  existsb P c = false -> fst (delete_one P c) = c.
Proof.
  induction c as [|d c IH]; simpl; [reflexivity|].
  destruct (P d); simpl; [discriminate|].
  intros Hc. specialize (IH Hc). destruct (delete_one P c). simpl in *. congruence.
Qed.

Lemma delete_one_some (P : doc -> bool) (c : list doc) :
  existsb P c = true ->
  S (length (fst (delete_one P c))) = length c /\
  S (count P (fst (delete_one P c))) = count P c.
Proof.
  unfold count. induction c as [|d c IH]; simpl; [discriminate|].
  destruct (P d) eqn:E; simpl.
  - intros _. split; reflexivity.
  - intros Hc. specialize (IH Hc). destruct (delete_one P c). simpl in *.
    rewrite E. destruct IH. split; congruence.
Qed.

Lemma delete_many_none_left (P : doc -> bool) (c : list doc) :
  List.filter P (delete_many P c) = [].
Proof.
  unfold delete_many. induction c as [|d c IH]; simpl; [reflexivity|].
  destruct (P d) eqn:E; simpl; [exact IH|]. rewrite E. exact IH.
Qed.

Lemma delete_many_In (P : doc -> bool) (c : list doc) (d : doc) :
  In d (delete_many P c) <-> In d c /\ P d = false.
Proof.
  unfold delete_many. rewrite List.filter_In, negb_true_iff. reflexivity.
Qed.

End MongoFacts.

(** ** The page script: status and average *)

Section PageScriptFacts.
Import Float64 Grade Mongo Portal.
Local Open Scope string_scope.
Context `{Host}.

(** Whether the loop body grades the card F. *)
Lemma visit_graded (acc : tally) (c : card) :
  hasFailed (fst (visit acc c)) =
  (hasFailed acc ||
   match graded c with
   | Some g => String.eqb (grade g) "F"
   | None => false
   end)%bool.
Proof.
  unfold visit, graded. destruct (out_of_range _ _); simpl.
  - rewrite orb_false_r. reflexivity.
  - destruct (String.eqb _ _); [rewrite orb_true_r | rewrite orb_false_r]; reflexivity.
Qed.

Lemma forEach_hasFailed (subjects : list card) (acc : tally) :
  hasFailed (fst (forEach acc subjects)) =
  (hasFailed acc ||
   existsb (fun c => match graded c with
                     | Some g => String.eqb (grade g) "F"
                     | None => false
                     end) subjects)%bool.
Proof.
  revert acc. induction subjects as [|c rest IH]; intros acc; simpl.
  - rewrite orb_false_r. reflexivity.
  - pose proof (visit_graded acc c) as Hv.
    destruct (visit acc c) as [acc1 c1]. simpl in Hv.
    specialize (IH acc1). destruct (forEach acc1 rest) as [acc2 rest1]. simpl in *.
    rewrite IH, Hv, orb_assoc. reflexivity.
Qed.

Lemma displayStatus_hasFailed (subjects : list card) :
  displayStatus (updateCalculations subjects) =
  if hasFailed (fst (forEach (Tally 0 0 false) subjects)) then "Fail" else "Pass".
Proof.
  unfold updateCalculations. destruct (forEach _ subjects) as [acc subjects1].
  reflexivity.
Qed.

Lemma some_failed_iff (subjects : list card) :
  existsb (fun c => match graded c with
                    | Some g => String.eqb (grade g) "F"
                    | None => false
                    end) subjects = true <->
  exists c g, In c subjects /\ graded c = Some g /\ grade g = "F".
Proof.
  rewrite existsb_exists. split.
  - intros (c & Hin & Hc). destruct (graded c) as [g|] eqn:E; [|discriminate].
    apply String.eqb_eq in Hc. eauto.
  - intros (c & g & Hin & Hg & HF). exists c. split; [assumption|].
    rewrite Hg. apply String.eqb_eq, HF.
Qed.

(** The cards that [updateCalculations] leaves on the page. *)
Lemma cards_forEach (subjects : list card) :
  cards (updateCalculations subjects) = snd (forEach (Tally 0 0 false) subjects).
Proof.
  unfold updateCalculations. destruct (forEach _ subjects) as [acc subjects1].
  reflexivity.
Qed.

(** The grade that a card shows once the loop body has visited it: the
    grade of its marks, or the grade it showed before when the guard
    returns. *)
Lemma visit_grade_field (acc : tally) (c : card) :
  grade_field (snd (visit acc c)) =
  match graded c with
  | Some g => grade g
  | None => grade_field c
  end.
Proof. unfold visit, graded. destruct (out_of_range _ _); reflexivity. Qed.

Lemma forEach_grade_fields (subjects : list card) (acc : tally) :
  List.map grade_field (snd (forEach acc subjects)) =
  List.map (fun c => match graded c with
                     | Some g => grade g
                     | None => grade_field c
                     end) subjects.
Proof.
  revert acc. induction subjects as [|c rest IH]; intros acc; simpl; [reflexivity|].
  pose proof (visit_grade_field acc c) as Hv.
  destruct (visit acc c) as [acc1 c1]. simpl in Hv.
  specialize (IH acc1). destruct (forEach acc1 rest) as [acc2 rest1]. simpl in *.
  rewrite IH, Hv. reflexivity.
Qed.

Lemma graded_in_range (c : card) :
  out_of_range (or_zero (mse_marks c)) (or_zero (ese_marks c)) = false ->
  graded c = Some (calculateGrade (calculateTotal (or_zero (mse_marks c))
                                                  (or_zero (ese_marks c)))).
Proof. intros Hin. unfold graded. rewrite Hin. reflexivity. Qed.

(** With every card within range, the grades on the page are the grades
    of the marks. *)
Lemma shown_failed_iff (subjects : list card) :
  (forall c, In c subjects ->
             out_of_range (or_zero (mse_marks c)) (or_zero (ese_marks c)) = false) ->
  (exists c', In c' (snd (forEach (Tally 0 0 false) subjects)) /\ grade_field c' = "F") <->
  (exists c g, In c subjects /\ graded c = Some g /\ grade g = "F").
Proof.
  intros Hrange. split.
  - intros (c' & Hin & HF).
    assert (Hshown : In "F" (List.map grade_field (snd (forEach (Tally 0 0 false) subjects)))).
    { rewrite <- HF. apply in_map, Hin. }
    rewrite forEach_grade_fields in Hshown.
    apply in_map_iff in Hshown as (c & Hc & Hin').
    rewrite (graded_in_range c (Hrange c Hin')) in Hc.
    exists c. eexists. split; [exact Hin'|]. split; [apply graded_in_range, Hrange, Hin'|].
    exact Hc.
  - intros (c & g & Hin & Hg & HF).
    assert (Hshown : In "F" (List.map grade_field (snd (forEach (Tally 0 0 false) subjects)))).
    { rewrite forEach_grade_fields. apply in_map_iff. exists c. rewrite Hg. auto. }
    apply in_map_iff in Hshown as (c' & Hc' & Hin'). eauto.
Qed.

(** C2, amended. Whatever the subject cards, [updateCalculations] shows
    the status Fail exactly when at least one subject that it grades gets
    the grade F, and Pass otherwise: a disjunction over the subjects, in
    which the average plays no part.  In particular a subject graded F next
    to a subject graded A gives Fail.  The subjects that it grades are
    those whose marks pass the guard of the loop (both from 0 to 100):
    when every card passes it, the status is Fail exactly when one of the
    cards on the page shows the grade F. *)
Theorem status_fail_iff_some_subject_failed (subjects : list card) :
  (displayStatus (updateCalculations subjects) = "Fail" <->
   exists c g, In c subjects /\ graded c = Some g /\ grade g = "F") /\
  (displayStatus (updateCalculations subjects) = "Pass" <->
   ~ exists c g, In c subjects /\ graded c = Some g /\ grade g = "F") /\
  (forall c1 c2 g1 g2,
      graded c1 = Some g1 -> grade g1 = "F" ->
      graded c2 = Some g2 -> grade g2 = "A" ->
      displayStatus (updateCalculations [c1; c2]) = "Fail" /\
      displayStatus (updateCalculations [c2; c1]) = "Fail") /\
  ((forall c, In c subjects ->
              out_of_range (or_zero (mse_marks c)) (or_zero (ese_marks c)) = false) ->
   (displayStatus (updateCalculations subjects) = "Fail" <->
    exists c', In c' (cards (updateCalculations subjects)) /\ grade_field c' = "F") /\
   (displayStatus (updateCalculations subjects) = "Pass" <->
    forall c', In c' (cards (updateCalculations subjects)) -> grade_field c' <> "F")).
Proof.
  assert (Hiff : forall l, displayStatus (updateCalculations l) = "Fail" <->
                   exists c g, In c l /\ graded c = Some g /\ grade g = "F").
  { intros l. rewrite displayStatus_hasFailed, forEach_hasFailed, <- some_failed_iff.
    simpl. destruct (existsb _ l); split; congruence. }
  assert (Hpass : forall l, displayStatus (updateCalculations l) = "Pass" <->
                    displayStatus (updateCalculations l) <> "Fail").
  { intros l. rewrite displayStatus_hasFailed. destruct (hasFailed _); split; congruence. }
  split; [apply Hiff|]. split; [|split].
  - rewrite <- Hiff. apply Hpass.
  - intros c1 c2 g1 g2 H1 HF H2 _. split; apply Hiff; exists c1, g1; simpl; auto.
  - intros Hrange.
    assert (Hshown : displayStatus (updateCalculations subjects) = "Fail" <->
                     exists c', In c' (cards (updateCalculations subjects)) /\
                                grade_field c' = "F").
    { rewrite Hiff, cards_forEach. symmetry. apply shown_failed_iff, Hrange. }
    split; [exact Hshown|]. rewrite Hpass, Hshown. split.
    + intros Hno c' Hin HF. apply Hno. eauto.
    + intros Hall (c' & Hin & HF). apply (Hall c' Hin HF).
Qed.

(** With no subject card the average shown is 0.00 and the status is
    Pass. *)
Lemma updateCalculations_no_subject :
  displayCGPA (updateCalculations []) = "0.00" /\
  displayStatus (updateCalculations []) = "Pass".
Proof. split; reflexivity. Qed.

End PageScriptFacts.

Lemma status_fail_iff_some_subject_failed_witness :
  let failed := Portal.Card 20 20 "" "" "" in
  let passed := Portal.Card 85 85 "" "" "" in
  Portal.displayStatus (Portal.updateCalculations (H := Sample.host) [failed; passed])
  = "Fail"%string /\
  Portal.displayCGPA (Portal.updateCalculations (H := Sample.host) [failed; passed])
  = "4.50"%string /\
  Portal.displayCGPA
    (Portal.updateCalculations (H := Sample.host)
       [failed; Portal.Card 95 95 "" "" ""; Portal.Card 95 95 "" "" ""])
  = "6.67"%string /\
  Portal.displayStatus
    (Portal.updateCalculations (H := Sample.host)
       [failed; Portal.Card 95 95 "" "" ""; Portal.Card 95 95 "" "" ""])
  = "Fail"%string.
Proof.
  cbv zeta. split; [|split; [|split]].
  - apply (proj1 (proj2 (proj2 (status_fail_iff_some_subject_failed (H := Sample.host) [])))
             (Portal.Card 20 20 "" "" "") (Portal.Card 85 85 "" "" "")
             (Grade.GradeInfo "F" 0) (Grade.GradeInfo "A" 9)); compute_eq.
  - compute_eq.
  - compute_eq.
  - apply (proj1 (status_fail_iff_some_subject_failed (H := Sample.host) _)).
    exists (Portal.Card 20 20 "" "" ""), (Grade.GradeInfo "F" 0).
    split; [left; reflexivity|]. split; compute_eq.
Defined.

(** The claim C2, read on the grades that the cards show, fails: a card
    that showed the grade F and then gets the mark 150 is skipped by the
    guard and keeps its F, while the only card graded, with 95 and 95, is
    graded A+; the status is Pass. *)
Lemma stale_grade_counterexample :
  ~ (forall (H : Portal.Host) (subjects : list Portal.card),
        Portal.displayStatus (Portal.updateCalculations subjects) = "Fail"%string <->
        exists c, In c (Portal.cards (Portal.updateCalculations subjects)) /\
                  Portal.grade_field c = "F"%string).
Proof.
  intros Hclaim.
  specialize (Hclaim Sample.host
                     [Portal.Card 150 0 "20.00" "F" "0"; Portal.Card 95 95 "" "" ""]).
  assert (Hstatus : Portal.displayStatus
                      (Portal.updateCalculations (H := Sample.host)
                         [Portal.Card 150 0 "20.00" "F" "0"; Portal.Card 95 95 "" "" ""])
                    = "Pass"%string) by compute_eq.
  rewrite Hstatus in Hclaim.
  assert (Hfail : "Pass"%string = "Fail"%string); [|discriminate Hfail].
  apply Hclaim. exists (Portal.Card 150 0 "20.00" "F" "0").
  split; [|reflexivity]. apply (nth_error_In _ 0). compute_eq.
Qed.

(** C5. Aggregating no mark at all gives the average 0 and the status
    Pass: [updateCalculations] on no subject card shows the average 0.00
    and the status Pass, and the class average of [get_dashboard_stats]
    over an empty marks collection is 0. *)
Theorem aggregate_of_nothing :
  (forall H : Portal.Host,
      Portal.displayCGPA (Portal.updateCalculations []) = "0.00"%string /\
      Portal.displayStatus (Portal.updateCalculations []) = "Pass"%string) /\
  (forall avg : list float -> float,
      Dashboard.class_average avg [] = Some 0%float).
Proof.
  split.
  - intros H. apply updateCalculations_no_subject.
  - intros avg. reflexivity.
Qed.

(** ** Saving a result twice *)

Section SaveFacts.
Import Float64 Grade Mongo Portal.
Local Open Scope string_scope.
Context `{Host}.

(** What a request must hold for [result_data] to be built, and what is
    built. *)
Lemma result_data_inr (now : Z) (data : gmap string string) (rd : doc) :
  result_data now data = inr rd ->
  exists student_name roll_number subjects_json cgpa_text cgpa status,
    data !! "student_name" = Some student_name /\
    data !! "roll_number" = Some roll_number /\
    data !! "subjects_json" = Some subjects_json /\
    data !! "cgpa" = Some cgpa_text /\ py_float cgpa_text = Some cgpa /\
    data !! "status" = Some status /\
    rd = {[ "student_name" := VStr student_name;
            "roll_number" := VStr roll_number;
            "subjects_json" := VStr subjects_json;
            "cgpa" := VNum cgpa;
            "status" := VStr status;
            "created_at" := VTime now ]}.
Proof.
  unfold result_data, getitem.
  destruct (data !! "student_name") as [a|]; [|discriminate].
  destruct (data !! "roll_number") as [b|]; [|discriminate].
  destruct (data !! "subjects_json") as [c|]; [|discriminate].
  destruct (data !! "cgpa") as [t|]; [|discriminate].
  destruct (py_float t) as [x|] eqn:Ex; [|discriminate].
  destruct (data !! "status") as [e|]; [|discriminate].
  intros [= <-]. exists a, b, c, t, x, e. repeat split; auto.
Qed.

(** Only the time stamp of [result_data] depends on the time. *)
Lemma result_data_any_time (now now' : Z) (data : gmap string string) (rd : doc) :
  result_data now data = inr rd ->
  exists rd', result_data now' data = inr rd'.
Proof.
  intros Hrd. apply result_data_inr in Hrd
    as (a & b & c & t & x & e & Ha & Hb & Hc & Ht & Hx & He & _).
  unfold result_data, getitem. rewrite Ha, Hb, Hc, Ht, Hx, He. eauto.
Qed.

Lemma result_data_roll (now : Z) (data : gmap string string) (rd : doc) (roll : string) :
  result_data now data = inr rd -> data !! "roll_number" = Some roll ->
  rd !! "roll_number" = Some (VStr roll) /\ rd !! "_id" = None.
Proof.
  intros Hrd Hroll. apply result_data_inr in Hrd
    as (a & b & c & t & x & e & Ha & Hb & Hc & Ht & Hx & He & ->).
  rewrite Hroll in Hb. injection Hb as <-. split; reflexivity.
Qed.

Lemma set_fields_keeps_selected (upd : doc) (k a : string) :
  upd !! k = Some (VStr a) ->
  forall d, matches [(k, VStr a)] d = true -> matches [(k, VStr a)] (set_fields upd d) = true.
Proof.
  intros Hk d _. apply matches_one. unfold set_fields.
  apply lookup_union_Some_l, Hk.
Qed.

Lemma key_taken_roll (rd : doc) (roll : string) (c : list doc) :
  rd !! "roll_number" = Some (VStr roll) ->
  key_taken "roll_number" rd c = existsb (matches [("roll_number", VStr roll)]) c.
Proof.
  intros Hk. unfold key_taken. induction c as [|d c IH]; simpl; [reflexivity|].
  rewrite IH. f_equal. unfold same_key, matches, field_is. simpl. rewrite Hk.
  destruct (d !! "roll_number"); [rewrite andb_true_r|]; reflexivity.
Qed.

(** The two branches of [save_result] on a request that can be saved. *)
Lemma save_result_existing (now : Z) (data : gmap string string) (s : store)
    (rd : doc) (roll : string) :
  result_data now data = inr rd -> data !! "roll_number" = Some roll ->
  existsb (matches [("roll_number", VStr roll)]) (results s) = true ->
  save_result now data s =
  (Store (update_first (matches [("roll_number", VStr roll)]) (set_fields rd) (results s))
         (next_oid s),
   Success "Result updated successfully!").
Proof.
  intros Hrd Hroll Hex. unfold save_result, getitem. rewrite Hrd, Hroll.
  apply find_one_exists in Hex as [d ->]. reflexivity.
Qed.

Lemma save_result_new (now : Z) (data : gmap string string) (s : store)
    (rd : doc) (roll : string) :
  result_data now data = inr rd -> data !! "roll_number" = Some roll ->
  existsb (matches [("roll_number", VStr roll)]) (results s) = false ->
  save_result now data s =
  (Store (results s ++ [ <["_id" := VId (next_oid s)]> rd ]) (N.succ (next_oid s)),
   Success "Result saved successfully!").
Proof.
  intros Hrd Hroll Hex. unfold save_result, getitem. rewrite Hrd, Hroll.
  pose proof (proj2 (find_one_None _ _) Hex) as ->.
  unfold insert_one.
  rewrite (key_taken_roll rd roll) by (eapply result_data_roll; eauto).
  rewrite Hex. reflexivity.
Qed.

(** A request that cannot be saved changes nothing. *)
Lemma save_result_failure (now : Z) (data : gmap string string) (s : store) (e : exn) :
  result_data now data = inl e -> save_result now data s = (s, Failure e).
Proof.
  intros Hrd. unfold save_result. rewrite Hrd. reflexivity.
Qed.

(** One call of [save_result]: afterwards the roll number selects as many
    records as before, or one if it selected none, and the first of them
    carries the fields of [result_data]. *)
Lemma save_result_once (now : Z) (data : gmap string string) (s : store)
    (rd : doc) (roll : string) :
  result_data now data = inr rd -> data !! "roll_number" = Some roll ->
  let q := [("roll_number", VStr roll)] in
  let s1 := fst (save_result now data s) in
  success (snd (save_result now data s)) = true /\
  count (matches q) (results s1) = Nat.max 1 (count (matches q) (results s)) /\
  exists d, find_one (matches q) (results s1) = Some d /\
            forall k v, rd !! k = Some v -> d !! k = Some v.
Proof.
  intros Hrd Hroll. cbv zeta. set (q := [("roll_number", VStr roll)]).
  destruct (result_data_roll _ _ _ _ Hrd Hroll) as [Hk Hid].
  destruct (existsb (matches q) (results s)) eqn:Hex.
  - rewrite (save_result_existing _ _ _ _ _ Hrd Hroll Hex). simpl. fold q.
    split; [reflexivity|]. split.
    + rewrite count_update_first by (apply set_fields_keeps_selected, Hk).
      destruct (count (matches q) (results s)) eqn:Hc; [|reflexivity].
      apply count_zero in Hc. congruence.
    + apply find_one_exists in Hex as [d Hd].
      exists (set_fields rd d). split.
      * apply find_one_update_first; [apply set_fields_keeps_selected, Hk | exact Hd].
      * intros k v Hv. apply lookup_union_Some_l, Hv.
  - rewrite (save_result_new _ _ _ _ _ Hrd Hroll Hex). simpl. fold q.
    assert (Hnew : matches q (<["_id" := VId (next_oid s)]> rd) = true).
    { apply matches_one. rewrite lookup_insert_ne by discriminate. exact Hk. }
    split; [reflexivity|]. split.
    + rewrite count_app, (proj2 (count_zero _ _) Hex), (count_one _ _ Hnew).
      reflexivity.
    + exists (<["_id" := VId (next_oid s)]> rd). split.
      * apply find_one_app_new; assumption.
      * intros k v Hv. rewrite lookup_insert_ne; [exact Hv|].
        intros <-. rewrite Hid in Hv. discriminate.
Qed.

End SaveFacts.

(** ** Upserting marks *)

Section MarksFacts.
Import Float64 Grade Mongo Dashboard.
Local Open Scope string_scope.

Lemma upsert_one_existing (q : list (string * value)) (upd ins : doc) (fresh : N)
    (c : list doc) :
  existsb (matches q) c = true ->
  upsert_one q upd ins fresh c = update_first (matches q) (set_fields upd) c.
Proof. intros Hex. unfold upsert_one. rewrite Hex. reflexivity. Qed.

Lemma upsert_one_new (q : list (string * value)) (upd ins : doc) (fresh : N)
    (c : list doc) :
  existsb (matches q) c = false ->
  upsert_one q upd ins fresh c =
  (c ++ [ <["_id" := VId fresh]> (upd ∪ ins ∪ list_to_map q) ])%list.
Proof. intros Hex. unfold upsert_one. rewrite Hex. reflexivity. Qed.

(** The fields of [mark]. *)
Lemma mark_fields (now : Z) (sid subj : string) (mse ese : float) :
  let m := mark now sid subj mse ese in
  m !! "studentId" = Some (VStr sid) /\
  m !! "subjectId" = Some (VStr subj) /\
  m !! "mseMarks" = Some (VNum mse) /\
  m !! "eseMarks" = Some (VNum ese) /\
  m !! "total" = Some (VNum (py_round2 (raw_total mse ese))) /\
  m !! "grade" = Some (VStr (calculate_grade (raw_total mse ese))) /\
  m !! "updatedAt" = Some (VTime now) /\
  m !! "createdAt" = None /\
  m !! "_id" = None.
Proof. cbv zeta. repeat split; reflexivity. Qed.

Lemma mark_keeps_selected (now : Z) (sid subj : string) (mse ese : float) (d : doc) :
  matches [("studentId", VStr sid); ("subjectId", VStr subj)]
          (set_fields (mark now sid subj mse ese) d) = true.
Proof.
  apply matches_two. unfold set_fields.
  split; apply lookup_union_Some_l; reflexivity.
Qed.

Lemma mark_inserted_selected (now : Z) (sid subj : string) (mse ese : float)
    (ins rest : doc) (fresh : N) :
  matches [("studentId", VStr sid); ("subjectId", VStr subj)]
          (<["_id" := VId fresh]> (mark now sid subj mse ese ∪ ins ∪ rest)) = true.
Proof.
  apply matches_two.
  split; (rewrite lookup_insert_ne by discriminate);
    rewrite <- (assoc_L (∪)); apply lookup_union_Some_l; reflexivity.
Qed.

(** One call of [add_or_update_marks]. *)
Lemma add_or_update_marks_once (now later : Z) (sid subj : string) (mse ese : float)
    (s : state) :
  let q := [("studentId", VStr sid); ("subjectId", VStr subj)] in
  let s1 := fst (add_or_update_marks now later sid subj mse ese s) in
  count (matches q) (marks s1) = Nat.max 1 (count (matches q) (marks s)) /\
  (existsb (matches q) (marks s) = true -> length (marks s1) = length (marks s)) /\
  exists d, find_one (matches q) (marks s1) = Some d /\
            forall k v, mark now sid subj mse ese !! k = Some v -> d !! k = Some v.
Proof.
  cbv zeta. unfold add_or_update_marks. cbn [fst marks].
  set (q := [("studentId", VStr sid); ("subjectId", VStr subj)]).
  destruct (existsb (matches q) (marks s)) eqn:Hex.
  - rewrite upsert_one_existing by exact Hex. split; [|split].
    + rewrite count_update_first by (intros d _; apply mark_keeps_selected).
      destruct (count (matches q) (marks s)) eqn:Hc; [|reflexivity].
      apply count_zero in Hc. congruence.
    + intros _. apply length_update_first.
    + apply find_one_exists in Hex as [d Hd].
      exists (set_fields (mark now sid subj mse ese) d). split.
      * apply find_one_update_first; [intros d1 _; apply mark_keeps_selected | exact Hd].
      * intros k v Hv. apply lookup_union_Some_l, Hv.
  - rewrite upsert_one_new by exact Hex. split; [|split].
    + rewrite count_app, (proj2 (count_zero _ _) Hex).
      rewrite count_one by apply mark_inserted_selected. reflexivity.
    + discriminate.
    + eexists. split.
      * apply find_one_app_new; [exact Hex | apply mark_inserted_selected].
      * intros k v Hv. rewrite lookup_insert_ne.
        { rewrite <- (assoc_L (∪)). apply lookup_union_Some_l, Hv. }
        intros <-. discriminate Hv.
Qed.

End MarksFacts.

(** ** What the stores keep true *)

Section StoreInvariants.
Import Float64 Grade Mongo.
Local Open Scope string_scope.

Lemma well_formed_empty (n : N) : Portal.well_formed (Portal.Store [] n).
Proof. split; [intros d [] | intros roll; unfold count; simpl; lia]. Qed.

(** [save_result] keeps the collection well formed. *)
Lemma save_result_well_formed `{Portal.Host} (now : Z) (data : gmap string string)
    (s : Portal.store) :
  Portal.well_formed s -> Portal.well_formed (fst (Portal.save_result now data s)).
Proof.
  intros [Hform Huniq].
  destruct (Portal.result_data now data) as [e|rd] eqn:Hrd;
    [rewrite (save_result_failure _ _ _ _ Hrd); split; assumption|].
  destruct (result_data_inr _ _ _ Hrd)
    as (a & roll & c & t & x & e & _ & Hroll & _ & _ & _ & _ & Heq).
  destruct (result_data_roll _ _ _ _ Hrd Hroll) as [Hk Hid].
  assert (Hat : rd !! "created_at" = Some (VTime now)) by (subst rd; reflexivity).
  destruct (existsb (matches [("roll_number", VStr roll)]) (Portal.results s)) eqn:Hex.
  - rewrite (save_result_existing _ _ _ _ _ Hrd Hroll Hex).
    unfold Portal.well_formed. cbn [fst Portal.results]. split.
    + intros d Hd. apply In_update_first in Hd as [Hd | (d0 & Hd0 & ->)]; [auto|].
      destruct (Hform d0 Hd0) as (i & t0 & Hi & _). exists i, now. unfold set_fields. split.
      * rewrite lookup_union_r by exact Hid. exact Hi.
      * apply lookup_union_Some_l, Hat.
    + intros roll'. rewrite count_update_first_same; [apply Huniq|].
      intros d Hd. apply matches_one in Hd.
      unfold matches, field_is, set_fields. simpl.
      rewrite (lookup_union_Some_l _ _ _ _ Hk), Hd. reflexivity.
  - rewrite (save_result_new _ _ _ _ _ Hrd Hroll Hex).
    unfold Portal.well_formed. cbn [fst Portal.results]. split.
    + intros d Hd. apply in_app_or in Hd as [Hd | [<-|[]]]; [auto|].
      exists (VId (Portal.next_oid s)), now. split.
      * apply lookup_insert_eq.
      * rewrite lookup_insert_ne by discriminate. exact Hat.
    + intros roll'. rewrite count_app.
      destruct (String.eqb roll roll') eqn:E.
      * apply String.eqb_eq in E. subst roll'.
        apply count_zero in Hex. rewrite Hex, count_single.
        destruct (matches _ _); lia.
      * apply String.eqb_neq in E.
        assert (Hno : matches [("roll_number", VStr roll')]
                              (<["_id" := VId (Portal.next_oid s)]> rd) = false).
        { destruct (matches _ _) eqn:Hm; [|reflexivity].
          apply matches_one in Hm. rewrite lookup_insert_ne in Hm by discriminate.
          congruence. }
        rewrite count_single, Hno. specialize (Huniq roll'). lia.
Qed.

(** [add_or_update_marks] keeps the pairs of student and subject unique. *)
Lemma add_or_update_marks_unique (now later : Z) (sid subj : string) (mse ese : float)
    (s : Dashboard.state) :
  Dashboard.marks_unique s ->
  Dashboard.marks_unique (fst (Dashboard.add_or_update_marks now later sid subj mse ese s)).
Proof.
  intros Huniq sid' subj'. unfold Dashboard.add_or_update_marks.
  cbn [fst Dashboard.marks].
  set (q := [("studentId", VStr sid); ("subjectId", VStr subj)]).
  destruct (existsb (matches q) (Dashboard.marks s)) eqn:Hex.
  - rewrite upsert_one_existing by exact Hex.
    rewrite count_update_first_same; [apply Huniq|].
    intros d Hd. apply matches_two in Hd as [Hs Hj].
    apply eq_true_iff_eq. rewrite !matches_two. unfold set_fields.
    rewrite (lookup_union_Some_l _ d "studentId" (VStr sid)) by reflexivity.
    rewrite (lookup_union_Some_l _ d "subjectId" (VStr subj)) by reflexivity.
    rewrite Hs, Hj. reflexivity.
  - rewrite upsert_one_new by exact Hex. rewrite count_app.
    destruct (matches [("studentId", VStr sid'); ("subjectId", VStr subj')]
                      (<["_id" := VId (Dashboard.next_id s)]>
                         (Dashboard.mark now sid subj mse ese
                            ∪ {[ "createdAt" := VTime later ]} ∪ list_to_map q))) eqn:Hm.
    + apply matches_two in Hm as [Hs Hj].
      rewrite lookup_insert_ne in Hs, Hj by discriminate.
      rewrite <- (assoc_L (∪)) in Hs, Hj.
      rewrite (lookup_union_Some_l _ _ "studentId" (VStr sid)) in Hs by reflexivity.
      rewrite (lookup_union_Some_l _ _ "subjectId" (VStr subj)) in Hj by reflexivity.
      injection Hs as <-. injection Hj as <-. fold q.
      apply count_zero in Hex. rewrite Hex.
      rewrite count_one by apply mark_inserted_selected. lia.
    + rewrite count_single, Hm. specialize (Huniq sid' subj'). lia.
Qed.

End StoreInvariants.

(** C3. Saving the same result twice, or entering the same marks twice,
    leaves exactly one stored record for the key (the roll number, or the
    pair of student and subject), carrying the fields last submitted; the
    second submission replaces the record in place and appends nothing.
    The key is unique beforehand, as the unique index keeps it. *)
Theorem upsert_twice_leaves_one_record :
  (forall (H : Portal.Host) (now1 now2 : Z) (data : gmap string string)
          (s : Portal.store) (rd : Mongo.doc) (roll : string),
      Portal.result_data now2 data = inr rd ->
      data !! "roll_number"%string = Some roll ->
      Mongo.count (Mongo.matches [("roll_number"%string, Mongo.VStr roll)])
                  (Portal.results s) <= 1 ->
      let q := [("roll_number"%string, Mongo.VStr roll)] in
      let s1 := fst (Portal.save_result now1 data s) in
      let s2 := fst (Portal.save_result now2 data s1) in
      Mongo.count (Mongo.matches q) (Portal.results s2) = 1 /\
      length (Portal.results s2) = length (Portal.results s1) /\
      exists d, Mongo.find_one (Mongo.matches q) (Portal.results s2) = Some d /\
                forall k v, rd !! k = Some v -> d !! k = Some v) /\
  (forall (now1 later1 now2 later2 : Z) (sid subj : string) (mse ese : float)
          (s : Dashboard.state),
      let q := [("studentId"%string, Mongo.VStr sid); ("subjectId"%string, Mongo.VStr subj)] in
      Mongo.count (Mongo.matches q) (Dashboard.marks s) <= 1 ->
      let s1 := fst (Dashboard.add_or_update_marks now1 later1 sid subj mse ese s) in
      let s2 := fst (Dashboard.add_or_update_marks now2 later2 sid subj mse ese s1) in
      Mongo.count (Mongo.matches q) (Dashboard.marks s2) = 1 /\
      length (Dashboard.marks s2) = length (Dashboard.marks s1) /\
      exists d, Mongo.find_one (Mongo.matches q) (Dashboard.marks s2) = Some d /\
                forall k v, Dashboard.mark now2 sid subj mse ese !! k = Some v ->
                            d !! k = Some v).
Proof.
  split.
  - intros H now1 now2 data s rd roll Hrd Hroll Huniq. cbv zeta.
    destruct (result_data_any_time now2 now1 data rd Hrd) as [rd1 Hrd1].
    destruct (save_result_once now1 data s rd1 roll Hrd1 Hroll) as (_ & Hc1 & _).
    set (s1 := fst (Portal.save_result now1 data s)) in *.
    assert (Hex : existsb (Mongo.matches [("roll_number"%string, Mongo.VStr roll)])
                          (Portal.results s1) = true).
    { destruct (existsb _ _) eqn:E; [reflexivity|].
      apply count_zero in E. rewrite E in Hc1. destruct (Mongo.count _ _); discriminate. }
    destruct (save_result_once now2 data s1 rd roll Hrd Hroll) as (_ & Hc2 & Hd2).
    rewrite Hc1 in Hc2. split; [|split; [|exact Hd2]].
    + rewrite Hc2. destruct (Mongo.count _ (Portal.results s)) as [|[|n]]; [reflexivity..|lia].
    + rewrite (save_result_existing _ _ _ _ _ Hrd Hroll Hex).
      apply length_update_first.
  - intros now1 later1 now2 later2 sid subj mse ese s. cbv zeta. intros Huniq.
    destruct (add_or_update_marks_once now1 later1 sid subj mse ese s) as (Hc1 & _ & _).
    set (s1 := fst (Dashboard.add_or_update_marks now1 later1 sid subj mse ese s)) in *.
    destruct (add_or_update_marks_once now2 later2 sid subj mse ese s1)
      as (Hc2 & Hl2 & Hd2).
    rewrite Hc1 in Hc2. split; [|split; [|exact Hd2]].
    + rewrite Hc2. destruct (Mongo.count _ (Dashboard.marks s)) as [|[|n]]; [reflexivity..|lia].
    + apply Hl2. destruct (existsb _ _) eqn:E; [reflexivity|].
      apply count_zero in E. rewrite E in Hc1. destruct (Mongo.count _ _); discriminate.
Qed.

Lemma upsert_twice_leaves_one_record_witness :
  Mongo.count (Mongo.matches [("roll_number"%string, Mongo.VStr "21AIML001")])
    (Portal.results
       (fst (Portal.save_result (H := Sample.host) 2 Sample.request
               (fst (Portal.save_result (H := Sample.host) 1 Sample.request
                       Sample.empty_store))))) = 1 /\
  Mongo.count
    (Mongo.matches [("studentId"%string, Mongo.VStr "21AIML001");
                    ("subjectId"%string, Mongo.VStr "ML3001")])
    (Dashboard.marks
       (fst (Dashboard.add_or_update_marks 3 4 "21AIML001" "ML3001" 24 56
               (fst (Dashboard.add_or_update_marks 1 2 "21AIML001" "ML3001" 24 56
                       Sample.empty_state))))) = 1.
Proof.
  split.
  - apply (proj1 upsert_twice_leaves_one_record Sample.host 1%Z 2%Z Sample.request
             Sample.empty_store (Sample.request_fields 2) "21AIML001"%string).
    + compute_eq.
    + compute_eq.
    + vm_compute. lia.
  - apply (proj2 upsert_twice_leaves_one_record 1%Z 2%Z 3%Z 4%Z "21AIML001"%string
             "ML3001"%string
             24%float 56%float Sample.empty_state).
    vm_compute. lia.
Defined.

(** C9. When the pair of student and subject already has a mark record,
    [add_or_update_marks] leaves its [createdAt] (and every field it does
    not name) as it was, and replaces [studentId], [subjectId],
    [mseMarks], [eseMarks], [total], [grade] and [updatedAt] by the newly
    computed values; no record is added. *)
Theorem update_keeps_createdAt (now later : Z) (sid subj : string) (mse ese : float)
    (s : Dashboard.state) (d0 : Mongo.doc) :
  let q := [("studentId"%string, Mongo.VStr sid); ("subjectId"%string, Mongo.VStr subj)] in
  Mongo.find_one (Mongo.matches q) (Dashboard.marks s) = Some d0 ->
  let s' := fst (Dashboard.add_or_update_marks now later sid subj mse ese s) in
  exists d' : Mongo.doc,
    Mongo.find_one (Mongo.matches q) (Dashboard.marks s') = Some d' /\
    d' !! "createdAt"%string = d0 !! "createdAt"%string /\
    d' !! "studentId"%string = Some (Mongo.VStr sid) /\
    d' !! "subjectId"%string = Some (Mongo.VStr subj) /\
    d' !! "mseMarks"%string = Some (Mongo.VNum mse) /\
    d' !! "eseMarks"%string = Some (Mongo.VNum ese) /\
    d' !! "total"%string =
      Some (Mongo.VNum (Float64.py_round2 (Dashboard.raw_total mse ese))) /\
    d' !! "grade"%string =
      Some (Mongo.VStr (Grade.calculate_grade (Dashboard.raw_total mse ese))) /\
    d' !! "updatedAt"%string = Some (Mongo.VTime now) /\
    (forall k, Dashboard.mark now sid subj mse ese !! k = None -> d' !! k = d0 !! k) /\
    length (Dashboard.marks s') = length (Dashboard.marks s).
Proof.
  cbv zeta. intros Hd0.
  assert (Hex : existsb (Mongo.matches [("studentId"%string, Mongo.VStr sid);
                                        ("subjectId"%string, Mongo.VStr subj)])
                        (Dashboard.marks s) = true).
  { apply find_one_exists. eauto. }
  unfold Dashboard.add_or_update_marks. cbn [fst Dashboard.marks].
  rewrite upsert_one_existing by exact Hex.
  exists (Mongo.set_fields (Dashboard.mark now sid subj mse ese) d0).
  split.
  { apply find_one_update_first; [intros d _; apply mark_keeps_selected | exact Hd0]. }
  unfold Mongo.set_fields.
  destruct (mark_fields now sid subj mse ese)
    as (H1 & H2 & H3 & H4 & H5 & H6 & H7 & H8 & _).
  repeat split; try (apply lookup_union_Some_l; assumption).
  - apply lookup_union_r, H8.
  - intros k Hk. apply lookup_union_r, Hk.
  - apply length_update_first.
Qed.

Lemma update_keeps_createdAt_witness :
  exists d' : Mongo.doc,
    Mongo.find_one
      (Mongo.matches [("studentId"%string, Mongo.VStr "21AIML001");
                      ("subjectId"%string, Mongo.VStr "ML3001")])
      (Dashboard.marks
         (fst (Dashboard.add_or_update_marks 7 8 "21AIML001" "ML3001" 10 20
                 Sample.one_mark)))
    = Some d' /\
    d' !! "createdAt"%string = Some (Mongo.VTime 2) /\
    d' !! "updatedAt"%string = Some (Mongo.VTime 7) /\
    d' !! "grade"%string = Some (Mongo.VStr "F").
Proof.
  destruct (update_keeps_createdAt 7 8 "21AIML001" "ML3001" 10 20 Sample.one_mark
              (<["_id"%string := Mongo.VId 0]>
                 (Dashboard.mark 1 "21AIML001" "ML3001" 24 56
                    ∪ {[ "createdAt"%string := Mongo.VTime 2 ]}
                    ∪ list_to_map [("studentId"%string, Mongo.VStr "21AIML001");
                                   ("subjectId"%string, Mongo.VStr "ML3001")])))
    as (d' & Hfind & Hc & _ & _ & _ & _ & _ & Hg & Hu & _).
  - compute_eq.
  - exists d'. split; [exact Hfind|]. split; [|split; [exact Hu|]].
    + rewrite Hc. compute_eq.
    + rewrite Hg. compute_eq.
Defined.

(** ** Identifiers as text *)

Section ObjectIdFacts.
Import Mongo.
Local Open Scope string_scope.

Lemma hex_value_hex_char (d : N) : (d < 16)%N -> hex_value (hex_char d) = Some d.
Proof.
  intros Hd. destruct d as [|p]; [reflexivity|].
  do 4 (destruct p as [p|p|]; try reflexivity); exfalso; lia.
Qed.

Lemma hex_space_hex_char (d : N) : (d < 16)%N -> hex_space (hex_char d) = false.
Proof.
  intros Hd. destruct d as [|p]; [reflexivity|].
  do 4 (destruct p as [p|p|]; try reflexivity); exfalso; lia.
Qed.

(** White space is no digit. *)
Lemma hex_space_no_digit (a : ascii) : hex_space a = true -> hex_value a = None.
Proof.
  unfold hex_space, hex_value. cbv zeta. intros Hs.
  apply orb_true_iff in Hs as [Hs | [H1 H2]%andb_true_iff].
  - apply N.eqb_eq in Hs. rewrite Hs. reflexivity.
  - apply N.leb_le in H1, H2.
    destruct (N.leb_spec 48 (N_of_ascii a)); [lia|].
    destruct (N.leb_spec 97 (N_of_ascii a)); [lia|].
    destruct (N.leb_spec 65 (N_of_ascii a)); [lia|]. reflexivity.
Qed.

(** The digits of [n] are read back as its bytes. *)
Lemma fromhex_hex_digits (k : nat) (n : N) (acc : string) (bytes : list N) :
  fromhex acc = Some bytes ->
  fromhex (hex_digits (2 * k) n acc) = Some (bytes_be k n bytes).
Proof.
  revert n acc bytes. induction k as [|k IH]; intros n acc bytes Hacc; [exact Hacc|].
  replace (2 * S k) with (S (S (2 * k))) by lia.
  cbn [hex_digits bytes_be]. rewrite N.Div0.div_div. change (16 * 16)%N with 256%N.
  apply IH. cbn [fromhex].
  assert (Hhi : ((n / 16) mod 16 < 16)%N) by (apply N.mod_lt; discriminate).
  assert (Hlo : (n mod 16 < 16)%N) by (apply N.mod_lt; discriminate).
  rewrite (hex_space_hex_char _ Hhi), (hex_value_hex_char _ Hhi),
    (hex_value_hex_char _ Hlo), Hacc.
  do 2 f_equal.
  change 256%N with (16 * 16)%N. rewrite (N.Div0.mod_mul_r n 16 16). lia.
Qed.

Lemma length_hex_digits (k : nat) (n : N) (acc : string) :
  String.length (hex_digits k n acc) = k + String.length acc.
Proof.
  revert n acc. induction k as [|k IH]; intros n acc; [reflexivity|].
  cbn [hex_digits]. rewrite IH. simpl. lia.
Qed.

Lemma length_bytes_be (k : nat) (n : N) (acc : list N) :
  length (bytes_be k n acc) = k + length acc.
Proof.
  revert n acc. induction k as [|k IH]; intros n acc; [reflexivity|].
  cbn [bytes_be]. rewrite IH. simpl. lia.
Qed.

Lemma fold_bytes_be (k : nat) (n : N) (acc : list N) (a : N) :
  List.fold_left (fun x b => (x * 256 + b)%N) (bytes_be k n acc) a =
  List.fold_left (fun x b => (x * 256 + b)%N) acc
                 (a * 256 ^ N.of_nat k + n mod 256 ^ N.of_nat k)%N.
Proof.
  revert n acc a. induction k as [|k IH]; intros n acc a.
  - simpl. rewrite N.mod_1_r, N.mul_1_r, N.add_0_r. reflexivity.
  - cbn [bytes_be]. rewrite IH. cbn [List.fold_left]. f_equal.
    rewrite Nnat.Nat2N.inj_succ, N.pow_succ_r'.
    rewrite (N.Div0.mod_mul_r n 256 (256 ^ N.of_nat k)). lia.
Qed.

(** The text of an identifier is read back as its 12 bytes. *)
Lemma ObjectId_oid_str (o : N) : ObjectId (oid_str o) = Some (binary o).
Proof.
  unfold ObjectId, oid_str. rewrite length_hex_digits. cbn [String.length Nat.add Nat.eqb].
  apply (fromhex_hex_digits 12). reflexivity.
Qed.

Lemma length_binary (o : N) : length (binary o) = 12.
Proof. apply length_bytes_be. Qed.

Lemma of_bytes_binary (o : N) : of_bytes (binary o) = (o mod 2 ^ 96)%N.
Proof. unfold of_bytes, binary. rewrite fold_bytes_be. reflexivity. Qed.

(** What [bytes.fromhex] reads is made of white space and of two digits
    for each byte. *)
Lemma fromhex_length_upto (n : nat) (text : string) (bytes : list N) :
  String.length text <= n -> fromhex text = Some bytes ->
  String.length text = 2 * length bytes + spaces text /\
  (hex_text text = true <-> spaces text = 0).
Proof.
  revert text bytes. induction n as [|n IH]; intros text bytes Hlen Hread.
  - destruct text; [|simpl in Hlen; lia]. injection Hread as <-.
    split; [reflexivity | split; reflexivity].
  - destruct text as [|a rest]; [injection Hread as <-; split; [reflexivity | split; reflexivity]|].
    cbn [fromhex] in Hread. cbn [String.length spaces hex_text].
    destruct (hex_space a) eqn:Hs.
    + destruct (IH rest bytes ltac:(simpl in Hlen; lia) Hread) as [Hl _].
      split; [lia|]. rewrite (hex_space_no_digit a Hs). split; [discriminate | lia].
    + destruct (hex_value a) as [top|] eqn:Ha; [|discriminate].
      destruct rest as [|b rest]; [discriminate|].
      destruct (hex_value b) as [bot|] eqn:Hb; [|discriminate].
      destruct (fromhex rest) as [bytes'|] eqn:Hrest; [|discriminate].
      injection Hread as <-.
      destruct (IH rest bytes' ltac:(simpl in Hlen; lia) Hrest) as [Hl Hhex].
      cbn [String.length spaces hex_text length]. rewrite Hb.
      assert (Hsb : hex_space b = false).
      { destruct (hex_space b) eqn:E; [|reflexivity].
        rewrite (hex_space_no_digit b E) in Hb. discriminate. }
      rewrite Hsb. split; [lia|].
      rewrite !bool_decide_true by eauto. simpl. exact Hhex.
Qed.

(** An accepted text gives 12 bytes exactly when its 24 characters are
    digits, and fewer otherwise. *)
Lemma ObjectId_bytes (text : string) (bytes : list N) :
  ObjectId text = Some bytes ->
  length bytes <= 12 /\ (length bytes = 12 <-> hex_text text = true).
Proof.
  unfold ObjectId. destruct (Nat.eqb_spec (String.length text) 24) as [Hlen|]; [|discriminate].
  intros Hread.
  destruct (fromhex_length_upto _ text bytes (le_n _) Hread) as [Hl Hhex].
  rewrite Hhex. lia.
Qed.

End ObjectIdFacts.

(** ** Deleting *)

Section DeleteFacts.
Import Mongo.
Local Open Scope string_scope.

Lemma delete_student_marks (roll_no : string) (s : Dashboard.state) :
  Dashboard.marks (fst (Dashboard.delete_student roll_no s)) =
  delete_many (matches [("studentId", VStr roll_no)]) (Dashboard.marks s).
Proof.
  unfold Dashboard.delete_student. destruct (delete_one _ _). reflexivity.
Qed.

Lemma delete_student_students (roll_no : string) (s : Dashboard.state) :
  Dashboard.students (fst (Dashboard.delete_student roll_no s)) =
  fst (delete_one (matches [("rollNo", VStr roll_no)]) (Dashboard.students s)) /\
  snd (Dashboard.delete_student roll_no s) =
  existsb (matches [("rollNo", VStr roll_no)]) (Dashboard.students s).
Proof.
  unfold Dashboard.delete_student.
  pose proof (delete_one_count (matches [("rollNo", VStr roll_no)]) (Dashboard.students s)) as Hn.
  destruct (delete_one _ _) as [students' n]. simpl in *. subst n.
  split; [reflexivity|]. destruct (existsb _ _); reflexivity.
Qed.

Lemma existsb_field (k a : string) (c : list doc) :
  existsb (matches [(k, VStr a)]) c = true <->
  exists d, In d c /\ d !! k = Some (VStr a).
Proof.
  rewrite existsb_exists. split; intros (d & Hin & Hd); exists d; split; auto;
    apply matches_one; assumption.
Qed.

End DeleteFacts.

(** C7. Deleting a student by roll number removes every mark record whose
    [studentId] is that roll number and keeps the marks of the others, so
    that [get_student_marks] for that roll number returns nothing
    afterwards. *)
Theorem delete_student_cascades (roll_no : string) (s : Dashboard.state) :
  let s' := fst (Dashboard.delete_student roll_no s) in
  (forall d, In d (Dashboard.marks s') ->
             d !! "studentId"%string <> Some (Mongo.VStr roll_no)) /\
  (forall d, In d (Dashboard.marks s) ->
             d !! "studentId"%string <> Some (Mongo.VStr roll_no) ->
             In d (Dashboard.marks s')) /\
  Mongo.count (Mongo.matches [("studentId"%string, Mongo.VStr roll_no)])
              (Dashboard.marks s') = 0 /\
  Dashboard.get_student_marks roll_no s' = [].
Proof.
  cbv zeta. split; [|split; [|split]].
  - intros d Hin Hd. rewrite delete_student_marks in Hin.
    apply delete_many_In in Hin as [_ Hno].
    apply matches_one in Hd. congruence.
  - intros d Hin Hd. rewrite delete_student_marks. apply delete_many_In.
    split; [exact Hin|]. destruct (Mongo.matches _ d) eqn:E; [|reflexivity].
    apply matches_one in E. contradiction.
  - unfold Mongo.count. rewrite delete_student_marks, delete_many_none_left. reflexivity.
  - unfold Dashboard.get_student_marks.
    rewrite delete_student_marks, delete_many_none_left. reflexivity.
Qed.

(** The claim C6, read on [delete_result], fails: the identifier
    [000000000000000000000001] is well formed, the empty collection holds
    no record under it, and the answer is still a success. *)
Lemma delete_result_absent_counterexample :
  ~ (forall (H : Portal.Host) (data : gmap string string) (s : Portal.store)
            (result_id : string) (bytes : list N),
        data !! "id"%string = Some result_id ->
        Mongo.ObjectId result_id = Some bytes -> length bytes = 12 ->
        existsb (Mongo.field_is "_id" (Mongo.VId (Mongo.of_bytes bytes))) (Portal.results s)
        = false ->
        Portal.success (snd (Portal.delete_result data s)) = false).
Proof.
  intros Hclaim.
  assert (Hanswer : Portal.success
                      (snd (Portal.delete_result (H := Sample.host)
                              {[ "id"%string := "000000000000000000000001"%string ]}
                              Sample.empty_store)) = false).
  { apply (Hclaim Sample.host _ _ "000000000000000000000001"%string (Mongo.binary 1));
      compute_eq. }
  vm_compute in Hanswer. discriminate Hanswer.
Qed.

(** C6, amended. [delete_student] answers true exactly when a student
    with the roll number existed, in which case one such student is
    removed, and false, without an error, when none existed, in which case
    the students are left as they were.  [delete_result] answers with a
    success for every identifier of 24 hexadecimal digits, whether or not
    a record existed under it (one is removed when it did, nothing changes
    when it did not), and with a failure, changing nothing, when the
    identifier is missing or is a text that [ObjectId] refuses: one that
    has not 24 characters, or that [bytes.fromhex] does not read.  A text
    of 24 characters with white space between its pairs of digits is
    accepted: it gives fewer than 12 bytes, and the answer is then that of
    the database, a success unless the query is refused.  The texts under
    which the results are listed are accepted, and give back the 12 bytes
    of the identifier. *)
Theorem delete_answers :
  (forall (roll_no : string) (s : Dashboard.state),
      let q := Mongo.matches [("rollNo"%string, Mongo.VStr roll_no)] in
      let s' := fst (Dashboard.delete_student roll_no s) in
      let answer := snd (Dashboard.delete_student roll_no s) in
      (answer = true <->
       exists d, In d (Dashboard.students s) /\
                 d !! "rollNo"%string = Some (Mongo.VStr roll_no)) /\
      (answer = true ->
       S (length (Dashboard.students s')) = length (Dashboard.students s) /\
       S (Mongo.count q (Dashboard.students s')) = Mongo.count q (Dashboard.students s)) /\
      (answer = false -> Dashboard.students s' = Dashboard.students s)) /\
  (forall (H : Portal.Host) (data : gmap string string) (s : Portal.store),
      let s' := fst (Portal.delete_result data s) in
      let answer := snd (Portal.delete_result data s) in
      (forall result_id bytes,
          data !! "id"%string = Some result_id ->
          Mongo.ObjectId result_id = Some bytes -> length bytes = 12 ->
          let q := Mongo.field_is "_id" (Mongo.VId (Mongo.of_bytes bytes)) in
          answer = Portal.Success "Result deleted successfully!" /\
          (existsb q (Portal.results s) = true ->
           S (length (Portal.results s')) = length (Portal.results s) /\
           S (Mongo.count q (Portal.results s')) = Mongo.count q (Portal.results s)) /\
          (existsb q (Portal.results s) = false -> s' = s)) /\
      (data !! "id"%string = None -> answer = Portal.Failure (Portal.KeyError "id") /\ s' = s) /\
      (forall result_id,
          data !! "id"%string = Some result_id ->
          Mongo.ObjectId result_id = None ->
          answer = Portal.Failure Portal.InvalidId /\ s' = s) /\
      (forall result_id bytes,
          data !! "id"%string = Some result_id ->
          Mongo.ObjectId result_id = Some bytes -> length bytes <> 12 ->
          (forall q, Portal.short_id bytes = Some q ->
                     answer = Portal.Success "Result deleted successfully!" /\
                     Portal.results s' = fst (Mongo.delete_one q (Portal.results s)) /\
                     Portal.next_oid s' = Portal.next_oid s) /\
          (Portal.short_id bytes = None ->
           answer = Portal.Failure Portal.OperationFailure /\ s' = s))) /\
  (forall (text : string) (bytes : list N),
      Mongo.ObjectId text = Some bytes ->
      length bytes <= 12 /\ (length bytes = 12 <-> Mongo.hex_text text = true)) /\
  (forall o : N,
      Mongo.ObjectId (Mongo.oid_str o) = Some (Mongo.binary o) /\
      length (Mongo.binary o) = 12 /\
      Mongo.of_bytes (Mongo.binary o) = (o mod 2 ^ 96)%N).
Proof.
  split; [|split; [|split]].
  - intros roll_no s. cbv zeta.
    destruct (delete_student_students roll_no s) as [-> ->].
    split; [apply existsb_field|]. split.
    + apply delete_one_some.
    + apply delete_one_none.
  - intros H data s. cbv zeta. unfold Portal.delete_result, Portal.getitem, Portal.id_query.
    split; [|split; [|split]].
    + intros result_id bytes -> -> ->. cbn [Nat.eqb fst snd Portal.results].
      split; [reflexivity|]. split.
      * apply delete_one_some.
      * intros Hno. rewrite (delete_one_none _ _ Hno). destruct s; reflexivity.
    + intros ->. split; reflexivity.
    + intros result_id -> ->. split; reflexivity.
    + intros result_id bytes -> -> Hlen.
      apply Nat.eqb_neq in Hlen. rewrite Hlen. split.
      * intros q ->. repeat split.
      * intros ->. split; reflexivity.
  - apply ObjectId_bytes.
  - intros o. split; [apply ObjectId_oid_str|]. split; [apply length_binary|].
    apply of_bytes_binary.
Qed.

Lemma delete_answers_witness :
  snd (Dashboard.delete_student "21AIML001" Sample.one_mark) = true /\
  snd (Dashboard.delete_student "21AIML002" Sample.one_mark) = false /\
  snd (Portal.delete_result (H := Sample.host)
         {[ "id"%string := "000000000000000000000000"%string ]}
         Sample.one_result) = Portal.Success "Result deleted successfully!" /\
  snd (Portal.delete_result (H := Sample.host)
         {[ "id"%string := "000000000000000000000001"%string ]}
         Sample.one_result) = Portal.Success "Result deleted successfully!" /\
  snd (Portal.delete_result (H := Sample.host) {[ "id"%string := "first"%string ]}
         Sample.one_result)
  = Portal.Failure Portal.InvalidId /\
  snd (Portal.delete_result (H := Sample.host)
         {[ "id"%string := "00000000000000000000000g"%string ]} Sample.one_result)
  = Portal.Failure Portal.InvalidId /\
  snd (Portal.delete_result (H := Sample.host)
         {[ "id"%string := "0 0000000000000000000000"%string ]} Sample.one_result)
  = Portal.Failure Portal.InvalidId /\
  snd (Portal.delete_result (H := Sample.host)
         {[ "id"%string := "00 00 00 00 00 00 00 00 "%string ]} Sample.one_result)
  = Portal.Success "Result deleted successfully!".
Proof.
  split; [|split; [|split; [|split; [|split; [|split; [|split]]]]]].
  - apply (proj1 (proj1 delete_answers "21AIML001"%string Sample.one_mark)).
    eexists. split; [left; reflexivity|]. compute_eq.
  - destruct (snd (Dashboard.delete_student "21AIML002" Sample.one_mark)) eqn:E;
      [|reflexivity].
    apply (proj1 (proj1 delete_answers "21AIML002"%string Sample.one_mark)) in E
      as (d & [<-|[]] & Hd).
    vm_compute in Hd. discriminate Hd.
  - apply (proj1 (proj1 (proj2 delete_answers) Sample.host _ Sample.one_result)
             "000000000000000000000000"%string (Mongo.binary 0)); compute_eq.
  - apply (proj1 (proj1 (proj2 delete_answers) Sample.host _ Sample.one_result)
             "000000000000000000000001"%string (Mongo.binary 1)); compute_eq.
  - apply (proj1 (proj2 (proj2 (proj1 (proj2 delete_answers) Sample.host _
                                  Sample.one_result))) "first"%string);
      compute_eq.
  - apply (proj1 (proj2 (proj2 (proj1 (proj2 delete_answers) Sample.host _
                                  Sample.one_result))) "00000000000000000000000g"%string);
      compute_eq.
  - apply (proj1 (proj2 (proj2 (proj1 (proj2 delete_answers) Sample.host _
                                  Sample.one_result))) "0 0000000000000000000000"%string);
      compute_eq.
  - apply (proj1 (proj2 (proj2 (proj2 (proj1 (proj2 delete_answers) Sample.host _
                                         Sample.one_result)))
                    "00 00 00 00 00 00 00 00 "%string [0; 0; 0; 0; 0; 0; 0; 0]%N
                    ltac:(compute_eq) ltac:(compute_eq) ltac:(simpl; lia))
             (fun _ => false) eq_refl).
Defined.

(** ** Logging in to the bookstore *)

Section LoginFacts.
Import Mongo Bookstore.
Local Open Scope string_scope.

(** The outcome of a POST with both fields, by what [find_one] finds. *)
Lemma login_post (form : gmap string string) (a : app) (email password : string) :
  form !! "email" = Some email -> form !! "password" = Some password ->
  login POST form a =
  match find_one (matches [("email", VStr email); ("password", VStr password)]) (users a) with
  | Some user =>
      match user !! "name" with
      | None => (a, ServerError)
      | Some name =>
          let a1 := App (users a) (<["user" := name]> (session a)) (flashes a) in
          match name with
          | VStr n => (flash ("Welcome back, " ++ n ++ "!") "success" a1, RedirectHome)
          | _ => (a1, ServerError)
          end
      end
  | None => render_login (flash "Invalid credentials!" "error" a)
  end.
Proof. intros He Hp. unfold login. rewrite He, Hp. reflexivity. Qed.

End LoginFacts.

(** C10. A POST to [login] with an email and a password is authenticated
    exactly when some stored user has both its [email] and its [password]
    equal, as strings, to the submitted ones; then the session's user
    becomes the name of the first such user; otherwise the session is
    left as it was and the login page is rendered again.  The stored users
    have a name, as [register] gives them. *)
Theorem login_authenticates_iff_credentials_match
    (form : gmap string string) (a : Bookstore.app) (email password : string) :
  form !! "email"%string = Some email ->
  form !! "password"%string = Some password ->
  (forall d, In d (Bookstore.users a) ->
             exists n, d !! "name"%string = Some (Mongo.VStr n)) ->
  let credentials (d : Mongo.doc) :=
    d !! "email"%string = Some (Mongo.VStr email) /\
    d !! "password"%string = Some (Mongo.VStr password) in
  let a' := fst (Bookstore.login Bookstore.POST form a) in
  let answer := snd (Bookstore.login Bookstore.POST form a) in
  (answer = Bookstore.RedirectHome <->
   exists d, In d (Bookstore.users a) /\ credentials d) /\
  (answer = Bookstore.RedirectHome ->
   exists d n,
     Mongo.find_one (Mongo.matches [("email"%string, Mongo.VStr email);
                                    ("password"%string, Mongo.VStr password)])
                    (Bookstore.users a) = Some d /\
     In d (Bookstore.users a) /\ credentials d /\
     d !! "name"%string = Some (Mongo.VStr n) /\
     Bookstore.session a' = <["user"%string := Mongo.VStr n]> (Bookstore.session a)) /\
  (answer <> Bookstore.RedirectHome ->
   Bookstore.session a' = Bookstore.session a /\
   exists messages, answer = Bookstore.LoginPage messages) /\
  Bookstore.users a' = Bookstore.users a.
Proof.
  intros He Hp Hnames. cbv zeta. rewrite (login_post form a email password He Hp).
  destruct (Mongo.find_one _ (Bookstore.users a)) as [user|] eqn:Hfind.
  - pose proof (find_one_Some _ _ _ Hfind) as [Hin Hmatch].
    apply matches_two in Hmatch.
    destruct (Hnames user Hin) as [n Hn]. rewrite Hn. cbn.
    split; [|split; [|split]].
    + split; [intros _; exists user; auto | reflexivity].
    + intros _. exists user, n. auto.
    + congruence.
    + reflexivity.
  - cbn. split; [|split; [|split]].
    + split; [discriminate|]. intros (d & Hin & Hd).
      apply find_one_None in Hfind.
      assert (Hex : existsb (Mongo.matches [("email"%string, Mongo.VStr email);
                                            ("password"%string, Mongo.VStr password)])
                            (Bookstore.users a) = true).
      { apply existsb_exists. exists d. split; [exact Hin|]. apply matches_two, Hd. }
      congruence.
    + discriminate.
    + intros _. split; [reflexivity|]. eauto.
    + reflexivity.
Qed.

Lemma login_authenticates_iff_credentials_match_witness :
  snd (Bookstore.login Bookstore.POST
         {[ "email"%string := "asha@example.org"%string;
            "password"%string := "s3cret"%string ]} Sample.one_user)
  = Bookstore.RedirectHome /\
  snd (Bookstore.login Bookstore.POST
         {[ "email"%string := "asha@example.org"%string;
            "password"%string := "S3CRET"%string ]} Sample.one_user)
  <> Bookstore.RedirectHome.
Proof.
  assert (Hnames : forall d, In d (Bookstore.users Sample.one_user) ->
                             exists n, d !! "name"%string = Some (Mongo.VStr n)).
  { intros d [<-|[]]. exists "Asha"%string. compute_eq. }
  split.
  - apply (proj1 (login_authenticates_iff_credentials_match _ Sample.one_user
                    "asha@example.org" "s3cret" ltac:(compute_eq) ltac:(compute_eq) Hnames)).
    eexists. split; [left; reflexivity|]. split; compute_eq.
  - intros Hredirect.
    apply (proj1 (login_authenticates_iff_credentials_match _ Sample.one_user
                    "asha@example.org" "S3CRET" ltac:(compute_eq) ltac:(compute_eq) Hnames))
      in Hredirect as (d & [<-|[]] & _ & Hpw).
    vm_compute in Hpw. discriminate Hpw.
Defined.

(** ** Searching *)

Section SearchFacts.
Import Mongo Portal.
Local Open Scope string_scope.

Lemma compile_plain (term : string) : plain term = true -> compile term = Some (lits term).
Proof.
  induction term as [|a rest IH]; simpl; [reflexivity|].
  intros [Ha Hrest]%andb_true_iff. rewrite (IH Hrest), Ha. reflexivity.
Qed.

Lemma match_here_lits (term subject : string) :
  match_here (lits term) subject = true <->
  exists after, lower_string subject = lower_string term ++ after.
Proof.
  revert subject. induction term as [|c term IH]; intros subject; simpl.
  - split; [intros _; exists (lower_string subject); reflexivity | reflexivity].
  - destruct subject as [|a subject]; simpl.
    + split; [discriminate | intros [after [=]]].
    + rewrite andb_true_iff, IH, Ascii.eqb_eq. split.
      * intros [-> [after ->]]. exists after. reflexivity.
      * intros [after [= -> ->]]. split; [reflexivity | exists after; reflexivity].
Qed.

Lemma match_anywhere_lits (term subject : string) :
  match_anywhere (lits term) subject = true <-> contains_ci term subject.
Proof.
  unfold contains_ci. induction subject as [|a subject IH]; simpl.
  - rewrite orb_false_r, match_here_lits. split.
    + intros [after Hafter]. exists "", after. exact Hafter.
    + intros (before & after & Heq). destruct before; [|discriminate].
      exists after. exact Heq.
  - rewrite orb_true_iff, match_here_lits, IH. split.
    + intros [[after Hafter] | (before & after & Heq)].
      * exists "", after. exact Hafter.
      * exists (String (lower a) before), after. simpl. rewrite Heq. reflexivity.
    + intros (before & after & Heq). destruct before as [|b before]; simpl in Heq.
      * left. exists after. exact Heq.
      * right. injection Heq as _ Heq. exists before, after. exact Heq.
Qed.

Section WithHost.
Context `{Host}.

Lemma regex_i_plain (term : string) :
  plain term = true ->
  regex_i term =
  Some (fun subject => if ascii_only subject then match_anywhere (lits term) subject
                       else regex_host term subject).
Proof. intros Hplain. unfold regex_i. rewrite (compile_plain term Hplain). reflexivity. Qed.

(** On an ASCII field the condition of a plain term is containment. *)
Lemma regex_field_plain (term k : string) (d : doc) :
  (forall v, d !! k = Some (VStr v) -> ascii_only v = true) ->
  regex_field (fun subject => if ascii_only subject then match_anywhere (lits term) subject
                              else regex_host term subject) k d = true <->
  field_contains term k d.
Proof.
  intros Hascii. unfold regex_field, field_contains.
  destruct (d !! k) as [[v| | |]|] eqn:E;
    try (split; [discriminate | intros (v' & [=] & _)]).
  rewrite (Hascii v eq_refl), match_anywhere_lits. split.
  - intros Hc. exists v. auto.
  - intros (v' & [= <-] & Hc). exact Hc.
Qed.

(** The dot alone matches wherever there is a character other than a line
    feed. *)
Lemma match_anywhere_dot (subject : string) :
  match_anywhere [AnyChar] subject = true <-> more_than_line_feeds subject.
Proof.
  unfold more_than_line_feeds. induction subject as [|a subject IH].
  - split; [discriminate|]. intros (before & b & after & Heq & _).
    destruct before; discriminate.
  - cbn [match_anywhere match_here atom_matches].
    rewrite orb_true_iff, andb_true_r, negb_true_iff, IH. split.
    + intros [Ha | (before & b & after & -> & Hb)].
      * exists "", a, subject. split; [reflexivity|].
        intros ->. rewrite Ascii.eqb_refl in Ha. discriminate.
      * exists (String a before), b, after. split; [reflexivity | exact Hb].
    + intros (before & b & after & Heq & Hb). destruct before as [|c before].
      * injection Heq as -> ->. left. apply Ascii.eqb_neq, Hb.
      * injection Heq as -> ->. right. eauto.
Qed.

Lemma regex_i_dot :
  regex_i "." =
  Some (fun subject => if ascii_only subject then match_anywhere [AnyChar] subject
                       else regex_host "." subject).
Proof. reflexivity. Qed.

(** On an ASCII field the condition of the dot is that the field has a
    character other than a line feed. *)
Lemma regex_field_dot (k : string) (d : doc) :
  (forall v, d !! k = Some (VStr v) -> ascii_only v = true) ->
  regex_field (fun subject => if ascii_only subject then match_anywhere [AnyChar] subject
                              else regex_host "." subject) k d = true <->
  field_has_character k d.
Proof.
  intros Hascii. unfold regex_field, field_has_character.
  destruct (d !! k) as [[v| | |]|] eqn:E;
    try (split; [discriminate | intros (v' & [=] & _)]).
  rewrite (Hascii v eq_refl), match_anywhere_dot. split.
  - intros Hc. exists v. auto.
  - intros (v' & [= <-] & Hc). exact Hc.
Qed.

Lemma jsonable_all_ok (ds : list doc) :
  (forall d, In d ds ->
             exists i t, d !! "_id" = Some i /\ d !! "created_at" = Some (VTime t)) ->
  exists out, jsonable_all ds = inr out.
Proof.
  induction ds as [|d ds IH]; intros Hwf; simpl; [eauto|].
  destruct (Hwf d (or_introl eq_refl)) as (i & t & Hi & Ht).
  destruct IH as [out Hout]; [intros d' Hd'; apply Hwf; right; exact Hd'|].
  unfold jsonable. rewrite Hi, !lookup_insert_ne, Ht by discriminate.
  rewrite Hout. eauto.
Qed.

(** What [search_result] answers for a term that compiles. *)
Lemma search_result_found (data : gmap string string) (s : store) (term : string)
    (re : string -> bool) :
  data !! "search_term" = Some term -> regex_i term = Some re ->
  (forall d, In d (results s) ->
             exists i t, d !! "_id" = Some i /\ d !! "created_at" = Some (VTime t)) ->
  exists out,
    search_result data s = SuccessData out /\
    jsonable_all (List.filter (fun d => (regex_field re "roll_number" d ||
                                         regex_field re "student_name" d)%bool)
                              (results s)) = inr out.
Proof.
  intros Hterm Hre Hwf. unfold search_result, getitem. rewrite Hterm, Hre.
  destruct (jsonable_all_ok
              (List.filter (fun d => (regex_field re "roll_number" d ||
                                      regex_field re "student_name" d)%bool) (results s)))
    as [out Hout].
  { intros d Hd. apply List.filter_In in Hd as [Hd _]. apply Hwf, Hd. }
  exists out. rewrite Hout. split; reflexivity.
Qed.

End WithHost.

End SearchFacts.

(** The claim C8 fails on the term made of one dot: the stored result of
    Asha Rao, roll number 21AIML001, has no dot in either field, and the
    search returns it, the dot standing for any character. *)
Lemma search_dot_counterexample :
  ~ (forall (H : Portal.Host) (data : gmap string string) (s : Portal.store) (term : string),
        data !! "search_term"%string = Some term ->
        exists (p : Mongo.doc -> bool) (out : list Mongo.doc),
          Portal.search_result data s = Portal.SuccessData out /\
          Portal.jsonable_all (List.filter p (Portal.results s)) = inr out /\
          forall d, In d (Portal.results s) ->
                    (p d = true <->
                     Portal.field_contains term "roll_number" d \/
                     Portal.field_contains term "student_name" d)).
Proof.
  intros Hclaim.
  destruct (Hclaim Sample.host {[ "search_term"%string := "."%string ]}
                   Sample.one_result "."%string ltac:(compute_eq))
    as (p & out & Hout & Hjson & Hp).
  assert (Hfound : match Portal.search_result (H := Sample.host)
                            {[ "search_term"%string := "."%string ]} Sample.one_result with
                    | Portal.SuccessData found => length found
                    | _ => 0
                    end = 1) by compute_eq.
  rewrite Hout in Hfound.
  set (d := <["_id"%string := Mongo.VId 0]> (Sample.request_fields 1)).
  assert (Hres : Portal.results Sample.one_result = [d]) by compute_eq.
  assert (Hroll : d !! "roll_number"%string = Some (Mongo.VStr "21AIML001")) by compute_eq.
  assert (Hname : d !! "student_name"%string = Some (Mongo.VStr "Asha Rao")) by compute_eq.
  rewrite Hres in Hjson, Hp.
  assert (Hpd : p d = false).
  { destruct (p d) eqn:E; [|reflexivity].
    apply (Hp d (or_introl eq_refl)) in E as [(v & Hv & Hc) | (v & Hv & Hc)].
    - rewrite Hroll in Hv. injection Hv as <-.
      apply match_anywhere_lits in Hc. vm_compute in Hc. discriminate Hc.
    - rewrite Hname in Hv. injection Hv as <-.
      apply match_anywhere_lits in Hc. vm_compute in Hc. discriminate Hc. }
  cbn [List.filter] in Hjson. rewrite Hpd in Hjson.
  injection Hjson as <-. discriminate Hfound.
Qed.

(** C8, amended. For a search term made of ASCII characters none of which
    is one of the fourteen that a regular expression reads specially (nor
    NUL), [search_result] returns, in the form it gives them for JSON,
    stored results among which those whose roll number and name are ASCII
    text are exactly those whose [roll_number] or [student_name] contains
    the term as a case-insensitive substring.  Any other term is a regular
    expression: for the term made of one dot, the results with ASCII
    fields that are returned are exactly those whose roll number or name
    has a character other than a line feed, whether it is a dot or not.
    (A result with a field beyond ASCII is selected as the engine of the
    database decides.) *)
Theorem search_plain_term_is_substring
    (H : Portal.Host) (data : gmap string string) (s : Portal.store) (term : string) :
  data !! "search_term"%string = Some term ->
  (forall d, In d (Portal.results s) ->
             exists i t, d !! "_id"%string = Some i /\
                         d !! "created_at"%string = Some (Mongo.VTime t)) ->
  (Portal.plain term = true ->
   exists (p : Mongo.doc -> bool) (out : list Mongo.doc),
     Portal.search_result data s = Portal.SuccessData out /\
     Portal.jsonable_all (List.filter p (Portal.results s)) = inr out /\
     forall d, In d (Portal.results s) -> Portal.ascii_fields d ->
               (p d = true <->
                Portal.field_contains term "roll_number" d \/
                Portal.field_contains term "student_name" d)) /\
  (term = "."%string ->
   exists (p : Mongo.doc -> bool) (out : list Mongo.doc),
     Portal.search_result data s = Portal.SuccessData out /\
     Portal.jsonable_all (List.filter p (Portal.results s)) = inr out /\
     forall d, In d (Portal.results s) -> Portal.ascii_fields d ->
               (p d = true <->
                Portal.field_has_character "roll_number" d \/
                Portal.field_has_character "student_name" d)).
Proof.
  intros Hterm Hwf. split.
  - intros Hplain.
    destruct (search_result_found data s term _ Hterm (regex_i_plain term Hplain) Hwf)
      as (out & Hout & Hjson).
    eexists. exists out. split; [exact Hout|]. split; [exact Hjson|].
    intros d Hd Hascii. cbv beta. rewrite orb_true_iff.
    rewrite !regex_field_plain; [reflexivity|..]; intros v Hv; apply Hascii; auto.
  - intros ->.
    destruct (search_result_found data s "." _ Hterm regex_i_dot Hwf)
      as (out & Hout & Hjson).
    eexists. exists out. split; [exact Hout|]. split; [exact Hjson|].
    intros d Hd Hascii. cbv beta. rewrite orb_true_iff.
    rewrite !regex_field_dot; [reflexivity|..]; intros v Hv; apply Hascii; auto.
Qed.

Lemma search_plain_term_is_substring_witness :
  (exists (p : Mongo.doc -> bool) (out : list Mongo.doc),
     Portal.search_result (H := Sample.host)
       {[ "search_term"%string := "asha"%string ]}
       Sample.one_result = Portal.SuccessData out /\
     Portal.jsonable_all (H := Sample.host) (List.filter p (Portal.results Sample.one_result))
     = inr out /\
     forall d, In d (Portal.results Sample.one_result) -> Portal.ascii_fields d ->
               (p d = true <->
                Portal.field_contains "asha" "roll_number" d \/
                Portal.field_contains "asha" "student_name" d)) /\
  (exists (p : Mongo.doc -> bool) (out : list Mongo.doc),
     Portal.search_result (H := Sample.host) {[ "search_term"%string := "."%string ]}
                          Sample.one_result = Portal.SuccessData out /\
     Portal.jsonable_all (H := Sample.host) (List.filter p (Portal.results Sample.one_result))
     = inr out /\
     forall d, In d (Portal.results Sample.one_result) -> Portal.ascii_fields d ->
               (p d = true <->
                Portal.field_has_character "roll_number" d \/
                Portal.field_has_character "student_name" d)).
Proof.
  assert (Hres : Portal.results Sample.one_result
                 = [<["_id"%string := Mongo.VId 0]> (Sample.request_fields 1)])
    by compute_eq.
  assert (Hwf : forall d, In d (Portal.results Sample.one_result) ->
                          exists i t, d !! "_id"%string = Some i /\
                                      d !! "created_at"%string = Some (Mongo.VTime t)).
  { intros d Hd. rewrite Hres in Hd. destruct Hd as [<-|[]].
    exists (Mongo.VId 0), 1%Z. split; compute_eq. }
  split.
  - apply (proj1 (search_plain_term_is_substring Sample.host _ Sample.one_result
                    "asha"%string ltac:(compute_eq) Hwf)).
    compute_eq.
  - apply (proj2 (search_plain_term_is_substring Sample.host _ Sample.one_result
                    "."%string ltac:(compute_eq) Hwf)).
    reflexivity.
Defined.

(** ** The stored total *)

Section TotalFacts.
Import Float64 Mongo Dashboard TotalCheck GridCheck.

Lemma zrange_nth (n : Z) (i : nat) :
  (Z.of_nat i < n)%Z -> nth_error (zrange n) i = Some (Z.of_nat i).
Proof.
  intros Hi. unfold zrange. rewrite nth_error_map, nth_error_seq.
  destruct (Nat.ltb_spec i (Z.to_nat n)); [reflexivity | lia].
Qed.

Lemma check_row_nth (x : float) (ys : list float) (Ds : list (list float)) :
  check_row x ys Ds = true ->
  forall j y, nth_error ys j = Some y ->
  exists D, nth_error Ds j = Some D /\
            List.existsb (PrimFloat.Leibniz.eqb (raw_total x y)) D = true.
Proof.
  revert Ds. induction ys as [|y0 ys IH]; intros Ds Hrow j y Hj.
  - destruct j; discriminate.
  - destruct Ds as [|D Ds]; [discriminate|]. simpl in Hrow.
    apply andb_true_iff in Hrow as [Hhere Hrest].
    destruct j as [|j]; simpl in *.
    + injection Hj as <-. eauto.
    + apply (IH Ds Hrest j y Hj).
Qed.

Lemma check_rows_nth (xs ys : list float) (Ds : list (list float)) :
  check_rows xs ys Ds = true ->
  forall i x, nth_error xs i = Some x -> check_row x ys (skipn i Ds) = true.
Proof.
  revert Ds. induction xs as [|x0 xs IH]; intros Ds Hrows i x Hi.
  - destruct i; discriminate.
  - simpl in Hrows. apply andb_true_iff in Hrows as [Hhere Hrest].
    destruct i as [|i]; simpl in Hi.
    + injection Hi as <-. exact Hhere.
    + specialize (IH _ Hrest i x Hi). destruct Ds; [rewrite skipn_nil in *|]; exact IH.
Qed.

(** What a successful check establishes, over the marks [step * i] with
    [i] below [A] against the marks [step * j] with [j] below [B]. *)
Lemma check_rows_spec (step A B C : Z) :
  check_rows (List.map (fun i => cents (step * i)) (zrange A))
             (List.map (fun j => cents (step * j)) (zrange B))
             (List.map (fun n => rounding_to (step * n)) (zrange C)) = true ->
  forall i j : Z, (0 <= i < A)%Z -> (0 <= j < B)%Z -> (i + j < C)%Z ->
  py_round2 (raw_total (cents (step * i)) (cents (step * j))) = cents (step * (i + j)).
Proof.
  intros Hok i j Hi Hj Hij.
  assert (Hx : nth_error (List.map (fun i => cents (step * i)) (zrange A)) (Z.to_nat i)
               = Some (cents (step * i))).
  { rewrite nth_error_map, zrange_nth by lia. cbn [option_map]. rewrite Z2Nat.id by lia.
    reflexivity. }
  assert (Hy : nth_error (List.map (fun j => cents (step * j)) (zrange B)) (Z.to_nat j)
               = Some (cents (step * j))).
  { rewrite nth_error_map, zrange_nth by lia. cbn [option_map]. rewrite Z2Nat.id by lia.
    reflexivity. }
  pose proof (check_rows_nth _ _ _ Hok _ _ Hx) as Hrow.
  destruct (check_row_nth _ _ _ Hrow _ _ Hy) as (D & HD & Hin).
  rewrite nth_error_skipn, nth_error_map, zrange_nth in HD by lia.
  cbn [option_map] in HD. injection HD as <-.
  apply existsb_exists in Hin as (v & Hv & Heq).
  apply FloatAxioms.Leibniz.eqb_spec in Heq. rewrite Heq.
  unfold rounding_to in Hv. apply List.filter_In in Hv as [_ Hv].
  apply FloatAxioms.Leibniz.eqb_spec in Hv. rewrite Hv. do 2 f_equal. lia.
Qed.

(** All marks from 0.00 to 30.00 against all marks from 0.00 to 70.00, in
    steps of 0.05, by evaluation. *)
Lemma all_totals_ok :
  check_rows (List.map (fun i => cents (5 * i)) (zrange 601))
             (List.map (fun j => cents (5 * j)) (zrange 1401))
             (List.map (fun n => rounding_to (5 * n)) (zrange 2001)) = true.
Proof. vm_cast_no_check (@eq_refl bool true). Qed.

Lemma digits2_pos_bound (m : positive) : (Zpos m < 2 ^ Zpos (digits2_pos m))%Z.
Proof.
  induction m as [m IH|m IH|]; simpl; [| |lia];
    rewrite Pos2Z.inj_succ, Z.pow_succ_r by lia; lia.
Qed.

Lemma digits2_pos_lower (m : positive) : (2 ^ (Zpos (digits2_pos m) - 1) <= Zpos m)%Z.
Proof.
  induction m as [m IH|m IH|]; simpl; [| |reflexivity];
    rewrite Pos2Z.inj_succ; replace (Z.succ (Zpos (digits2_pos m)) - 1)%Z
      with (Z.succ (Zpos (digits2_pos m) - 1)) by lia;
    rewrite Z.pow_succ_r by lia; lia.
Qed.

(** The exponent and the mantissa of a finite binary64 number. *)
Lemma finite_bounds (x : float) (s : bool) (m : positive) (e : Z) :
  Prim2SF x = S754_finite s m e ->
  (-1074 <= e)%Z /\ (Zpos m < 2 ^ 53)%Z /\ (-1074 < e -> 2 ^ 52 <= Zpos m)%Z.
Proof.
  intros Hx. pose proof (Prim2SF_valid x) as Hv. rewrite Hx in Hv.
  unfold valid_binary, bounded, canonical_mantissa, fexp in Hv.
  apply andb_true_iff in Hv as [Hc _]. apply Z.eqb_eq in Hc.
  unfold SpecFloat.emin, prec, emax in Hc.
  pose proof (digits2_pos_bound m) as Hm.
  pose proof (digits2_pos_lower m) as Hl.
  split; [lia|]. split.
  - eapply Z.lt_le_trans; [exact Hm|]. apply Z.pow_le_mono_r; lia.
  - intros He. replace (Zpos (digits2_pos m)) with 53%Z in Hl by lia. exact Hl.
Qed.

(** The order of two positive finite numbers, on their integers
    [m * 2^(e + 1074)]. *)
Lemma leb_scaled (x y : float) (m1 m2 : positive) (e1 e2 : Z) :
  Prim2SF x = S754_finite false m1 e1 -> Prim2SF y = S754_finite false m2 e2 ->
  (x <=? y)%float = true ->
  (Zpos m1 * 2 ^ (e1 + 1074) <= Zpos m2 * 2 ^ (e2 + 1074))%Z.
Proof.
  intros Hx Hy Hle. rewrite leb_spec, Hx, Hy in Hle. unfold SFleb, SFcompare in Hle.
  destruct (finite_bounds _ _ _ _ Hx) as (He1 & Hm1 & _).
  destruct (finite_bounds _ _ _ _ Hy) as (He2 & _ & Hm2).
  destruct (Z.compare_spec e1 e2) as [->|Hlt|Hgt]; [| |discriminate].
  - change (Pos.compare_cont Eq m1 m2) with (m1 ?= m2)%positive in Hle.
    apply Z.mul_le_mono_nonneg_r; [apply Z.pow_nonneg; lia|].
    destruct (Pos.compare_spec m1 m2); [lia | lia | discriminate].
  - specialize (Hm2 ltac:(lia)).
    assert (HS : (0 < 2 ^ (e1 + 1074))%Z) by (apply Z.pow_pos_nonneg; lia).
    assert (HT : (2 * 2 ^ (e1 + 1074) <= 2 ^ (e2 + 1074))%Z).
    { rewrite <- Z.pow_succ_r by lia. apply Z.pow_le_mono_r; lia. }
    change (2 ^ 53)%Z with (2 * 2 ^ 52)%Z in Hm1.
    set (S := (2 ^ (e1 + 1074))%Z) in *. set (T := (2 ^ (e2 + 1074))%Z) in *.
    set (W := (2 ^ 52)%Z) in *.
    assert (HW : (0 < W)%Z) by reflexivity. clearbody S T W.
    transitivity (W * (2 * S))%Z; [nia|].
    transitivity (W * T)%Z; [apply Z.mul_le_mono_nonneg_l; lia|].
    apply Z.mul_le_mono_nonneg_r; lia.
Qed.

Lemma round_div_bracket (to_even : bool) (num den k : Z) :
  (0 < den)%Z -> ((2 * k - 1) * den < 2 * num)%Z -> (2 * num < (2 * k + 1) * den)%Z ->
  round_div to_even num den = k.
Proof.
  intros Hden Hlo Hhi. unfold round_div.
  pose proof (Z.div_mod num den ltac:(lia)) as Hdm.
  pose proof (Z.mod_pos_bound num den Hden) as Hr.
  set (q := (num / den)%Z) in *. set (r := (num mod den)%Z) in *. clearbody q r.
  assert (Hq : (q = k \/ q = k - 1)%Z) by nia.
  destruct Hq as [-> | ->].
  - replace (2 * r ?= den)%Z with Lt; [reflexivity|].
    symmetry. apply Z.compare_lt_iff. nia.
  - replace (2 * r ?= den)%Z with Gt; [lia|].
    symmetry. apply Z.compare_gt_iff. nia.
Qed.

Lemma of_hundredths_cents (k : Z) : (0 < k < 2 ^ 53)%Z -> of_hundredths k = cents k.
Proof.
  intros Hk. destruct k as [|p|p]; [lia| |lia].
  unfold of_hundredths, cents, of_Z. rewrite (proj2 (Z.ltb_lt _ _)) by lia. reflexivity.
Qed.

(** Rounding to two decimals sends every float between two floats whose
    hundredfold is within a half of [k] to [k / 100]. *)
Lemma py_round2_between (k : Z) (lo hi v : float) :
  (0 < k < 2 ^ 53)%Z -> lower_ok k lo = true -> upper_ok k hi = true ->
  (lo <=? v)%float = true -> (v <=? hi)%float = true ->
  py_round2 v = cents k.
Proof.
  intros Hk Hlo Hhi Hlv Hvh. unfold lower_ok in Hlo. unfold upper_ok in Hhi.
  destruct (Prim2SF lo) as [| | |[|] ml [|pl|pl]] eqn:Elo; try discriminate.
  destruct (Prim2SF hi) as [| | |[|] mh [|ph|ph]] eqn:Ehi; try discriminate.
  apply Z.ltb_lt in Hlo, Hhi.
  pose proof Hlv as Hlv'. pose proof Hvh as Hvh'.
  rewrite leb_spec, Elo in Hlv'. rewrite leb_spec, Ehi in Hvh'.
  destruct (Prim2SF v) as [s|s| |s m e] eqn:Ev.
  - discriminate Hlv'.
  - destruct s; [discriminate Hlv' | discriminate Hvh'].
  - discriminate Hlv'.
  - destruct s; [discriminate Hlv'|]. clear Hlv' Hvh'.
    pose proof (leb_scaled _ _ _ _ _ _ Elo Ev Hlv) as Hl.
    pose proof (leb_scaled _ _ _ _ _ _ Ev Ehi Hvh) as Hh.
    destruct (finite_bounds _ _ _ _ Elo) as (Hel & _ & _).
    destruct (finite_bounds _ _ _ _ Ehi) as (Heh & Hmh & _).
    destruct (finite_bounds _ _ _ _ Ev) as (He & Hm & Hnorm).
    assert (Hneg : (e < 0)%Z).
    { destruct (Z.lt_ge_cases e 0) as [|Hpos]; [assumption|]. exfalso.
      specialize (Hnorm ltac:(lia)).
      assert (H1 : (2 ^ 52 * 2 ^ 1074 <= Zpos m * 2 ^ (e + 1074))%Z).
      { apply Z.mul_le_mono_nonneg; try lia.
        apply Z.pow_le_mono_r; lia. }
      assert (H2 : (Zpos mh * 2 ^ (Zneg ph + 1074) < 2 ^ 53 * 2 ^ 1073)%Z).
      { apply Z.le_lt_trans with (Zpos mh * 2 ^ 1073)%Z.
        - apply Z.mul_le_mono_nonneg_l; [lia|]. apply Z.pow_le_mono_r; lia.
        - apply Z.mul_lt_mono_pos_r; [apply Z.pow_pos_nonneg; lia | exact Hmh]. }
      assert (H3 : (2 ^ 53 * 2 ^ 1073 = 2 ^ 52 * 2 ^ 1074)%Z).
      { rewrite <- !Z.pow_add_r by lia. reflexivity. }
      lia. }
    destruct e as [|p|p]; [lia | lia |].
    unfold py_round2. rewrite Ev. rewrite <- of_hundredths_cents by exact Hk.
    f_equal. unfold hundredths.
    assert (Hpl : (2 ^ Zpos pl * 2 ^ (Zneg pl + 1074) = 2 ^ 1074)%Z).
    { rewrite <- Z.pow_add_r by lia. f_equal. lia. }
    assert (Hph : (2 ^ Zpos ph * 2 ^ (Zneg ph + 1074) = 2 ^ 1074)%Z).
    { rewrite <- Z.pow_add_r by lia. f_equal. lia. }
    assert (Hp : (2 ^ Zpos p * 2 ^ (Zneg p + 1074) = 2 ^ 1074)%Z).
    { rewrite <- Z.pow_add_r by lia. f_equal. lia. }
    assert (HSl : (0 < 2 ^ (Zneg pl + 1074))%Z) by (apply Z.pow_pos_nonneg; lia).
    assert (HSh : (0 < 2 ^ (Zneg ph + 1074))%Z) by (apply Z.pow_pos_nonneg; lia).
    assert (HSv : (0 < 2 ^ (Zneg p + 1074))%Z) by (apply Z.pow_pos_nonneg; lia).
    assert (HP : (0 < 2 ^ Zpos p)%Z) by (apply Z.pow_pos_nonneg; lia).
    set (Pl := (2 ^ Zpos pl)%Z) in *. set (Ph := (2 ^ Zpos ph)%Z) in *.
    set (P := (2 ^ Zpos p)%Z) in *.
    set (Sl := (2 ^ (Zneg pl + 1074))%Z) in *. set (Sh := (2 ^ (Zneg ph + 1074))%Z) in *.
    set (Sv := (2 ^ (Zneg p + 1074))%Z) in *. set (W := (2 ^ 1074)%Z) in *.
    clearbody Pl Ph P Sl Sh Sv W.
    apply round_div_bracket; [exact HP | |].
    + apply (Z.mul_lt_mono_pos_r Sv); [exact HSv|].
      replace ((2 * k - 1) * P * Sv)%Z with ((2 * k - 1) * Pl * Sl)%Z
        by (rewrite <- !Z.mul_assoc, Hpl, Hp; reflexivity).
      apply Z.lt_le_trans with (200 * Zpos ml * Sl)%Z.
      * apply Z.mul_lt_mono_pos_r; assumption.
      * replace (2 * (Zpos m * 100) * Sv)%Z with (200 * (Zpos m * Sv))%Z by ring.
        rewrite <- Z.mul_assoc. apply Z.mul_le_mono_nonneg_l; [lia | exact Hl].
    + apply (Z.mul_lt_mono_pos_r Sv); [exact HSv|].
      replace ((2 * k + 1) * P * Sv)%Z with ((2 * k + 1) * Ph * Sh)%Z
        by (rewrite <- !Z.mul_assoc, Hph, Hp; reflexivity).
      apply Z.le_lt_trans with (200 * Zpos mh * Sh)%Z.
      * replace (2 * (Zpos m * 100) * Sv)%Z with (200 * (Zpos m * Sv))%Z by ring.
        rewrite <- Z.mul_assoc. apply Z.mul_le_mono_nonneg_l; [lia | exact Hh].
      * apply Z.mul_lt_mono_pos_r; assumption.
Qed.

Lemma In_from (count : nat) (start k : Z) :
  In k (from count start) <-> (start <= k < start + Z.of_nat count)%Z.
Proof.
  revert start. induction count as [|count IH]; intros start.
  - simpl. lia.
  - cbn [from In]. rewrite IH. lia.
Qed.

Lemma brackets_ok_spec (N k : Z) :
  brackets_ok N = true -> (1 <= k <= N)%Z ->
  lower_ok k (under k) = true /\ upper_ok k (over k) = true.
Proof.
  intros Hall Hk. unfold brackets_ok in Hall. rewrite forallb_forall in Hall.
  apply andb_true_iff, Hall, In_from. lia.
Qed.

(** What a row of the check establishes. *)
Lemma row_within_spec (x : float) (g : Z -> float) (B C : nat) (j k : Z) :
  row_within x (List.map g (from B j)) (table (from C k)) = true ->
  forall d : nat, d < B ->
  (under (k + Z.of_nat d)%Z <=? x + g (j + Z.of_nat d)%Z)%float = true /\
  (x + g (j + Z.of_nat d)%Z <=? over (k + Z.of_nat d)%Z)%float = true.
Proof.
  revert C j k. induction B as [|B IH]; intros C j k Hrow d Hd; [lia|].
  destruct C as [|C]; [discriminate|].
  cbn [from List.map table row_within] in Hrow.
  destruct (under k <=? x + g j)%float eqn:Hlo; [|discriminate].
  destruct (x + g j <=? over k)%float eqn:Hhi; [|discriminate].
  destruct d as [|d].
  - rewrite !Z.add_0_r. auto.
  - replace (k + Z.of_nat (S d))%Z with (k + 1 + Z.of_nat d)%Z by lia.
    replace (j + Z.of_nat (S d))%Z with (j + 1 + Z.of_nat d)%Z by lia.
    apply (IH C); [exact Hrow | lia].
Qed.

Lemma rest_of_table (C : nat) (k : Z) :
  rest_of (table (from C k)) = table (from (Nat.pred C) (k + 1)).
Proof. destruct C; reflexivity. Qed.

Lemma rows_within_spec (f : Z -> float) (ys : list float) (A C : nat) (i k : Z) :
  rows_within (List.map f (from A i)) ys (table (from C k)) = true ->
  forall a : nat, a < A ->
  row_within (f (i + Z.of_nat a)%Z) ys (table (from (C - a) (k + Z.of_nat a)%Z)) = true.
Proof.
  revert C i k. induction A as [|A IH]; intros C i k Hrows a Ha; [lia|].
  cbn [from List.map rows_within] in Hrows.
  destruct (row_within (f i) ys (table (from C k))) eqn:Hrow; [|discriminate].
  destruct a as [|a].
  - rewrite !Z.add_0_r, Nat.sub_0_r. exact Hrow.
  - rewrite rest_of_table in Hrows.
    replace (i + Z.of_nat (S a))%Z with (i + 1 + Z.of_nat a)%Z by lia.
    replace (k + Z.of_nat (S a))%Z with (k + 1 + Z.of_nat a)%Z by lia.
    replace (C - S a) with (Nat.pred C - a) by lia.
    apply IH; [exact Hrows | lia].
Qed.

(** What a successful check establishes: the total of the marks [i / 100]
    and [j / 100] rounds to [(i + j) / 100]. *)
Lemma totals_within_spec (A B i0 j0 N : Z) :
  totals_within A B i0 j0 = true -> brackets_ok N = true ->
  forall i j : Z,
    (i0 <= i < i0 + A)%Z -> (j0 <= j < j0 + B)%Z -> (1 <= i0 + j0)%Z ->
    (i + j <= N)%Z -> (N < 2 ^ 53)%Z ->
    py_round2 (raw_total (cents i) (cents j)) = cents (i + j).
Proof.
  intros Hgrid Htable i j Hi Hj Hk HN Hbig. unfold totals_within in Hgrid.
  pose proof (rows_within_spec _ _ _ _ _ _ Hgrid (Z.to_nat (i - i0)) ltac:(lia)) as Hrow.
  destruct (row_within_spec _ _ _ _ _ _ Hrow (Z.to_nat (j - j0)) ltac:(lia)) as [Hlo Hhi].
  replace (i0 + Z.of_nat (Z.to_nat (i - i0)))%Z with i in * by lia.
  replace (j0 + Z.of_nat (Z.to_nat (j - j0)))%Z with j in * by lia.
  replace (i0 + j0 + Z.of_nat (Z.to_nat (i - i0)) + Z.of_nat (Z.to_nat (j - j0)))%Z
    with (i + j)%Z in * by lia.
  destruct (brackets_ok_spec N (i + j) Htable ltac:(lia)) as [Hl Hu].
  apply (py_round2_between (i + j) (under (i + j)) (over (i + j)));
    [lia | exact Hl | exact Hu | exact Hlo | exact Hhi].
Qed.

Lemma brackets_ok_10000 : brackets_ok 10000 = true.
Proof. vm_cast_no_check (@eq_refl bool true). Qed.

(** Every mark from 0.00 to 30.00 with every mark from 0.01 to 70.00, by
    evaluation. *)
Lemma totals_within_grid : totals_within 3001 7000 0 1 = true.
Proof. vm_cast_no_check (@eq_refl bool true). Qed.

(** Every mark from 0.01 to 30.00 with the mark 0.00. *)
Lemma totals_within_edge : totals_within 3000 1 1 0 = true.
Proof. vm_cast_no_check (@eq_refl bool true). Qed.

Lemma total_of_nothing : py_round2 (raw_total (cents 0) (cents 0)) = cents 0.
Proof. vm_cast_no_check (@eq_refl float (cents 0)). Qed.

(** The total of two marks in range with two decimals is their decimal
    sum. *)
Lemma two_decimal_totals (i j : Z) :
  (0 <= i <= 3000)%Z -> (0 <= j <= 7000)%Z ->
  py_round2 (raw_total (cents i) (cents j)) = cents (i + j).
Proof.
  intros Hi Hj. destruct (Z.eq_dec j 0%Z) as [->|Hj0].
  - destruct (Z.eq_dec i 0%Z) as [->|Hi0]; [exact total_of_nothing|].
    apply (totals_within_spec 3000 1 1 0 10000 totals_within_edge brackets_ok_10000);
      lia.
  - apply (totals_within_spec 3001 7000 0 1 10000 totals_within_grid brackets_ok_10000);
      lia.
Qed.

End TotalFacts.

(** The claim C4 fails on marks with more than two decimals: the marks
    10.123 and 0 are in range, and the total stored for them is 10.12. *)
Lemma total_three_decimals_counterexample :
  ~ (forall (now : Z) (sid subj : string) (mse ese : float),
        (0 <=? mse)%float = true -> (mse <=? 30)%float = true ->
        (0 <=? ese)%float = true -> (ese <=? 70)%float = true ->
        Dashboard.mark now sid subj mse ese !! "total"%string
        = Some (Mongo.VNum (mse + ese)%float)).
Proof.
  intros Hclaim.
  specialize (Hclaim 0%Z "21AIML001"%string "ML3001"%string 10.123%float 0%float
                     ltac:(compute_eq) ltac:(compute_eq) ltac:(compute_eq) ltac:(compute_eq)).
  assert (Hstored : Dashboard.mark 0 "21AIML001" "ML3001" 10.123 0 !! "total"%string
                    = Some (Mongo.VNum 10.12%float)) by compute_eq.
  rewrite Hstored in Hclaim.
  apply (f_equal (fun total => match total with
                               | Some (Mongo.VNum x) => (x =? 10.12)%float
                               | _ => false
                               end)) in Hclaim.
  vm_compute in Hclaim. discriminate Hclaim.
Qed.

(** C4, amended. For every pair of marks in range written with at most
    two decimals (the first from 0.00 to 30.00, the second from 0.00 to
    70.00), the total stored with the mark is the decimal sum of the two
    marks exactly, with no weighting.  For any two numbers the stored
    total is [(mse / 30) * 30 + (ese / 70) * 70] rounded to two decimals:
    marks with more decimals are stored rounded (10.123 and 0 give 10.12),
    and the total is not always the rounded sum either (0.945 and 0 give
    0.95, where 0.945 rounds to 0.94). *)
Theorem stored_total_is_rounded_sum :
  (forall (now : Z) (sid subj : string) (i j : Z),
      (0 <= i <= 3000)%Z -> (0 <= j <= 7000)%Z ->
      Dashboard.mark now sid subj (Float64.cents i) (Float64.cents j) !! "total"%string
      = Some (Mongo.VNum (Float64.cents (i + j)))) /\
  (forall (now : Z) (sid subj : string) (mse ese : float),
      Dashboard.mark now sid subj mse ese !! "total"%string
      = Some (Mongo.VNum (Float64.py_round2 ((mse / 30) * 30 + (ese / 70) * 70)%float))) /\
  (forall (now : Z) (sid subj : string),
      Dashboard.mark now sid subj 10.123 0 !! "total"%string = Some (Mongo.VNum 10.12) /\
      Dashboard.mark now sid subj 0.945 0 !! "total"%string = Some (Mongo.VNum 0.95) /\
      Float64.py_round2 (0.945 + 0) = 0.94%float).
Proof.
  split; [|split].
  - intros now sid subj i j Hi Hj. rewrite <- (two_decimal_totals i j Hi Hj).
    apply mark_fields.
  - intros now sid subj mse ese. reflexivity.
  - intros now sid subj. split; [|split].
    + transitivity (Some (Mongo.VNum (Float64.py_round2 (Dashboard.raw_total 10.123 0))));
        [apply mark_fields | compute_eq].
    + transitivity (Some (Mongo.VNum (Float64.py_round2 (Dashboard.raw_total 0.945 0))));
        [apply mark_fields | compute_eq].
    + compute_eq.
Qed.

Lemma stored_total_is_rounded_sum_witness :
  Dashboard.mark 1 "21AIML001" "ML3001" (Float64.cents 2447) (Float64.cents 5573)
    !! "total"%string
  = Some (Mongo.VNum (Float64.cents (2447 + 5573))).
Proof.
  apply (proj1 stored_total_is_rounded_sum 1%Z "21AIML001"%string "ML3001"%string
           2447%Z 5573%Z); lia.
Defined.

(** * More of the three applications *)

(** ** More order lemmas on binary64 *)

Section OrderFacts.

Lemma SFeqb_refl_nan (x : spec_float) : SFeqb x x = false -> x = S754_nan.
Proof.
  unfold SFeqb, SFcompare. destruct x as [s|s| |s m e]; try reflexivity;
    destruct s; try discriminate; rewrite Z.compare_refl, Pos.compare_cont_refl; discriminate.
Qed.

Lemma is_nan_Prim2SF (x : float) : is_nan x = true -> Prim2SF x = S754_nan.
Proof.
  unfold is_nan. rewrite FloatAxioms.eqb_spec, negb_true_iff. apply SFeqb_refl_nan.
Qed.

Lemma SFltb_SFleb (x y : spec_float) : SFltb x y = true -> SFleb y x = false.
Proof.
  unfold SFltb, SFleb.
  destruct x as [sx|sx| |sx mx ex], y as [sy|sy| |sy my ey]; simpl; try discriminate; auto;
    repeat match goal with s : bool |- _ => destruct s end; simpl; auto; try discriminate.
  all: rewrite ?Pos.compare_cont_spec; unfold Pos.switch_Eq.
  all: destruct (Z.compare_spec ex ey), (Z.compare_spec ey ex); try lia; auto;
       try discriminate.
  all: subst; destruct (Pos.compare_spec mx my), (Pos.compare_spec my mx);
         simpl; auto; try discriminate; try lia.
Qed.

Lemma float_ltb_leb (x y : float) : (x <? y)%float = true -> (y <=? x)%float = false.
Proof. rewrite ltb_spec, leb_spec. apply SFltb_SFleb. Qed.

Lemma float_leb_nan (c x : float) : is_nan x = true -> (c <=? x)%float = false.
Proof.
  intros Hx. rewrite leb_spec, (is_nan_Prim2SF x Hx). unfold SFleb, SFcompare.
  destruct (Prim2SF c); reflexivity.
Qed.

Lemma SFleb_total (x y : spec_float) :
  SFleb x y = false -> SFeqb x x = true -> SFeqb y y = false \/ SFleb y x = true.
Proof.
  unfold SFleb, SFeqb.
  destruct x as [sx|sx| |sx mx ex], y as [sy|sy| |sy my ey]; simpl; auto;
    repeat match goal with s : bool |- _ => destruct s end; simpl; auto; try discriminate.
  all: rewrite ?Pos.compare_cont_spec; unfold Pos.switch_Eq.
  all: destruct (Z.compare_spec ex ey), (Z.compare_spec ey ex); try lia; auto;
       try discriminate.
  all: subst; destruct (Pos.compare_spec mx my), (Pos.compare_spec my mx);
         simpl; auto; try discriminate; try lia.
Qed.

End OrderFacts.

(** X1. [calculate_grade] and [calculateGrade] check no range and raise
    nothing: on all of binary64 the grade point never drops when the
    number grows; a NaN and every number below 50 (the negative ones and
    minus infinity among them) get F; every number from 90 on (those
    above 100 and plus infinity among them) gets A+. *)
Theorem grade_of_any_number :
  (forall a b : float,
      (a <=? b)%float = true ->
      (Grade.gpa (Grade.calculateGrade a) <= Grade.gpa (Grade.calculateGrade b))%Z /\
      (Grade.grade_point (Grade.calculate_grade a)
       <= Grade.grade_point (Grade.calculate_grade b))%Z) /\
  (forall x : float,
      is_nan x = true ->
      Grade.calculate_grade x = "F"%string /\
      Grade.calculateGrade x = Grade.GradeInfo "F" 0) /\
  (forall x : float,
      (x <? 50)%float = true ->
      Grade.calculate_grade x = "F"%string /\
      Grade.calculateGrade x = Grade.GradeInfo "F" 0) /\
  (forall x : float,
      (90 <=? x)%float = true ->
      Grade.calculate_grade x = "A+"%string /\
      Grade.calculateGrade x = Grade.GradeInfo "A+" 10).
Proof.
  split; [|split; [|split]].
  - intros a b Hab.
    rewrite !calculate_grade_calculateGrade, !grade_point_calculateGrade.
    split; apply calculateGrade_mono, Hab.
  - intros x Hx. unfold Grade.calculate_grade, Grade.calculateGrade, Float64.ge.
    rewrite !(float_leb_nan _ x Hx). split; reflexivity.
  - intros x Hx.
    assert (H50 : (50 <=? x)%float = false) by (apply float_ltb_leb, Hx).
    assert (Hc : forall c, (50 <=? c)%float = true -> (c <=? x)%float = false).
    { intros c Hc. destruct (c <=? x)%float eqn:E; [|reflexivity].
      rewrite (float_leb_trans _ _ _ Hc E) in H50. discriminate H50. }
    unfold Grade.calculate_grade, Grade.calculateGrade, Float64.ge.
    rewrite (Hc 90%float), (Hc 80%float), (Hc 70%float), (Hc 60%float), H50
      by reflexivity.
    split; reflexivity.
  - intros x Hx. unfold Grade.calculate_grade, Grade.calculateGrade, Float64.ge.
    rewrite Hx. split; reflexivity.
Qed.

(** X2. [get_grade_color] gives the six grades that [calculate_grade] can
    return six different colours, none of them grey; it gives grey to
    every text that is not one of the six grades, and to no other. *)
Theorem grade_colours_tell_grades_apart (a b : float) :
  String.eqb (MarksPage.get_grade_color (Grade.calculate_grade a))
             (MarksPage.get_grade_color (Grade.calculate_grade b))
  = String.eqb (Grade.calculate_grade a) (Grade.calculate_grade b) /\
  String.eqb (MarksPage.get_grade_color (Grade.calculate_grade a)) "#6b7280" = false /\
  (forall g : string,
      MarksPage.get_grade_color g = "#6b7280"%string <->
      ~ In g ["A+"; "A"; "B+"; "B"; "C"; "F"]%string) /\
  In (Grade.calculate_grade a) ["A+"; "A"; "B+"; "B"; "C"; "F"]%string.
Proof.
  split; [|split; [|split]].
  - unfold Grade.calculate_grade. repeat case_match; vm_compute; reflexivity.
  - unfold Grade.calculate_grade. repeat case_match; vm_compute; reflexivity.
  - intros g. split.
    + intros Hgrey Hin. simpl in Hin.
      repeat (destruct Hin as [<-|Hin]; [vm_compute in Hgrey; discriminate Hgrey|]).
      exact Hin.
    + intros Hno. unfold MarksPage.get_grade_color, MarksPage.colors.
      rewrite !lookup_insert_ne by (intros <-; apply Hno; simpl; tauto).
      rewrite lookup_singleton_ne by (intros <-; apply Hno; simpl; tauto).
      reflexivity.
  - unfold Grade.calculate_grade. repeat case_match; simpl; tauto.
Qed.

(** ** The page script: what the average counts *)

Section TallyFacts.
Import Float64 Grade Portal Aggregate.
Local Open Scope string_scope.
Context `{Host}.

Lemma visit_tally (acc : tally) (c : card) :
  totalGPA (fst (visit acc c)) =
    (totalGPA acc + match graded c with Some g => gpa g | None => 0 end)%Z /\
  subjectCount (fst (visit acc c)) =
    (subjectCount acc + match graded c with Some _ => 1 | None => 0 end)%Z /\
  (graded c = None -> snd (visit acc c) = c).
Proof.
  unfold visit, graded. destruct (out_of_range _ _); cbn [fst snd totalGPA subjectCount].
  - split; [lia|]. split; [lia | reflexivity].
  - split; [reflexivity|]. split; [reflexivity | discriminate].
Qed.

Lemma forEach_tally (subjects : list card) (acc : tally) :
  totalGPA (fst (forEach acc subjects)) = (totalGPA acc + points (grades subjects))%Z /\
  subjectCount (fst (forEach acc subjects)) =
    (subjectCount acc + Z.of_nat (length (grades subjects)))%Z /\
  length (snd (forEach acc subjects)) = length subjects /\
  (forall c, In c subjects -> graded c = None -> In c (snd (forEach acc subjects))).
Proof.
  revert acc. induction subjects as [|c rest IH]; intros acc.
  - cbn. split; [lia|]. split; [lia|]. split; [reflexivity | tauto].
  - cbn [forEach]. destruct (visit_tally acc c) as (Hg & Hn & Hc).
    destruct (visit acc c) as [acc1 c1]. cbn [fst snd] in *.
    destruct (IH acc1) as (IHg & IHn & IHl & IHc).
    destruct (forEach acc1 rest) as [acc2 rest1]. cbn [fst snd] in *.
    unfold grades in *. cbn [omap list_omap]. fold (omap graded rest).
    destruct (graded c) as [g|] eqn:E.
    + cbn [length points List.map List.fold_right]. fold (points (omap graded rest)).
      split; [lia|]. split; [lia|]. split; [simpl; lia|].
      intros c' [<-|Hin] Hnone; [congruence | right; auto].
    + split; [lia|]. split; [lia|]. split; [simpl; lia|].
      intros c' [<-|Hin] Hnone; [left; apply Hc; reflexivity | right; auto].
Qed.

Lemma gpa_graded (c : card) (g : gradeInfo) : graded c = Some g -> (0 <= gpa g <= 10)%Z.
Proof.
  unfold graded. destruct (out_of_range _ _); [discriminate|]. intros [= <-].
  unfold calculateGrade. repeat case_match; simpl; lia.
Qed.

Lemma points_bounds (subjects : list card) :
  (0 <= points (grades subjects) <= 10 * Z.of_nat (length (grades subjects)))%Z.
Proof.
  unfold grades. induction subjects as [|c rest IH]; [cbn; lia|].
  cbn [omap list_omap]. fold (omap graded rest).
  destruct (graded c) as [g|] eqn:E; [|exact IH].
  pose proof (gpa_graded c g E).
  cbn [length points List.map List.fold_right]. fold (points (omap graded rest)). lia.
Qed.

Lemma or_zero_empty (x : float) : (is_nan x || is_zero x)%bool = true -> or_zero x = 0%float.
Proof. intros Hx. unfold or_zero. rewrite Hx. reflexivity. Qed.

End TallyFacts.

(** X3. The average that [updateCalculations] shows is the sum of the
    grade points of the subject cards within range divided by their
    number (0.00 when there is none); the sum lies between 0 and ten
    times that number.  A card out of range is left as it was and counts
    neither in the sum nor in the number. *)
Theorem average_is_over_graded_subjects (H : Portal.Host) (subjects : list Portal.card) :
  let gs := Aggregate.grades subjects in
  let shown := Portal.updateCalculations subjects in
  Portal.displayCGPA shown =
    (if (0 <? Z.of_nat (length gs))%Z
     then Portal.toFixed2 (Float64.of_Z (Aggregate.points gs) /
                           Float64.of_Z (Z.of_nat (length gs)))%float
     else "0.00"%string) /\
  (0 <= Aggregate.points gs <= 10 * Z.of_nat (length gs))%Z /\
  length (Portal.cards shown) = length subjects /\
  (forall c, In c subjects -> Portal.graded c = None -> In c (Portal.cards shown)).
Proof.
  cbv zeta. unfold Portal.updateCalculations.
  destruct (forEach_tally subjects (Portal.Tally 0 0 false)) as (Hg & Hn & Hl & Hc).
  destruct (Portal.forEach _ subjects) as [acc subjects1]. cbn [fst snd] in *.
  cbn [Portal.totalGPA Portal.subjectCount] in Hg, Hn. rewrite Z.add_0_l in Hg, Hn.
  cbn [Portal.displayCGPA Portal.cards]. rewrite Hg, Hn.
  split; [reflexivity|]. split; [apply points_bounds|]. split; assumption.
Qed.

(** X4. A subject card whose two marks are empty or zero is graded F, so
    that it alone makes the status Fail, whatever the other cards hold. *)
Theorem empty_subject_card_fails (H : Portal.Host) (subjects : list Portal.card)
    (c : Portal.card) :
  In c subjects ->
  (is_nan (Portal.mse_marks c) || is_zero (Portal.mse_marks c))%bool = true ->
  (is_nan (Portal.ese_marks c) || is_zero (Portal.ese_marks c))%bool = true ->
  Portal.graded c = Some (Grade.GradeInfo "F" 0) /\
  Portal.displayStatus (Portal.updateCalculations subjects) = "Fail"%string.
Proof.
  intros Hin Hmse Hese.
  assert (Hc : Portal.graded c = Some (Grade.GradeInfo "F" 0)).
  { unfold Portal.graded. rewrite (or_zero_empty _ Hmse), (or_zero_empty _ Hese).
    reflexivity. }
  split; [exact Hc|].
  rewrite displayStatus_hasFailed, forEach_hasFailed.
  replace (existsb _ subjects) with true; [reflexivity|].
  symmetry. apply some_failed_iff. exists c, (Grade.GradeInfo "F" 0). auto.
Qed.
Lemma empty_subject_card_fails_witness :
  Portal.graded (Portal.Card nan nan "" "" "") = Some (Grade.GradeInfo "F" 0) /\
  Portal.displayStatus
    (Portal.updateCalculations (H := Sample.host)
       [Portal.Card 95 95 "" "" ""; Portal.Card nan nan "" "" ""]) = "Fail"%string.
Proof.
  apply (empty_subject_card_fails Sample.host
           [Portal.Card 95 95 "" "" ""; Portal.Card nan nan "" "" ""]
           (Portal.Card nan nan "" "" "")).
  - right. left. reflexivity.
  - reflexivity.
  - reflexivity.
Defined.

(** ** More facts about collections *)

Section CollectionFacts.
Import Mongo Driver.
Local Open Scope string_scope.

Lemma key_taken_field (k a : string) (d : doc) (c : list doc) :
  d !! k = Some (VStr a) -> key_taken k d c = existsb (matches [(k, VStr a)]) c.
Proof.
  intros Hk. unfold key_taken. induction c as [|d' c IH]; simpl; [reflexivity|].
  rewrite IH. f_equal. unfold same_key, matches, field_is. simpl. rewrite Hk.
  destruct (d' !! k); [rewrite andb_true_r|]; reflexivity.
Qed.

(** The first selected document apart, a collection is what [delete_one]
    leaves. *)
Lemma count_delete_one (P P' : doc -> bool) (c : list doc) (d : doc) :
  find_one P c = Some d ->
  count P' c = count P' (fst (delete_one P c)) + (if P' d then 1 else 0).
Proof.
  unfold find_one, count. induction c as [|d0 c IH]; simpl; [discriminate|].
  destruct (P d0) eqn:E; simpl.
  - intros [= ->]. destruct (P' d); simpl; lia.
  - intros Hd. specialize (IH Hd). destruct (delete_one P c) as [r n]. simpl in *.
    destruct (P' d0); simpl; lia.
Qed.

Lemma count_update_first_one (P P' : doc -> bool) (u : doc -> doc) (c : list doc) (d : doc) :
  find_one P c = Some d ->
  count P' (update_first P u c) =
  count P' (fst (delete_one P c)) + (if P' (u d) then 1 else 0).
Proof.
  unfold find_one, count. induction c as [|d0 c IH]; simpl; [discriminate|].
  destruct (P d0) eqn:E; simpl.
  - intros [= ->]. destruct (P' (u d)); simpl; lia.
  - intros Hd. specialize (IH Hd). destruct (delete_one P c) as [r n]. simpl in *.
    destruct (P' d0); simpl; lia.
Qed.

Lemma count_delete_one_le (P P' : doc -> bool) (c : list doc) :
  count P' (fst (delete_one P c)) <= count P' c.
Proof.
  unfold count. induction c as [|d0 c IH]; simpl; [lia|].
  destruct (P d0) eqn:E; simpl.
  - destruct (P' d0); simpl; lia.
  - destruct (delete_one P c) as [r n]. simpl in *. destruct (P' d0); simpl; lia.
Qed.

(** An update that changes nothing in the first selected document changes
    nothing at all. *)
Lemma update_first_same (P : doc -> bool) (u : doc -> doc) (c : list doc) (d : doc) :
  find_one P c = Some d -> u d = d -> update_first P u c = c.
Proof.
  unfold find_one. induction c as [|d0 c IH]; simpl; [discriminate|].
  destruct (P d0).
  - intros [= ->] ->. reflexivity.
  - intros Hd Hu. rewrite (IH Hd Hu). reflexivity.
Qed.

Lemma modified_false (upd d : doc) : modified upd d = false <-> set_fields upd d = d.
Proof.
  unfold modified. rewrite negb_false_iff, bool_decide_eq_true. reflexivity.
Qed.

Lemma matches_one_iff (k a b : string) (d : doc) :
  d !! k = Some (VStr a) -> matches [(k, VStr b)] d = String.eqb a b.
Proof.
  intros Hk. apply eq_true_iff_eq. rewrite matches_one, Hk, String.eqb_eq.
  split; [intros [= ->]; reflexivity | intros ->; reflexivity].
Qed.

End CollectionFacts.

(** ** Sorting *)

Section SortFacts.
Import Float64 Mongo Driver Dashboard.
Local Open Scope string_scope.

(** Of two values, one sorts before or with the other. *)
Lemma sort_leb_total (v w : option value) :
  sort_leb v w = false -> sort_leb w v = true.
Proof.
  destruct v as [[a|x|t|o]|], w as [[b|y|u|p]|]; simpl; try discriminate; auto.
  - destruct (String.leb_total a b) as [H|H]; congruence.
  - intros [Hx Hxy]%orb_false_iff.
    unfold is_nan in *. rewrite FloatAxioms.eqb_spec, leb_spec in *.
    apply negb_false_iff in Hx.
    destruct (SFleb_total _ _ Hxy Hx) as [-> | ->]; [reflexivity | apply orb_true_r].
  - intros Hle. apply Z.leb_gt in Hle. apply Z.leb_le. lia.
  - intros Hle. apply N.leb_gt in Hle. apply N.leb_le. lia.
Qed.


Lemma insert_sorted_perm (k : string) (d : doc) (l : list doc) :
  Permutation (insert_sorted k d l) (d :: l).
Proof.
  induction l as [|d' l IH]; simpl; [reflexivity|].
  destruct (sort_leb _ _); [reflexivity|].
  rewrite IH. apply perm_swap.
Qed.

Lemma sort_by_perm (k : string) (l : list doc) : Permutation (sort_by k l) l.
Proof.
  unfold sort_by. induction l as [|d l IH]; simpl; [reflexivity|].
  rewrite insert_sorted_perm, IH. reflexivity.
Qed.

Lemma insert_sorted_sorted (k : string) (d : doc) (l : list doc) :
  Sorted (before k) l -> Sorted (before k) (insert_sorted k d l).
Proof.
  induction 1 as [|d' l Hl IH Hd']; simpl.
  - repeat constructor.
  - destruct (sort_leb (d !! k) (d' !! k)) eqn:E.
    + constructor; [constructor; assumption|]. constructor. exact E.
    + constructor; [exact IH|].
      destruct l as [|d'' l]; simpl.
      * constructor. apply sort_leb_total, E.
      * destruct (sort_leb (d !! k) (d'' !! k)); constructor.
        -- apply sort_leb_total, E.
        -- inversion Hd'. assumption.
Qed.

Lemma In_sort_by (k : string) (l : list doc) (d : doc) : In d (sort_by k l) <-> In d l.
Proof.
  split; apply Permutation_in; [|symmetry]; apply sort_by_perm.
Qed.

Lemma sort_by_sorted (k : string) (l : list doc) : Sorted (before k) (sort_by k l).
Proof.
  unfold sort_by. induction l as [|d l IH]; simpl; [constructor|].
  apply insert_sorted_sorted, IH.
Qed.

Lemma insert_sorted_desc_perm (k : string) (d : doc) (l : list doc) :
  Permutation (insert_sorted_desc k d l) (d :: l).
Proof.
  induction l as [|d' l IH]; simpl; [reflexivity|].
  destruct (sort_leb _ _); [reflexivity|].
  rewrite IH. apply perm_swap.
Qed.

Lemma sort_by_desc_perm (k : string) (l : list doc) : Permutation (sort_by_desc k l) l.
Proof.
  unfold sort_by_desc. induction l as [|d l IH]; simpl; [reflexivity|].
  rewrite insert_sorted_desc_perm, IH. reflexivity.
Qed.

Lemma insert_sorted_desc_sorted (k : string) (d : doc) (l : list doc) :
  Sorted (flip (before k)) l -> Sorted (flip (before k)) (insert_sorted_desc k d l).
Proof.
  unfold flip. induction 1 as [|d' l Hl IH Hd']; simpl.
  - repeat constructor.
  - destruct (sort_leb (d' !! k) (d !! k)) eqn:E.
    + constructor; [constructor; assumption|]. constructor. exact E.
    + constructor; [exact IH|].
      destruct l as [|d'' l]; simpl.
      * constructor. apply sort_leb_total, E.
      * destruct (sort_leb (d'' !! k) (d !! k)); constructor.
        -- apply sort_leb_total, E.
        -- inversion Hd'. assumption.
Qed.

Lemma sort_by_desc_sorted (k : string) (l : list doc) :
  Sorted (flip (before k)) (sort_by_desc k l).
Proof.
  unfold sort_by_desc. induction l as [|d l IH]; simpl; [constructor|].
  apply insert_sorted_desc_sorted, IH.
Qed.

End SortFacts.

(** ** The answers of [save_result] *)

Section SaveAnswerFacts.
Import Mongo Portal.
Local Open Scope string_scope.
Context `{Host}.

(** The exceptions of building [result_data]: a missing member of the
    request, or an average that is no number. *)
Lemma result_data_inl (now : Z) (data : gmap string string) (e : exn) :
  result_data now data = inl e ->
  e = ValueError \/
  exists k, e = KeyError k /\ data !! k = None /\
            In k ["student_name"; "roll_number"; "subjects_json"; "cgpa"; "status"].
Proof.
  unfold result_data, getitem.
  destruct (data !! "student_name") eqn:H1;
    [|intros [= <-]; right; exists "student_name"; split; [reflexivity|]; split; [assumption | simpl; tauto]].
  destruct (data !! "roll_number") eqn:H2;
    [|intros [= <-]; right; exists "roll_number"; split; [reflexivity|]; split; [assumption | simpl; tauto]].
  destruct (data !! "subjects_json") eqn:H3;
    [|intros [= <-]; right; exists "subjects_json"; split; [reflexivity|]; split; [assumption | simpl; tauto]].
  destruct (data !! "cgpa") as [t|] eqn:H4;
    [|intros [= <-]; right; exists "cgpa"; split; [reflexivity|]; split; [assumption | simpl; tauto]].
  destruct (py_float t); [|intros [= <-]; left; reflexivity].
  destruct (data !! "status") eqn:H5;
    [discriminate | intros [= <-]; right; exists "status"; split; [reflexivity|]; split; [assumption | simpl; tauto]].
Qed.

End SaveAnswerFacts.

(** X5. [save_result] answers with a success exactly when the request
    holds the five members [student_name], [roll_number], [subjects_json],
    [cgpa] and [status] and [float] reads the average.  Then the record
    found under the roll number carries the four texts as sent and the
    time of the call.  Otherwise the collection is left untouched; and the
    unique index on the roll number never refuses the insertion. *)
Theorem save_result_answer (H : Portal.Host) (now : Z) (data : gmap string string)
    (s : Portal.store) :
  let answer := snd (Portal.save_result now data s) in
  (Portal.success answer = true <->
   exists student_name roll_number subjects_json cgpa_text cgpa status,
     data !! "student_name"%string = Some student_name /\
     data !! "roll_number"%string = Some roll_number /\
     data !! "subjects_json"%string = Some subjects_json /\
     data !! "cgpa"%string = Some cgpa_text /\ Portal.py_float cgpa_text = Some cgpa /\
     data !! "status"%string = Some status) /\
  (Portal.success answer = false -> fst (Portal.save_result now data s) = s) /\
  (Portal.success answer = true ->
   exists roll_number d,
     data !! "roll_number"%string = Some roll_number /\
     Mongo.find_one (Mongo.matches [("roll_number"%string, Mongo.VStr roll_number)])
                    (Portal.results (fst (Portal.save_result now data s))) = Some d /\
     d !! "created_at"%string = Some (Mongo.VTime now) /\
     (forall k v, data !! k = Some v ->
                  In k ["student_name"; "roll_number"; "subjects_json"; "status"]%string ->
                  d !! k = Some (Mongo.VStr v))) /\
  answer <> Portal.Failure Portal.DuplicateKeyError.
Proof.
  cbv zeta.
  destruct (Portal.result_data now data) as [e|rd] eqn:Hrd.
  - rewrite (save_result_failure _ _ _ _ Hrd). cbn [fst snd Portal.success].
    split; [split; [discriminate|]|].
    { intros (a & b & c & t & x & st & Ha & Hb & Hc & Ht & Hx & Hst).
      unfold Portal.result_data, Portal.getitem in Hrd.
      rewrite Ha, Hb, Hc, Ht, Hx, Hst in Hrd. discriminate Hrd. }
    split; [reflexivity|]. split; [discriminate|].
    intros [= ->]. apply result_data_inl in Hrd as [Hrd | (k & Hrd & _)]; discriminate Hrd.
  - destruct (result_data_inr _ _ _ Hrd)
      as (a & roll & c & t & x & st & Ha & Hroll & Hc & Ht & Hx & Hst & Heq).
    destruct (save_result_once now data s rd roll Hrd Hroll) as (Hok & _ & d & Hd & Hfields).
    split; [split; [intros _; exists a, roll, c, t, x, st; auto 10 | intros _; exact Hok]|].
    split; [rewrite Hok; discriminate|].
    split.
    + intros _. exists roll, d. split; [exact Hroll|]. split; [exact Hd|].
      split; [apply Hfields; subst rd; reflexivity|].
      intros k v Hv Hk. apply Hfields. subst rd.
      destruct Hk as [<-|[<-|[<-|[<-|[]]]]].
      * rewrite Ha in Hv. injection Hv as <-. reflexivity.
      * rewrite Hroll in Hv. injection Hv as <-. reflexivity.
      * rewrite Hc in Hv. injection Hv as <-. reflexivity.
      * rewrite Hst in Hv. injection Hv as <-. reflexivity.
    + intros Hdup. rewrite Hdup in Hok. discriminate Hok.
Qed.

(** ** Listing and deleting results *)

Section StoreFacts.
Import Mongo Driver Portal Listing.
Local Open Scope string_scope.
Context `{Host}.

Lemma In_delete_one (P : doc -> bool) (c : list doc) (d : doc) :
  In d (fst (delete_one P c)) -> In d c.
Proof.
  induction c as [|d0 c IH]; simpl; [tauto|].
  destruct (P d0); simpl; [auto|].
  destruct (delete_one P c) as [r n]. simpl in *. intros [<-|Hin]; auto.
Qed.

Lemma In_delete_one_other (P : doc -> bool) (c : list doc) (d : doc) :
  In d c -> P d = false -> In d (fst (delete_one P c)).
Proof.
  induction c as [|d0 c IH]; simpl; [tauto|].
  destruct (P d0) eqn:E; simpl.
  - intros [<-|Hin] Hd; [congruence | exact Hin].
  - destruct (delete_one P c) as [r n]. simpl in *. intros [<-|Hin] Hd; auto.
Qed.

Lemma count_pos (P : doc -> bool) (c : list doc) (d : doc) :
  In d c -> P d = true -> 1 <= count P c.
Proof.
  intros Hin Hd. destruct (count P c) eqn:E; [|lia].
  apply count_zero in E. assert (existsb P c = true) by (apply existsb_exists; eauto).
  congruence.
Qed.

(** What [delete_result] leaves of the collection. *)
Lemma delete_result_results (data : gmap string string) (s : store) :
  fst (delete_result data s) = s \/
  exists q, results (fst (delete_result data s)) = fst (delete_one q (results s)) /\
            next_oid (fst (delete_result data s)) = next_oid s.
Proof.
  unfold delete_result. destruct (getitem data "id") as [e|result_id]; [left; reflexivity|].
  destruct (ObjectId result_id) as [bytes|]; [|left; reflexivity].
  destruct (id_query bytes) as [q|]; [|left; reflexivity].
  right. exists q. split; reflexivity.
Qed.

Lemma id_query_binary (o : N) :
  id_query (binary o) = Some (field_is "_id" (VId (o mod 2 ^ 96)%N)).
Proof.
  unfold id_query. rewrite length_binary, of_bytes_binary. reflexivity.
Qed.

Lemma delete_result_well_formed (data : gmap string string) (s : store) :
  well_formed s -> well_formed (fst (delete_result data s)).
Proof.
  intros [Hform Huniq].
  destruct (delete_result_results data s) as [-> | (oid & Hres & _)]; [split; assumption|].
  unfold well_formed. rewrite Hres. split.
  - intros d Hd. apply Hform. eapply In_delete_one, Hd.
  - intros roll. etransitivity; [apply count_delete_one_le | apply Huniq].
Qed.

Lemma delete_result_ids_fresh (data : gmap string string) (s : store) :
  ids_fresh s -> ids_fresh (fst (delete_result data s)).
Proof.
  intros [Hids Huniq].
  destruct (delete_result_results data s) as [-> | (oid & Hres & Hnext)]; [split; assumption|].
  unfold ids_fresh. rewrite Hres, Hnext. split.
  - intros d Hd. apply Hids. eapply In_delete_one, Hd.
  - intros o. etransitivity; [apply count_delete_one_le | apply Huniq].
Qed.

Lemma field_is_id_set_fields (rd d : doc) (o : N) :
  rd !! "_id" = None ->
  field_is "_id" (VId o) (set_fields rd d) = field_is "_id" (VId o) d.
Proof.
  intros Hid. unfold field_is, set_fields. rewrite (lookup_union_r _ _ _ Hid). reflexivity.
Qed.

Lemma save_result_ids_fresh (now : Z) (data : gmap string string) (s : store) :
  ids_fresh s -> ids_fresh (fst (save_result now data s)).
Proof.
  intros [Hids Huniq].
  destruct (result_data now data) as [e|rd] eqn:Hrd;
    [rewrite (save_result_failure _ _ _ _ Hrd); split; assumption|].
  destruct (result_data_inr _ _ _ Hrd)
    as (a & roll & c & t & x & e & _ & Hroll & _ & _ & _ & _ & Heq).
  destruct (result_data_roll _ _ _ _ Hrd Hroll) as [Hk Hid].
  destruct (existsb (matches [("roll_number", VStr roll)]) (results s)) eqn:Hex.
  - rewrite (save_result_existing _ _ _ _ _ Hrd Hroll Hex).
    unfold ids_fresh. cbn [fst results next_oid]. split.
    + intros d Hd. apply In_update_first in Hd as [Hd | (d0 & Hd0 & ->)]; [auto|].
      destruct (Hids d0 Hd0) as (o & Ho & Hlt). exists o. split; [|exact Hlt].
      unfold set_fields. rewrite (lookup_union_r _ _ _ Hid). exact Ho.
    + intros o. rewrite count_update_first_same; [apply Huniq|].
      intros d _. apply field_is_id_set_fields, Hid.
  - rewrite (save_result_new _ _ _ _ _ Hrd Hroll Hex).
    unfold ids_fresh. cbn [fst results next_oid]. split.
    + intros d Hd. apply in_app_or in Hd as [Hd | [<-|[]]].
      * destruct (Hids d Hd) as (o & Ho & Hlt). exists o. split; [exact Ho | lia].
      * exists (next_oid s). split; [apply lookup_insert_eq | lia].
    + intros o. rewrite count_app, count_single.
      unfold field_is at 2. rewrite lookup_insert_eq. cbn [value_eqb].
      destruct (N.eqb_spec o (next_oid s)) as [->|Hne]; [|specialize (Huniq o); lia].
      assert (Hnone : existsb (field_is "_id" (VId (next_oid s))) (results s) = false).
      { destruct (existsb (field_is "_id" _) _) eqn:E; [|reflexivity].
        apply existsb_exists in E as (d & Hd & Hd').
        apply field_is_VId in Hd'. destruct (Hids d Hd) as (o & Ho & Hlt).
        rewrite Hd' in Ho. injection Ho as <-. lia. }
      apply count_zero in Hnone. lia.
Qed.

Lemma handle_invariants (s : store) (c : call) :
  well_formed s /\ ids_fresh s -> well_formed (handle s c) /\ ids_fresh (handle s c).
Proof.
  intros [Hwf Hids]. destruct c as [now data | data]; cbn [handle].
  - split; [apply save_result_well_formed, Hwf | apply save_result_ids_fresh, Hids].
  - split; [apply delete_result_well_formed, Hwf | apply delete_result_ids_fresh, Hids].
Qed.

Lemma ids_fresh_empty (n : N) : ids_fresh (Store [] n).
Proof. split; [intros d [] | intros o; unfold count; simpl; lia]. Qed.

Lemma fold_handle_invariants (calls : list call) (s : store) :
  well_formed s /\ ids_fresh s ->
  well_formed (fold_left handle calls s) /\ ids_fresh (fold_left handle calls s).
Proof.
  revert s. induction calls as [|c calls IH]; intros s Hs; [exact Hs|].
  simpl. apply IH, handle_invariants, Hs.
Qed.

(** What [jsonable] makes of a document. *)
Lemma jsonable_inr (d row : doc) :
  jsonable d = inr row ->
  exists i t, d !! "_id" = Some i /\ d !! "created_at" = Some (VTime t) /\
              row = <["created_at" := VStr (isoformat t)]>
                      (<["id" := VStr (str_id i)]> (<["_id" := VStr (str_id i)]> d)).
Proof.
  unfold jsonable. destruct (d !! "_id") as [i|] eqn:Hi; [|discriminate].
  rewrite !lookup_insert_ne by discriminate.
  destruct (d !! "created_at") as [[a|x|t|o]|]; try discriminate.
  intros [= <-]. eauto.
Qed.

Lemma jsonable_all_Forall2 (ds rows : list doc) :
  jsonable_all ds = inr rows <-> Forall2 (fun d row => jsonable d = inr row) ds rows.
Proof.
  revert rows. induction ds as [|d ds IH]; intros rows; cbn [jsonable_all].
  - split; [intros [= <-]; constructor | intros Hall; inversion Hall; reflexivity].
  - split.
    + destruct (jsonable d) as [e|row] eqn:Hd; [discriminate|].
      destruct (jsonable_all ds) as [e|rest] eqn:Hds; [discriminate|].
      intros [= <-]. constructor; [exact Hd | apply IH; reflexivity].
    + intros Hall. inversion Hall as [|? row ? rest Hrow Hrest]; subst.
      apply IH in Hrest. rewrite Hrow, Hrest. reflexivity.
Qed.

Lemma Forall2_In_l (A B : Type) (R : A -> B -> Prop) (l : list A) (l' : list B) (a : A) :
  Forall2 R l l' -> In a l -> exists b, In b l' /\ R a b.
Proof.
  induction 1 as [|a0 b0 l l' Hab Hall IH]; simpl; [tauto|].
  intros [<-|Hin]; [eauto|]. destruct (IH Hin) as (b & Hb & HR). eauto.
Qed.

(** [get_all_results] on a well-formed collection. *)
Lemma get_all_results_ok (s : store) :
  well_formed s ->
  exists rows, get_all_results s = SuccessData rows /\
               Forall2 (fun d row => jsonable d = inr row)
                       (sort_by_desc "created_at" (results s)) rows.
Proof.
  intros [Hform _]. unfold get_all_results.
  destruct (jsonable_all_ok (sort_by_desc "created_at" (results s))) as [rows Hrows].
  { intros d Hd. apply Hform. eapply Permutation_in; [apply sort_by_desc_perm | exact Hd]. }
  exists rows. rewrite Hrows. split; [reflexivity|]. apply jsonable_all_Forall2, Hrows.
Qed.

(** [search_result] on a well-formed collection fails on the term only. *)
Lemma search_result_ok (data : gmap string string) (s : store) (term : string) :
  well_formed s -> data !! "search_term" = Some term -> regex_i term <> None ->
  exists found, search_result data s = SuccessData found.
Proof.
  intros [Hform _] Hterm Hre. unfold search_result, getitem. rewrite Hterm.
  destruct (regex_i term) as [re|]; [|contradiction].
  destruct (jsonable_all_ok
              (List.filter (fun d => (regex_field re "roll_number" d ||
                                      regex_field re "student_name" d)%bool) (results s)))
    as [found Hfound].
  { intros d Hd. apply List.filter_In in Hd as [Hd _]. apply Hform, Hd. }
  exists found. rewrite Hfound. reflexivity.
Qed.

End StoreFacts.

(** X6. Whatever calls of [save_result] and [delete_result] an empty
    collection has served, every stored result has an identifier and a
    time stamp, no roll number and no identifier is stored twice,
    [get_all_results] answers with a success that lists every stored
    result once, the newest first, and [search_result] answers with a
    success for every term that is a regular expression. *)
Theorem results_stay_well_formed (H : Portal.Host) (calls : list Listing.call) (n : N) :
  let s := fold_left Listing.handle calls (Portal.Store [] n) in
  Portal.well_formed s /\ Listing.ids_fresh s /\
  (exists listed rows,
      Listing.get_all_results s = Portal.SuccessData rows /\
      Permutation listed (Portal.results s) /\
      Sorted (flip (Driver.before "created_at")) listed /\
      Forall2 (fun d row => Portal.jsonable d = inr row) listed rows) /\
  (forall data term,
      data !! "search_term"%string = Some term -> Portal.regex_i term <> None ->
      exists found, Portal.search_result data s = Portal.SuccessData found).
Proof.
  cbv zeta.
  destruct (fold_handle_invariants calls (Portal.Store [] n)) as [Hwf Hids].
  { split; [apply well_formed_empty | apply ids_fresh_empty]. }
  split; [exact Hwf|]. split; [exact Hids|].
  split; [|intros data term; apply search_result_ok, Hwf].
  destruct (get_all_results_ok _ Hwf) as (rows & Hrows & Hall).
  exists (Driver.sort_by_desc "created_at" (Portal.results (fold_left Listing.handle calls
                                                              (Portal.Store [] n)))), rows.
  split; [exact Hrows|]. split; [apply sort_by_desc_perm|].
  split; [apply sort_by_desc_sorted | exact Hall].
Qed.

(** X7. The [id] that [get_all_results] lists for a stored result is the
    24-digit text of its identifier, and [delete_result] called with that
    text removes that result and no other.  The collection is as the
    routes keep it, with fewer than 2^96 identifiers generated. *)
Theorem listed_id_deletes_the_result (H : Portal.Host) (s : Portal.store) (d : Mongo.doc)
    (o : N) :
  Portal.well_formed s -> Listing.ids_fresh s -> (Portal.next_oid s <= 2 ^ 96)%N ->
  In d (Portal.results s) -> d !! "_id"%string = Some (Mongo.VId o) ->
  exists rows row,
    Listing.get_all_results s = Portal.SuccessData rows /\
    In row rows /\ Portal.jsonable d = inr row /\
    row !! "id"%string = Some (Mongo.VStr (Mongo.oid_str o)) /\
    let s' := fst (Portal.delete_result {[ "id"%string := Mongo.oid_str o ]} s) in
    snd (Portal.delete_result {[ "id"%string := Mongo.oid_str o ]} s)
    = Portal.Success "Result deleted successfully!" /\
    (forall d', In d' (Portal.results s') <->
                In d' (Portal.results s) /\ d' !! "_id"%string <> Some (Mongo.VId o)) /\
    S (length (Portal.results s')) = length (Portal.results s).
Proof.
  intros Hwf [Hids Huniq] Hnext Hd Hid.
  destruct (get_all_results_ok s Hwf) as (rows & Hrows & Hall).
  assert (Hin : In d (Driver.sort_by_desc "created_at" (Portal.results s))).
  { eapply Permutation_in; [symmetry; apply sort_by_desc_perm | exact Hd]. }
  destruct (Forall2_In_l _ _ _ _ _ d Hall Hin) as (row & Hrow & Hjson).
  exists rows, row. split; [exact Hrows|]. split; [exact Hrow|]. split; [exact Hjson|].
  split.
  { apply jsonable_inr in Hjson as (i & t & Hi & _ & ->).
    rewrite Hid in Hi. injection Hi as <-.
    rewrite lookup_insert_ne by discriminate. apply lookup_insert_eq. }
  assert (Ho : (o < 2 ^ 96)%N).
  { destruct (Hids d Hd) as (o' & Ho' & Hlt). rewrite Hid in Ho'. injection Ho' as <-. lia. }
  assert (Hsel : Mongo.field_is "_id" (Mongo.VId o) d = true) by (apply field_is_VId, Hid).
  assert (Hex : existsb (Mongo.field_is "_id" (Mongo.VId o)) (Portal.results s) = true).
  { apply existsb_exists. eauto. }
  cbv zeta. unfold Portal.delete_result, Portal.getitem.
  rewrite lookup_singleton_eq, ObjectId_oid_str, id_query_binary, N.mod_small by exact Ho.
  cbn [fst snd Portal.results]. split; [reflexivity|].
  destruct (delete_one_some _ _ Hex) as [Hlen Hcount]. split; [|exact Hlen].
  intros d'. split.
  - intros Hd'. split; [eapply In_delete_one, Hd'|].
    intros Hid'. apply field_is_VId in Hid'.
    pose proof (count_pos _ _ _ Hd' Hid'). specialize (Huniq o). lia.
  - intros [Hd' Hid']. apply In_delete_one_other; [exact Hd'|].
    destruct (Mongo.field_is _ _ d') eqn:E; [|reflexivity].
    apply field_is_VId in E. contradiction.
Qed.
Lemma listed_id_deletes_the_result_witness :
  exists rows row,
    Listing.get_all_results (H := Sample.host) Sample.one_result = Portal.SuccessData rows /\
    In row rows /\ Portal.jsonable (H := Sample.host) Examples.asha_result = inr row /\
    row !! "id"%string = Some (Mongo.VStr (Mongo.oid_str 0)) /\
    let s' := fst (Portal.delete_result (H := Sample.host)
                     {[ "id"%string := Mongo.oid_str 0 ]} Sample.one_result) in
    snd (Portal.delete_result (H := Sample.host)
           {[ "id"%string := Mongo.oid_str 0 ]} Sample.one_result)
    = Portal.Success "Result deleted successfully!" /\
    (forall d', In d' (Portal.results s') <->
                In d' (Portal.results Sample.one_result) /\
                d' !! "_id"%string <> Some (Mongo.VId 0)) /\
    S (length (Portal.results s')) = length (Portal.results Sample.one_result).
Proof.
  apply (listed_id_deletes_the_result Sample.host Sample.one_result Examples.asha_result 0).
  - apply (save_result_well_formed (H := Sample.host)), well_formed_empty.
  - apply (save_result_ids_fresh (H := Sample.host)), ids_fresh_empty.
  - vm_compute. discriminate.
  - left. compute_eq.
  - compute_eq.
Defined.

(** ** Students *)

Section ServicesFacts.
Import Mongo Driver Dashboard Services.
Local Open Scope string_scope.

Lemma student_fields (now later : Z) (roll_no name email : string) :
  let d := student now later roll_no name email in
  d !! "rollNo" = Some (VStr roll_no) /\
  d !! "name" = Some (VStr name) /\
  d !! "email" = Some (VStr email) /\
  d !! "createdAt" = Some (VTime (millis now)) /\
  d !! "updatedAt" = Some (VTime (millis later)) /\
  d !! "_id" = None.
Proof. cbv zeta. repeat split; reflexivity. Qed.

Lemma add_student_taken (now later : Z) (roll_no name email : string) (s : state) :
  (key_taken "rollNo" (student now later roll_no name email) (students s) ||
   key_taken "email" (student now later roll_no name email) (students s))%bool =
  (existsb (matches [("rollNo", VStr roll_no)]) (students s) ||
   existsb (matches [("email", VStr email)]) (students s))%bool.
Proof.
  rewrite (key_taken_field "rollNo" roll_no), (key_taken_field "email" email);
    reflexivity.
Qed.

End ServicesFacts.

(** X8. [add_student] answers [True] exactly when no stored student holds
    the roll number and none holds the address.  Then the student is
    appended and [get_student_by_roll_no] returns the very dictionary that
    was inserted; otherwise nothing changes.  Marks and subjects are never
    touched. *)
Theorem add_student_then_lookup (now later : Z) (roll_no name email : string)
    (s : Dashboard.state) :
  let taken :=
    (existsb (Mongo.matches [("rollNo"%string, Mongo.VStr roll_no)]) (Dashboard.students s) ||
     existsb (Mongo.matches [("email"%string, Mongo.VStr email)]) (Dashboard.students s))%bool in
  let s' := fst (Services.add_student now later roll_no name email s) in
  snd (Services.add_student now later roll_no name email s) = negb taken /\
  (taken = true -> s' = s) /\
  (taken = false ->
   Dashboard.students s' =
     (Dashboard.students s ++
      [ <["_id"%string := Mongo.VId (Dashboard.next_id s)]>
          (Services.student now later roll_no name email) ])%list /\
   Services.get_student_by_roll_no roll_no s' =
     Some (Services.student now later roll_no name email) /\
   Dashboard.marks s' = Dashboard.marks s /\ Dashboard.subjects s' = Dashboard.subjects s).
Proof.
  cbv zeta. unfold Services.add_student. rewrite add_student_taken.
  destruct (existsb (Mongo.matches [("rollNo"%string, _)]) _) eqn:Hroll;
    [simpl; split; [reflexivity|]; split; [reflexivity | discriminate]|].
  destruct (existsb (Mongo.matches [("email"%string, _)]) _) eqn:Hmail;
    [simpl; split; [reflexivity|]; split; [reflexivity | discriminate]|].
  simpl. split; [reflexivity|]. split; [discriminate|]. intros _.
  split; [reflexivity|]. split; [|split; reflexivity].
  unfold Services.get_student_by_roll_no. cbn [Dashboard.students].
  rewrite (find_one_app_new _ _ _ Hroll).
  - cbn [fmap option_fmap option_map]. rewrite delete_insert_id by reflexivity. reflexivity.
  - apply matches_one. rewrite lookup_insert_ne by discriminate. reflexivity.
Qed.

Section UpdateFacts.
Import Mongo Driver Dashboard Services.
Local Open Scope string_scope.

Lemma update_keeps_roll (upd d : doc) (roll_no : string) :
  upd !! "rollNo" = None ->
  matches [("rollNo", VStr roll_no)] (set_fields upd d) = matches [("rollNo", VStr roll_no)] d.
Proof.
  intros Hupd. unfold matches, field_is, set_fields. simpl.
  rewrite (lookup_union_r _ _ _ Hupd). reflexivity.
Qed.

(** The three outcomes of [update_student]. *)
Lemma update_student_cases (now : Z) (roll_no name email : string) (s : state) :
  let q := matches [("rollNo", VStr roll_no)] in
  let upd : doc := {[ "name" := VStr name; "email" := VStr email;
                      "updatedAt" := VTime (millis now) ]} in
  (find_one q (students s) = None /\
   update_student now roll_no name email s = (s, false)) \/
  (exists d, find_one q (students s) = Some d /\
             existsb (matches [("email", VStr email)]) (fst (delete_one q (students s))) = true /\
             update_student now roll_no name email s = (s, false)) \/
  (exists d, find_one q (students s) = Some d /\
             existsb (matches [("email", VStr email)]) (fst (delete_one q (students s))) = false /\
             update_student now roll_no name email s =
             (State (update_first q (set_fields upd) (students s)) (subjects s) (marks s)
                    (next_id s),
              modified upd d)).
Proof.
  cbv zeta. unfold update_student.
  destruct (find_one _ (students s)) as [d|] eqn:Hd; [|left; auto]. right.
  rewrite (key_taken_field "email" email)
    by (unfold set_fields; apply lookup_union_Some_l; reflexivity).
  destruct (existsb _ (fst _)) eqn:Hother; [left | right]; exists d; auto.
Qed.

End UpdateFacts.

(** X9. [update_student] answers [True] exactly when a student has the
    roll number, no other student holds the new address, and the update
    changes something in the stored record.  Then the first such student
    has the new name, address and [updatedAt], every other field being
    kept (the roll number and [createdAt] among them).  A [False] answer
    means that nothing at all was changed; and no student is ever added or
    removed. *)
Theorem update_student_answer (now : Z) (roll_no name email : string) (s : Dashboard.state) :
  let q := Mongo.matches [("rollNo"%string, Mongo.VStr roll_no)] in
  let upd : Mongo.doc :=
    {[ "name"%string := Mongo.VStr name; "email"%string := Mongo.VStr email;
       "updatedAt"%string := Mongo.VTime (Driver.millis now) ]} in
  let s' := fst (Services.update_student now roll_no name email s) in
  let answer := snd (Services.update_student now roll_no name email s) in
  (answer = true <->
   exists d, Mongo.find_one q (Dashboard.students s) = Some d /\
             existsb (Mongo.matches [("email"%string, Mongo.VStr email)])
                     (fst (Mongo.delete_one q (Dashboard.students s))) = false /\
             Mongo.set_fields upd d <> d) /\
  (answer = false -> s' = s) /\
  (answer = true ->
   exists d d', Mongo.find_one q (Dashboard.students s) = Some d /\
                Mongo.find_one q (Dashboard.students s') = Some d' /\
                d' !! "name"%string = Some (Mongo.VStr name) /\
                d' !! "email"%string = Some (Mongo.VStr email) /\
                d' !! "updatedAt"%string = Some (Mongo.VTime (Driver.millis now)) /\
                forall k, upd !! k = None -> d' !! k = d !! k) /\
  length (Dashboard.students s') = length (Dashboard.students s) /\
  Dashboard.marks s' = Dashboard.marks s /\
  Dashboard.subjects s' = Dashboard.subjects s.
Proof.
  cbv zeta.
  destruct (update_student_cases now roll_no name email s)
    as [[Hnone ->] | [(d & Hd & Hother & ->) | (d & Hd & Hother & ->)]]; cbn [fst snd].
  - split; [split; [discriminate | intros (d & Hd & _); congruence]|].
    split; [reflexivity|]. split; [discriminate|]. auto.
  - split; [split; [discriminate | intros (d' & _ & Hno & _); congruence]|].
    split; [reflexivity|]. split; [discriminate|]. auto.
  - cbn [Dashboard.students Dashboard.marks Dashboard.subjects].
    split; [|split; [|split; [|split; [|split]]]].
    + split.
      * intros Hmod. exists d. split; [exact Hd|]. split; [exact Hother|].
        intros Hsame. apply modified_false in Hsame. congruence.
      * intros (d' & Hd' & _ & Hne). rewrite Hd in Hd'. injection Hd' as <-.
        destruct (Driver.modified _ d) eqn:Hmod; [reflexivity|].
        apply modified_false in Hmod. contradiction.
    + intros Hmod. apply modified_false in Hmod.
      rewrite (update_first_same _ _ _ _ Hd Hmod). destruct s; reflexivity.
    + intros _. exists d, (Mongo.set_fields
                             {[ "name"%string := Mongo.VStr name;
                                "email"%string := Mongo.VStr email;
                                "updatedAt"%string := Mongo.VTime (Driver.millis now) ]} d).
      split; [exact Hd|]. split.
      { apply find_one_update_first; [|exact Hd].
        intros d0 Hd0. rewrite update_keeps_roll by reflexivity. exact Hd0. }
      unfold Mongo.set_fields.
      split; [apply lookup_union_Some_l; reflexivity|].
      split; [apply lookup_union_Some_l; reflexivity|].
      split; [apply lookup_union_Some_l; reflexivity|].
      intros k Hk. apply lookup_union_r, Hk.
    + apply length_update_first.
    + reflexivity.
    + reflexivity.
Qed.

Section UniqueFacts.
Import Mongo Driver Dashboard Services.
Local Open Scope string_scope.

Lemma add_student_unique (now later : Z) (roll_no name email : string) (s : state) :
  students_unique s -> students_unique (fst (add_student now later roll_no name email s)).
Proof.
  intros [Hroll Hmail]. unfold add_student. rewrite add_student_taken.
  destruct (existsb (matches [("rollNo", _)]) _) eqn:Er; [split; assumption|].
  destruct (existsb (matches [("email", _)]) _) eqn:Ee; [split; assumption|].
  cbn [orb fst]. unfold students_unique. cbn [students].
  apply count_zero in Er, Ee.
  split; intros a; rewrite count_app, count_single.
  - rewrite (matches_one_iff "rollNo" roll_no a)
      by (rewrite lookup_insert_ne by discriminate; reflexivity).
    destruct (String.eqb_spec roll_no a) as [<-|_]; [lia|]. specialize (Hroll a). lia.
  - rewrite (matches_one_iff "email" email a)
      by (rewrite lookup_insert_ne by discriminate; reflexivity).
    destruct (String.eqb_spec email a) as [<-|_]; [lia|]. specialize (Hmail a). lia.
Qed.

Lemma update_student_unique (now : Z) (roll_no name email : string) (s : state) :
  students_unique s -> students_unique (fst (update_student now roll_no name email s)).
Proof.
  intros [Hroll Hmail].
  destruct (update_student_cases now roll_no name email s)
    as [[Hnone ->] | [(d & Hd & Hother & ->) | (d & Hd & Hother & ->)]];
    [split; assumption..|].
  unfold students_unique. cbn [fst students]. split; intros a.
  - rewrite count_update_first_same; [apply Hroll|].
    intros d0 _. apply update_keeps_roll. reflexivity.
  - rewrite (count_update_first_one _ _ _ _ _ Hd).
    rewrite (matches_one_iff "email" email a)
      by (unfold set_fields; apply lookup_union_Some_l; reflexivity).
    destruct (String.eqb_spec email a) as [<-|_].
    + apply count_zero in Hother. lia.
    + pose proof (count_delete_one_le (matches [("rollNo", VStr roll_no)])
                    (matches [("email", VStr a)]) (students s)).
      specialize (Hmail a). lia.
Qed.

Lemma delete_student_unique (roll_no : string) (s : state) :
  students_unique s -> students_unique (fst (delete_student roll_no s)).
Proof.
  intros [Hroll Hmail]. unfold students_unique.
  rewrite (proj1 (delete_student_students roll_no s)).
  split; intros a.
  - pose proof (count_delete_one_le (matches [("rollNo", VStr roll_no)])
                  (matches [("rollNo", VStr a)]) (students s)).
    specialize (Hroll a). lia.
  - pose proof (count_delete_one_le (matches [("rollNo", VStr roll_no)])
                  (matches [("email", VStr a)]) (students s)).
    specialize (Hmail a). lia.
Qed.

End UniqueFacts.

(** X10. [add_student], [update_student] and [delete_student] keep the
    roll numbers and the addresses of the students unique. *)
Theorem students_stay_unique (s : Dashboard.state) :
  Services.students_unique s ->
  (forall now later roll_no name email,
      Services.students_unique (fst (Services.add_student now later roll_no name email s))) /\
  (forall now roll_no name email,
      Services.students_unique (fst (Services.update_student now roll_no name email s))) /\
  (forall roll_no, Services.students_unique (fst (Dashboard.delete_student roll_no s))).
Proof.
  intros Hs. split; [|split]; intros.
  - apply add_student_unique, Hs.
  - apply update_student_unique, Hs.
  - apply delete_student_unique, Hs.
Qed.
Lemma students_stay_unique_witness :
  Services.students_unique
    (fst (Services.add_student 3 4 "21AIML002" "Ravi Nair" "ravi@example.org"
            Sample.one_mark)) /\
  Services.students_unique
    (fst (Services.update_student 5 "21AIML001" "Asha R" "asha@example.org"
            Sample.one_mark)) /\
  Services.students_unique (fst (Dashboard.delete_student "21AIML001" Sample.one_mark)).
Proof.
  assert (Hs : Dashboard.students Sample.one_mark = [Examples.asha]) by compute_eq.
  assert (Hu : Services.students_unique Sample.one_mark).
  { split; intros a; rewrite Hs, count_single; destruct (Mongo.matches _ _); lia. }
  destruct (students_stay_unique Sample.one_mark Hu) as (Hadd & Hupd & Hdel).
  split; [apply Hadd|]. split; [apply Hupd | apply Hdel].
Defined.

(** ** Listing students and marks *)

Section ListingFacts.
Import Float64 Grade Mongo Driver Dashboard Services.
Local Open Scope string_scope.

Lemma Sorted_map (A B : Type) (R : A -> A -> Prop) (R' : B -> B -> Prop) (f : A -> B)
    (l : list A) :
  (forall a b, R a b -> R' (f a) (f b)) -> Sorted R l -> Sorted R' (List.map f l).
Proof.
  intros Hf. induction 1 as [|a l Hl IH Ha]; simpl; constructor; [exact IH|].
  destruct Ha; simpl; constructor. apply Hf. assumption.
Qed.

Lemma before_delete (k k' : string) (d d' : doc) :
  k <> k' -> before k d d' -> before k (delete k' d) (delete k' d').
Proof.
  intros Hk. unfold before. rewrite !lookup_delete_ne by congruence. auto.
Qed.

(** The fields of a row of [get_student_marks]. *)
Lemma project_fields (m subject : doc) :
  let row := project (m, subject) in
  row !! "subjectCode" = m !! "subjectId" /\
  row !! "subjectName" = subject !! "subjectName" /\
  row !! "mseMarks" = m !! "mseMarks" /\
  row !! "eseMarks" = m !! "eseMarks" /\
  row !! "total" = m !! "total" /\
  row !! "grade" = m !! "grade" /\
  row !! "_id" = None /\
  row !! "studentId" = None.
Proof.
  cbv zeta. unfold project, put.
  destruct (m !! "subjectId"), (subject !! "subjectName"), (m !! "mseMarks"),
    (m !! "eseMarks"), (m !! "total"), (m !! "grade");
    repeat split; reflexivity.
Qed.

(** The rows of [get_student_marks]: one for each mark of the student and
    each subject whose code is the mark's subject. *)
Lemma get_student_marks_rows (student_id : string) (s : state) (row : doc) :
  In row (get_student_marks student_id s) <->
  exists m subject,
    In m (marks s) /\ m !! "studentId" = Some (VStr student_id) /\
    In subject (subjects s) /\ joins (m !! "subjectId") (subject !! "code") = true /\
    row = project (m, subject).
Proof.
  unfold get_student_marks.
  rewrite In_sort_by, in_map_iff. split.
  - intros ([m subject] & <- & Hin). apply in_flat_map in Hin as (m' & Hm' & Hrow).
    apply List.filter_In in Hm' as [Hm' Hsid]. apply matches_one in Hsid.
    unfold lookup_unwind in Hrow. apply in_map_iff in Hrow as (sub & [= <- <-] & Hsub).
    apply List.filter_In in Hsub as [Hsub Hjoin]. exists m', sub. auto.
  - intros (m & subject & Hm & Hsid & Hsub & Hjoin & ->). exists (m, subject).
    split; [reflexivity|]. apply in_flat_map. exists m. split.
    + apply List.filter_In. split; [exact Hm | apply matches_one, Hsid].
    + unfold lookup_unwind. apply in_map_iff. exists subject. split; [reflexivity|].
      apply List.filter_In. auto.
Qed.

Lemma joins_code (m subject : doc) (code : string) :
  m !! "subjectId" = Some (VStr code) ->
  joins (m !! "subjectId") (subject !! "code") = true <-> subject !! "code" = Some (VStr code).
Proof.
  intros ->. unfold joins. destruct (subject !! "code") as [w|].
  - rewrite value_eqb_VStr. split; [intros ->; reflexivity | intros [= ->]; reflexivity].
  - split; discriminate.
Qed.

End ListingFacts.

(** X11. [get_all_students] returns every student once, without its
    [_id], in ascending order of roll number; and [get_student_marks]
    returns its rows in ascending order of subject code. *)
Theorem listings_are_sorted (s : Dashboard.state) :
  (Permutation (Services.get_all_students s)
               (List.map (delete "_id"%string) (Dashboard.students s)) /\
   Sorted (Driver.before "rollNo") (Services.get_all_students s)) /\
  (forall student_id : string,
      Sorted (Driver.before "subjectCode") (Dashboard.get_student_marks student_id s)).
Proof.
  split; [split|].
  - unfold Services.get_all_students. apply Permutation_map, sort_by_perm.
  - unfold Services.get_all_students.
    apply (Sorted_map _ _ (Driver.before "rollNo")); [|apply sort_by_sorted].
    intros a b. apply before_delete. discriminate.
  - intros student_id. apply sort_by_sorted.
Qed.

(** X12. After [add_or_update_marks], [get_student_marks] for the student
    has a row for the subject with the marks entered, the rounded total
    and the grade, under the name of the subject, provided a subject with
    that code exists.  When no subject has the code, the mark is stored
    all the same and no row shows it. *)
Theorem entered_marks_are_listed (now later : Z) (sid subj : string) (mse ese : float)
    (s : Dashboard.state) :
  let s' := fst (Dashboard.add_or_update_marks now later sid subj mse ese s) in
  let rows := Dashboard.get_student_marks sid s' in
  (forall subject,
      In subject (Dashboard.subjects s) ->
      subject !! "code"%string = Some (Mongo.VStr subj) ->
      exists row,
        In row rows /\
        row !! "subjectCode"%string = Some (Mongo.VStr subj) /\
        row !! "subjectName"%string = subject !! "subjectName"%string /\
        row !! "mseMarks"%string = Some (Mongo.VNum mse) /\
        row !! "eseMarks"%string = Some (Mongo.VNum ese) /\
        row !! "total"%string =
          Some (Mongo.VNum (Float64.py_round2 (Dashboard.raw_total mse ese))) /\
        row !! "grade"%string =
          Some (Mongo.VStr (Grade.calculate_grade (Dashboard.raw_total mse ese)))) /\
  ((forall subject, In subject (Dashboard.subjects s) ->
                    subject !! "code"%string <> Some (Mongo.VStr subj)) ->
   forall row, In row rows -> row !! "subjectCode"%string <> Some (Mongo.VStr subj)).
Proof.
  cbv zeta. split.
  - intros subject Hsub Hcode.
    destruct (add_or_update_marks_once now later sid subj mse ese s)
      as (_ & _ & d & Hd & Hfields).
    apply find_one_Some in Hd as [Hin Hsel]. apply matches_two in Hsel as [Hsid Hsubj].
    destruct (mark_fields now sid subj mse ese)
      as (_ & _ & H3 & H4 & H5 & H6 & _).
    destruct (project_fields d subject) as (P1 & P2 & P3 & P4 & P5 & P6 & _).
    exists (Dashboard.project (d, subject)). split.
    { apply get_student_marks_rows. exists d, subject.
      split; [exact Hin|]. split; [exact Hsid|]. split; [exact Hsub|].
      split; [apply (joins_code d subject subj Hsubj), Hcode | reflexivity]. }
    rewrite P1, P2, P3, P4, P5, P6.
    split; [exact Hsubj|]. split; [reflexivity|].
    split; [apply Hfields, H3|]. split; [apply Hfields, H4|].
    split; [apply Hfields, H5 | apply Hfields, H6].
  - intros Hnone row Hrow Hcode.
    apply get_student_marks_rows in Hrow as (m & subject & _ & _ & Hsub & Hjoin & ->).
    destruct (project_fields m subject) as (P1 & _). rewrite P1 in Hcode.
    apply (joins_code m subject subj Hcode) in Hjoin. exact (Hnone subject Hsub Hjoin).
Qed.
Lemma entered_marks_are_listed_witness :
  exists row,
    In row (Dashboard.get_student_marks "21AIML001"
              (fst (Dashboard.add_or_update_marks 3 4 "21AIML001" "ML3002" 20 50
                      Sample.one_mark))) /\
    row !! "subjectName"%string = Some (Mongo.VStr "Design and Analysis of Algorithms") /\
    row !! "total"%string = Some (Mongo.VNum 70) /\
    row !! "grade"%string = Some (Mongo.VStr "B+").
Proof.
  destruct (proj1 (entered_marks_are_listed 3 4 "21AIML001" "ML3002" 20 50 Sample.one_mark)
              {[ "subjectName"%string := Mongo.VStr "Design and Analysis of Algorithms";
                 "code"%string := Mongo.VStr "ML3002" ]})
    as (row & Hrow & _ & Hname & _ & _ & Htotal & Hgrade).
  - right. left. compute_eq.
  - compute_eq.
  - exists row. split; [exact Hrow|]. split; [rewrite Hname; compute_eq|].
    split; [rewrite Htotal; compute_eq | rewrite Hgrade; compute_eq].
Defined.

(** ** The default subjects *)

Section InitFacts.
Import Mongo Driver Dashboard Services.
Local Open Scope string_scope.

Lemma count_all_zero (c : list doc) : Nat.eqb (count (fun _ => true) c) 0 = true <-> c = [].
Proof.
  unfold count. destruct c as [|d c]; simpl; [tauto|]. split; discriminate.
Qed.

(** The two cases of [_initialize_data]. *)
Lemma initialize_data_cases (s : state) :
  (subjects s = [] /\
   _initialize_data s =
   State (students s) (fst (insert_many default_subjects (next_id s) []))
         (marks s) (next_id s + 4)%N) \/
  (subjects s <> [] /\ _initialize_data s = s).
Proof.
  unfold _initialize_data.
  destruct (Nat.eqb (count _ (subjects s)) 0) eqn:E.
  - apply count_all_zero in E. left. split; [exact E|]. rewrite E.
    cbn [insert_many default_subjects app fst]. do 2 f_equal. lia.
  - right. split; [|reflexivity]. intros Hnil. apply count_all_zero in Hnil. congruence.
Qed.

End InitFacts.

(** X13. [_initialize_data] changes nothing when run again, and nothing
    at all when a subject is stored.  On a collection without subjects it
    inserts the four subjects of the semester, which [get_all_subjects]
    then returns in that order; students and marks are never touched. *)
Theorem initialize_data_once (s : Dashboard.state) :
  let s' := Services._initialize_data s in
  Services._initialize_data s' = s' /\
  (Dashboard.subjects s = [] ->
   Services.get_all_subjects s' = Services.default_subjects /\
   Dashboard.next_id s' = (Dashboard.next_id s + 4)%N) /\
  (Dashboard.subjects s <> [] -> s' = s) /\
  Dashboard.students s' = Dashboard.students s /\
  Dashboard.marks s' = Dashboard.marks s.
Proof.
  cbv zeta. destruct (initialize_data_cases s) as [[Hnil Hs] | [Hne Hs]]; rewrite Hs.
  - split.
    { unfold Services._initialize_data. reflexivity. }
    split; [|split; [contradiction | split; reflexivity]].
    intros _. split; [|reflexivity].
    unfold Services.get_all_subjects.
    cbn [Dashboard.subjects Driver.insert_many Services.default_subjects app fst List.map].
    rewrite !delete_insert_id by reflexivity. reflexivity.
  - split; [exact Hs|]. split; [contradiction|]. split; [reflexivity|]. split; reflexivity.
Qed.

(** ** The marks form *)

Section FormFacts.
Import Float64 Grade Mongo Dashboard MarksPage.
Local Open Scope string_scope.
Variable py_float : string -> option float.
Variable strip : string -> string.

Lemma read_marks_parsed (mse_text ese_text : string) (mse ese : float) :
  parse_input py_float strip mse_text = Some mse ->
  parse_input py_float strip ese_text = Some ese ->
  read_marks py_float strip mse_text ese_text =
  (mse, ese,
   (negb (lt mse 0 || gt mse 30) && negb (lt ese 0 || gt ese 70))%bool,
   ((if (lt mse 0 || gt mse 30)%bool then [MSEOutOfRange] else []) ++
    (if (lt ese 0 || gt ese 70)%bool then [ESEOutOfRange] else []))%list).
Proof. intros Hm He. unfold read_marks. rewrite Hm, He. reflexivity. Qed.

Lemma read_marks_unparsed (mse_text ese_text : string) :
  parse_input py_float strip mse_text = None \/ parse_input py_float strip ese_text = None ->
  exists mse_num ese_num errors,
    read_marks py_float strip mse_text ese_text = (mse_num, ese_num, false, errors) /\
    errors <> [].
Proof.
  intros Hnone. unfold read_marks.
  destruct (parse_input py_float strip mse_text) as [mse|],
           (parse_input py_float strip ese_text) as [ese|];
    try (destruct Hnone; discriminate); do 3 eexists; (split; [reflexivity | discriminate]).
Qed.

(** The errors shown are exactly the reasons for refusing. *)
Lemma read_marks_errors (mse_text ese_text : string) :
  snd (fst (read_marks py_float strip mse_text ese_text)) = true <->
  snd (read_marks py_float strip mse_text ese_text) = [].
Proof.
  destruct (parse_input py_float strip mse_text) as [mse|] eqn:Hm;
    [destruct (parse_input py_float strip ese_text) as [ese|] eqn:He|].
  - rewrite (read_marks_parsed _ _ _ _ Hm He). cbn [fst snd].
    destruct (lt mse 0 || gt mse 30)%bool, (lt ese 0 || gt ese 70)%bool; simpl;
      split; congruence.
  - destruct (read_marks_unparsed mse_text ese_text (or_intror He))
      as (a & b & errs & -> & Herrs). cbn [fst snd]. split; congruence.
  - destruct (read_marks_unparsed mse_text ese_text (or_introl Hm))
      as (a & b & errs & -> & Herrs). cbn [fst snd]. split; congruence.
Qed.

Lemma submit_parse_ok (now later : Z) (sid subj mse_text ese_text : string) (s : state) :
  submit py_float strip now later sid subj mse_text ese_text s =
  let '(mse_num, ese_num, parse_ok, _) := read_marks py_float strip mse_text ese_text in
  if parse_ok
  then (fst (add_or_update_marks now later sid subj mse_num ese_num s), MarksSaved)
  else (s, FixInputErrors).
Proof.
  unfold submit. destruct (read_marks _ _ _ _) as [[[mse_num ese_num] parse_ok] errs].
  destruct parse_ok; reflexivity.
Qed.

(** When the form accepts its inputs. *)
Lemma read_marks_ok (mse_text ese_text : string) :
  snd (fst (read_marks py_float strip mse_text ese_text)) = true <->
  exists mse ese,
    parse_input py_float strip mse_text = Some mse /\
    parse_input py_float strip ese_text = Some ese /\
    lt mse 0 = false /\ gt mse 30 = false /\ lt ese 0 = false /\ gt ese 70 = false.
Proof.
  destruct (parse_input py_float strip mse_text) as [mse|] eqn:Hm;
    [destruct (parse_input py_float strip ese_text) as [ese|] eqn:He|].
  - rewrite (read_marks_parsed _ _ _ _ Hm He). cbn [fst snd].
    rewrite andb_true_iff, !negb_true_iff, !orb_false_iff. split.
    + intros [[H1 H2] [H3 H4]]. exists mse, ese. auto 10.
    + intros (a & b & Ha & Hb & H1 & H2 & H3 & H4).
      injection Ha as <-. injection Hb as <-. auto.
  - destruct (read_marks_unparsed mse_text ese_text (or_intror He))
      as (a & b & errs & -> & Herrs). cbn [fst snd].
    split; [discriminate | intros (a' & b' & _ & Hb & _); discriminate Hb].
  - destruct (read_marks_unparsed mse_text ese_text (or_introl Hm))
      as (a & b & errs & -> & Herrs). cbn [fst snd].
    split; [discriminate | intros (a' & b' & Ha & _); discriminate Ha].
Qed.

Lemma read_marks_numbers (mse_text ese_text : string) (mse ese : float) :
  parse_input py_float strip mse_text = Some mse ->
  parse_input py_float strip ese_text = Some ese ->
  fst (fst (read_marks py_float strip mse_text ese_text)) = (mse, ese).
Proof. intros Hm He. rewrite (read_marks_parsed _ _ _ _ Hm He). reflexivity. Qed.

End FormFacts.

(** X14. Submitting the marks form saves the marks exactly when both
    inputs are read as numbers that are neither below 0 nor above their
    maximum (30 and 70); the marks saved are the numbers read.  In every
    other case nothing is stored and at least one error is shown, and no
    error is shown when the marks are saved.  An input left empty is read
    as 0; and a NaN, which no comparison refuses, is saved. *)
Theorem submit_checks_the_marks (py_float : string -> option float) (strip : string -> string)
    (now later : Z) (sid subj mse_text ese_text : string) (s : Dashboard.state) :
  let parse := MarksPage.parse_input py_float strip in
  let result := MarksPage.submit py_float strip now later sid subj mse_text ese_text s in
  let errors := snd (MarksPage.read_marks py_float strip mse_text ese_text) in
  (snd result = MarksPage.MarksSaved <->
   exists mse ese,
     parse mse_text = Some mse /\ parse ese_text = Some ese /\
     Float64.lt mse 0 = false /\ Float64.gt mse 30 = false /\
     Float64.lt ese 0 = false /\ Float64.gt ese 70 = false) /\
  (forall mse ese,
      parse mse_text = Some mse -> parse ese_text = Some ese ->
      snd result = MarksPage.MarksSaved ->
      fst result = fst (Dashboard.add_or_update_marks now later sid subj mse ese s)) /\
  (snd result <> MarksPage.MarksSaved ->
   snd result = MarksPage.FixInputErrors /\ fst result = s /\ errors <> []) /\
  (snd result = MarksPage.MarksSaved -> errors = []) /\
  parse ""%string = Some 0%float /\
  (parse mse_text = Some nan -> parse ese_text = Some nan ->
   snd result = MarksPage.MarksSaved).
Proof.
  cbv zeta. rewrite submit_parse_ok.
  pose proof (read_marks_errors py_float strip mse_text ese_text) as Herrs.
  pose proof (read_marks_ok py_float strip mse_text ese_text) as Hok.
  pose proof (read_marks_numbers py_float strip mse_text ese_text) as Hnum.
  destruct (MarksPage.read_marks py_float strip mse_text ese_text)
    as [[[mse_num ese_num] parse_ok] errs].
  cbn [fst snd] in *. destruct parse_ok; cbn [fst snd].
  - split; [split; [intros _; apply Hok; reflexivity | reflexivity]|].
    split.
    { intros mse ese Hm He _. specialize (Hnum mse ese Hm He).
      injection Hnum as -> ->. reflexivity. }
    split; [intros Hne; contradiction Hne; reflexivity|].
    split; [intros _; apply Herrs; reflexivity|]. split; reflexivity.
  - split; [split; [discriminate | intros Hex; apply Hok in Hex; discriminate Hex]|].
    split; [discriminate|].
    split.
    { intros _. split; [reflexivity|]. split; [reflexivity|].
      intros Hnil. apply Herrs in Hnil. discriminate Hnil. }
    split; [discriminate|]. split; [reflexivity|].
    intros Hm He. assert (Hsaved : false = true); [|discriminate Hsaved].
    apply Hok. exists nan, nan. repeat split; try assumption; reflexivity.
Qed.

(** ** Rounding within bounds *)

Section RoundingFacts.
Import Float64 TotalCheck GridCheck.

Lemma In_zrange (N n : Z) : In n (zrange N) <-> (0 <= n < N)%Z.
Proof.
  unfold zrange. rewrite in_map_iff. split.
  - intros (i & <- & Hi%in_seq). lia.
  - intros Hn. exists (Z.to_nat n). split; [lia|]. apply in_seq. lia.
Qed.

Lemma from_map (count : nat) (i : Z) :
  from count i = List.map (fun j => i + Z.of_nat j)%Z (List.seq 0 count).
Proof.
  revert i. induction count as [|count IH]; intros i; [reflexivity|].
  cbn [from List.seq List.map]. rewrite IH, <- seq_shift, List.map_map.
  f_equal; [lia|]. apply List.map_ext. intros j. lia.
Qed.

Lemma upto_zrange (n : Z) : upto n = zrange n.
Proof. unfold upto, zrange. rewrite from_map. reflexivity. Qed.

Lemma In_upto (N n : Z) : In n (upto N) <-> (0 <= n < N)%Z.
Proof. rewrite upto_zrange. apply In_zrange. Qed.

(** The mantissa of a binary64 number has at most 53 bits. *)
Lemma mantissa_bound (x : float) (s : bool) (m : positive) (e : Z) :
  Prim2SF x = S754_finite s m e -> (Zpos m < 2 ^ 53)%Z.
Proof.
  intros Hx. pose proof (Prim2SF_valid x) as Hv. rewrite Hx in Hv.
  unfold valid_binary, bounded, canonical_mantissa, fexp in Hv.
  apply andb_true_iff in Hv as [Hc _]. apply Z.eqb_eq in Hc.
  pose proof (digits2_pos_bound m) as Hm.
  assert (Hd : (Zpos (digits2_pos m) <= 53)%Z) by (unfold prec in Hc; lia).
  eapply Z.lt_le_trans; [exact Hm|]. apply Z.pow_le_mono_r; lia.
Qed.

Lemma round_div_le (to_even : bool) (num den N : Z) :
  (0 < den)%Z -> (num <= N * den)%Z -> (round_div to_even num den <= N)%Z.
Proof.
  intros Hden Hnum. unfold round_div.
  pose proof (Z.div_mod num den ltac:(lia)) as Hdm.
  pose proof (Z.mod_pos_bound num den Hden) as Hr.
  assert (Hq : (num / den <= N)%Z) by (apply Z.div_le_upper_bound; lia).
  destruct (Z.eq_dec (num / den)%Z N) as [Heq|Hne].
  - assert (Hr0 : (num mod den = 0)%Z) by nia.
    rewrite Hr0. replace (2 * 0 ?= den)%Z with Lt by (symmetry; apply Z.compare_lt_iff; lia).
    lia.
  - destruct (2 * (num mod den) ?= den)%Z; [destruct (_ && _)|..]; lia.
Qed.

Lemma round_div_nonneg (to_even : bool) (num den : Z) :
  (0 < den)%Z -> (0 <= num)%Z -> (0 <= round_div to_even num den)%Z.
Proof.
  intros Hden Hnum. unfold round_div.
  pose proof (Z.div_pos num den Hnum Hden).
  destruct (2 * (num mod den) ?= den)%Z; [destruct (_ && _)|..]; lia.
Qed.

Lemma hundredths_nonneg (to_even : bool) (m : positive) (e : Z) :
  (0 <= hundredths to_even m e)%Z.
Proof.
  unfold hundredths. destruct e as [|p|p].
  - lia.
  - pose proof (Z.pow_pos_nonneg 2 (Zpos p)). lia.
  - apply round_div_nonneg; [apply Z.pow_pos_nonneg|]; lia.
Qed.

(** A positive number not above [K = M * 2^(-k)], [M] of 53 bits, has at
    most [100 * K] hundredths. *)
Lemma hundredths_le (K M : Z) (k : positive) (m : positive) (e : Z) :
  (M = K * 2 ^ Zpos k)%Z -> (2 ^ 52 <= M)%Z -> (Zpos m < 2 ^ 53)%Z ->
  (e < Zneg k \/ (e = Zneg k /\ Zpos m <= M))%Z ->
  (hundredths true m e <= 100 * K)%Z.
Proof.
  intros HM Hnorm Hm He. unfold hundredths.
  destruct e as [|p|p]; [lia..|].
  apply round_div_le; [apply Z.pow_pos_nonneg; lia|].
  pose proof (Z.pow_pos_nonneg 2 (Zpos k) ltac:(lia) ltac:(lia)) as Hk.
  pose proof (Z.pow_pos_nonneg 2 52 ltac:(lia) ltac:(lia)) as H52.
  assert (HK : (0 < K)%Z).
  { destruct (Z_le_gt_dec K 0) as [Hneg|]; [|lia].
    pose proof (Z.mul_nonpos_nonneg K (2 ^ Zpos k) Hneg ltac:(lia)). lia. }
  destruct He as [He | [He Hle]].
  - assert (Hp : (Zpos k + 1 <= Zpos p)%Z) by lia.
    assert (Hpow : (2 * 2 ^ Zpos k <= 2 ^ Zpos p)%Z).
    { rewrite <- Z.pow_succ_r by lia. apply Z.pow_le_mono_r; lia. }
    replace (2 ^ 53)%Z with (2 * 2 ^ 52)%Z in Hm by reflexivity.
    transitivity (100 * (2 * M))%Z; [lia|]. subst M.
    transitivity (100 * (K * (2 * 2 ^ Zpos k)))%Z; [lia|].
    rewrite <- Z.mul_assoc. apply Z.mul_le_mono_nonneg_l; [lia|].
    apply Z.mul_le_mono_nonneg_l; lia.
  - injection He as ->. subst M. lia.
Qed.

Lemma rounds_within_spec (K n : Z) :
  rounds_within K = true -> (0 <= n <= 100 * K)%Z ->
  (0 <=? of_hundredths n)%float = true /\ (of_hundredths n <=? of_Z K)%float = true.
Proof.
  intros Hall Hn. unfold rounds_within in Hall. rewrite forallb_forall in Hall.
  assert (Hin : In n (upto (100 * K + 1))) by (apply In_upto; lia).
  specialize (Hall n Hin).
  apply andb_true_iff in Hall. exact Hall.
Qed.

Lemma rounds_within_30 : rounds_within 30 = true.
Proof. vm_cast_no_check (@eq_refl bool true). Qed.

Lemma rounds_within_70 : rounds_within 70 = true.
Proof. vm_cast_no_check (@eq_refl bool true). Qed.

(** Rounding to two decimals keeps a number that is neither below 0 nor
    above [K] between 0 and [K], unless it is NaN. *)
Lemma py_round2_within (K M : Z) (k : positive) (c : float) :
  Prim2SF (of_Z K) = S754_finite false (Z.to_pos M) (Zneg k) ->
  (M = K * 2 ^ Zpos k)%Z -> (2 ^ 52 <= M)%Z ->
  rounds_within K = true ->
  lt c 0 = false -> gt c (of_Z K) = false ->
  is_nan (py_round2 c) = true \/
  ((0 <=? py_round2 c)%float = true /\ (py_round2 c <=? of_Z K)%float = true).
Proof.
  intros HK HM Hnorm Hall Hlt Hgt. unfold lt, gt in *.
  rewrite ltb_spec in Hlt, Hgt. rewrite HK in Hgt. unfold py_round2.
  destruct (Prim2SF c) as [s|s| |s m e] eqn:Hc.
  - right. rewrite !leb_spec, Hc, HK. destruct s; split; reflexivity.
  - destruct s; [discriminate Hlt | discriminate Hgt].
  - left. unfold is_nan. rewrite FloatAxioms.eqb_spec, Hc. reflexivity.
  - destruct s; [discriminate Hlt|]. right.
    apply rounds_within_spec; [exact Hall|].
    split; [apply hundredths_nonneg|].
    apply (hundredths_le K M k); try assumption.
    + eapply mantissa_bound, Hc.
    + unfold SFltb, SFcompare in Hgt.
      destruct (Z.compare_spec (Zneg k) e) as [He|He|He]; [right | discriminate | left; lia].
      split; [auto|]. rewrite Pos.compare_cont_spec in Hgt. unfold Pos.switch_Eq in Hgt.
      pose proof (Z.pow_pos_nonneg 2 52 ltac:(lia) ltac:(lia)).
      destruct (Pos.compare_spec (Z.to_pos M) m); try discriminate; lia.
Qed.

End RoundingFacts.

Section NormalizeFacts.
Import Float64 Mongo MarksPage TotalCheck GridCheck.
Variable py_float : string -> option float.

Lemma normalize_mark_number (x : float) (K : Z) :
  _normalize_mark py_float (VNum x) K = _normalize_mark (fun _ => None) (VNum x) K.
Proof. reflexivity. Qed.

Lemma shown_as_stored_spec (K n : Z) :
  shown_as_stored K = true -> (101 <= n <= 100 * K)%Z ->
  _normalize_mark py_float (VNum (cents n)) K = cents n.
Proof.
  intros Hall Hn. unfold shown_as_stored in Hall. rewrite forallb_forall in Hall.
  rewrite normalize_mark_number. apply FloatAxioms.Leibniz.eqb_spec, Hall.
  apply in_map_iff. exists (n - 101)%Z. split; [lia|]. apply In_upto. lia.
Qed.

Lemma shown_larger_spec (K n : Z) :
  shown_larger K = true -> (1 <= n <= 100)%Z ->
  lt (cents n) (_normalize_mark py_float (VNum (cents n)) K) = true.
Proof.
  intros Hall Hn. unfold shown_larger in Hall. rewrite forallb_forall in Hall.
  rewrite normalize_mark_number. apply Hall.
  apply in_map_iff. exists (n - 1)%Z. split; [lia|]. apply In_upto. lia.
Qed.

Lemma shown_as_stored_30 : shown_as_stored 30 = true.
Proof. vm_cast_no_check (@eq_refl bool true). Qed.

Lemma shown_as_stored_70 : shown_as_stored 70 = true.
Proof. vm_cast_no_check (@eq_refl bool true). Qed.

Lemma shown_larger_30 : shown_larger 30 = true.
Proof. vm_cast_no_check (@eq_refl bool true). Qed.

Lemma shown_larger_70 : shown_larger 70 = true.
Proof. vm_cast_no_check (@eq_refl bool true). Qed.

(** The clamp of [_normalize_mark] leaves a number that is neither below
    0 nor above the maximum. *)
Lemma clamp_within (K : float) (v : float) :
  lt K 0 = false -> lt 0 0 = false -> gt K K = false ->
  let v1 := if lt v 0 then 0%float else v in
  let v2 := if gt v1 K then K else v1 in
  lt v2 0 = false /\ gt v2 K = false.
Proof.
  intros HK0 H00 HKK. cbv zeta.
  destruct (lt v 0) eqn:Hv.
  - destruct (gt 0 K) eqn:Hg; split; assumption.
  - destruct (gt v K) eqn:Hg; split; assumption.
Qed.

Lemma normalize_mark_within (K M : Z) (k : positive) (value : value) :
  Prim2SF (of_Z K) = S754_finite false (Z.to_pos M) (Zneg k) ->
  (M = K * 2 ^ Zpos k)%Z -> (2 ^ 52 <= M)%Z ->
  rounds_within K = true ->
  lt (of_Z K) 0 = false -> gt (of_Z K) (of_Z K) = false ->
  (0 <=? of_Z K)%float = true ->
  let r := _normalize_mark py_float value K in
  is_nan r = true \/ ((0 <=? r)%float = true /\ (r <=? of_Z K)%float = true).
Proof.
  intros HK HM Hnorm Hall HK0 HKK HK1. cbv zeta. unfold _normalize_mark.
  destruct (to_float py_float value) as [v|]; [|right; split; [reflexivity | exact HK1]].
  cbv zeta.
  destruct (clamp_within (of_Z K)
              (rescale 4 (if (lt 0 v && le v 1)%bool then (v * of_Z K)%float else v))
              HK0 eq_refl HKK) as [Hlo Hhi].
  apply (py_round2_within K M k); assumption.
Qed.

End NormalizeFacts.

(** X15. Whatever the stored value, [_normalize_mark] with the maximum 30
    or 70 returns a number between 0 and that maximum, or NaN. *)
Theorem normalize_mark_in_range (py_float : string -> option float) (value : Mongo.value)
    (max_mark : Z) :
  max_mark = 30%Z \/ max_mark = 70%Z ->
  let r := MarksPage._normalize_mark py_float value max_mark in
  is_nan r = true \/
  ((0 <=? r)%float = true /\ (r <=? Float64.of_Z max_mark)%float = true).
Proof.
  intros [-> | ->].
  - apply (normalize_mark_within py_float 30 (30 * 2 ^ 48) 48);
      [ vm_compute; reflexivity | reflexivity | vm_compute; discriminate
      | apply rounds_within_30 | vm_compute; reflexivity.. ].
  - apply (normalize_mark_within py_float 70 (70 * 2 ^ 46) 46);
      [ vm_compute; reflexivity | reflexivity | vm_compute; discriminate
      | apply rounds_within_70 | vm_compute; reflexivity.. ].
Qed.
Lemma normalize_mark_in_range_witness :
  is_nan (MarksPage._normalize_mark Sample.read_decimal (Mongo.VNum 0.5) 30) = true \/
  ((0 <=? MarksPage._normalize_mark Sample.read_decimal (Mongo.VNum 0.5) 30)%float = true /\
   (MarksPage._normalize_mark Sample.read_decimal (Mongo.VNum 0.5) 30
    <=? Float64.of_Z 30)%float = true).
Proof.
  apply (normalize_mark_in_range Sample.read_decimal (Mongo.VNum 0.5) 30).
  left. reflexivity.
Defined.

(** X16. On the stored marks with two decimals, [_normalize_mark] with the
    maximum 30 or 70 returns the mark itself from 1.01 up to the maximum,
    and 0 for 0; but for every mark from 0.01 to 1.00 it returns a larger
    number than the one stored. *)
Theorem normalize_mark_two_decimals (py_float : string -> option float) (max_mark n : Z) :
  max_mark = 30%Z \/ max_mark = 70%Z ->
  (101 <= n <= 100 * max_mark ->
   MarksPage._normalize_mark py_float (Mongo.VNum (Float64.cents n)) max_mark
   = Float64.cents n)%Z /\
  (1 <= n <= 100 ->
   Float64.lt (Float64.cents n)
     (MarksPage._normalize_mark py_float (Mongo.VNum (Float64.cents n)) max_mark) = true)%Z /\
  MarksPage._normalize_mark py_float (Mongo.VNum 0) max_mark = 0%float.
Proof.
  intros [-> | ->]; (split; [|split; [|reflexivity]]).
  - apply shown_as_stored_spec, shown_as_stored_30.
  - apply shown_larger_spec, shown_larger_30.
  - apply shown_as_stored_spec, shown_as_stored_70.
  - apply shown_larger_spec, shown_larger_70.
Qed.
Lemma normalize_mark_two_decimals_witness :
  MarksPage._normalize_mark Sample.read_decimal (Mongo.VNum (Float64.cents 2450)) 30
  = Float64.cents 2450 /\
  Float64.lt (Float64.cents 50)
    (MarksPage._normalize_mark Sample.read_decimal (Mongo.VNum (Float64.cents 50)) 30) = true.
Proof.
  split.
  - apply (proj1 (normalize_mark_two_decimals Sample.read_decimal 30 2450
                    (or_introl eq_refl))). lia.
  - apply (proj1 (proj2 (normalize_mark_two_decimals Sample.read_decimal 30 50
                           (or_introl eq_refl)))). lia.
Defined.

(** ** The preview and the stored mark *)

Section GridFacts.
Import Float64 Grade Mongo Dashboard TotalCheck GridCheck MarksPage.
Local Open Scope string_scope.

Lemma check_row_row_in (x : float) (ys : list float) (Ds : list (list float)) :
  check_row x ys Ds = row_in raw_total x ys Ds.
Proof.
  revert Ds. induction ys as [|y ys IH]; intros Ds; [reflexivity|].
  destruct Ds as [|D Ds]; [reflexivity|]. simpl. rewrite IH. reflexivity.
Qed.

Lemma check_rows_rows_in (xs ys : list float) (Ds : list (list float)) :
  check_rows xs ys Ds = rows_in raw_total xs ys Ds.
Proof.
  revert Ds. induction xs as [|x xs IH]; intros Ds; [reflexivity|].
  simpl. rewrite IH, check_row_row_in. reflexivity.
Qed.

Lemma row_in_nth (total : float -> float -> float) (x : float) (ys : list float)
    (Ds : list (list float)) :
  row_in total x ys Ds = true ->
  forall j y, nth_error ys j = Some y ->
  exists D, nth_error Ds j = Some D /\
            List.existsb (PrimFloat.Leibniz.eqb (total x y)) D = true.
Proof.
  revert Ds. induction ys as [|y0 ys IH]; intros Ds Hrow j y Hj.
  - destruct j; discriminate.
  - destruct Ds as [|D Ds]; [discriminate|]. simpl in Hrow.
    apply andb_true_iff in Hrow as [Hhere Hrest].
    destruct j as [|j]; simpl in *.
    + injection Hj as <-. eauto.
    + apply (IH Ds Hrest j y Hj).
Qed.

Lemma rows_in_nth (total : float -> float -> float) (xs ys : list float)
    (Ds : list (list float)) :
  rows_in total xs ys Ds = true ->
  forall i x, nth_error xs i = Some x -> row_in total x ys (skipn i Ds) = true.
Proof.
  revert Ds. induction xs as [|x0 xs IH]; intros Ds Hrows i x Hi.
  - destruct i; discriminate.
  - simpl in Hrows. apply andb_true_iff in Hrows as [Hhere Hrest].
    destruct i as [|i]; simpl in Hi.
    + injection Hi as <-. exact Hhere.
    + specialize (IH _ Hrest i x Hi). destruct Ds; [rewrite skipn_nil in *|]; exact IH.
Qed.

(** What a successful check establishes: the total of the marks
    [step * i] and [step * j] is one of the floats that round to
    [step * (i + j)]. *)
Lemma rows_in_spec (total : float -> float -> float) (step A B C : Z) :
  rows_in total (List.map (fun i => cents (step * i)) (zrange A))
                (List.map (fun j => cents (step * j)) (zrange B))
                (List.map (fun n => rounding_to (step * n)) (zrange C)) = true ->
  forall i j : Z, (0 <= i < A)%Z -> (0 <= j < B)%Z -> (i + j < C)%Z ->
  In (total (cents (step * i)) (cents (step * j))) (rounding_to (step * (i + j))).
Proof.
  intros Hok i j Hi Hj Hij.
  assert (Hx : nth_error (List.map (fun i => cents (step * i)) (zrange A)) (Z.to_nat i)
               = Some (cents (step * i))).
  { rewrite nth_error_map, zrange_nth by lia. cbn [option_map]. rewrite Z2Nat.id by lia.
    reflexivity. }
  assert (Hy : nth_error (List.map (fun j => cents (step * j)) (zrange B)) (Z.to_nat j)
               = Some (cents (step * j))).
  { rewrite nth_error_map, zrange_nth by lia. cbn [option_map]. rewrite Z2Nat.id by lia.
    reflexivity. }
  pose proof (rows_in_nth _ _ _ _ Hok _ _ Hx) as Hrow.
  destruct (row_in_nth _ _ _ _ Hrow _ _ Hy) as (D & HD & Hin).
  rewrite nth_error_skipn, nth_error_map, zrange_nth in HD by lia.
  cbn [option_map] in HD. injection HD as <-.
  apply existsb_exists in Hin as (v & Hv & Heq).
  apply FloatAxioms.Leibniz.eqb_spec in Heq. rewrite Heq.
  replace (step * (i + j))%Z
    with (step * Z.of_nat (Z.to_nat i + Z.to_nat j))%Z by (f_equal; lia).
  exact Hv.
Qed.

Lemma rounding_to_spec (k : Z) (v : float) :
  In v (rounding_to k) -> py_round2 v = cents k.
Proof.
  unfold rounding_to. intros [_ Hv]%List.filter_In.
  apply FloatAxioms.Leibniz.eqb_spec, Hv.
Qed.

(** All sums of a mark from 0.00 to 30.00 and a mark from 0.00 to 70.00,
    in steps of 0.05, by evaluation. *)
Lemma all_sums_counted :
  rows_in (fun x y => (x + y)%float)
          (List.map (fun i => cents (5 * i)) (upto 601))
          (List.map (fun j => cents (5 * j)) (upto 1401))
          (List.map (fun n => rounding_to (5 * n)) (upto 2001)) = true.
Proof. vm_cast_no_check (@eq_refl bool true). Qed.

Lemma all_sums_ok :
  rows_in (fun x y => (x + y)%float)
          (List.map (fun i => cents (5 * i)) (zrange 601))
          (List.map (fun j => cents (5 * j)) (zrange 1401))
          (List.map (fun n => rounding_to (5 * n)) (zrange 2001)) = true.
Proof. rewrite <- !upto_zrange. exact all_sums_counted. Qed.

Lemma grades_below_ok : grades_below 2001 = true.
Proof. vm_cast_no_check (@eq_refl bool true). Qed.

Lemma marks_in_range_30 : marks_in_range 30 = true.
Proof. vm_cast_no_check (@eq_refl bool true). Qed.

Lemma marks_in_range_70 : marks_in_range 70 = true.
Proof. vm_cast_no_check (@eq_refl bool true). Qed.

Lemma marks_in_range_spec (K i : Z) :
  marks_in_range K = true -> (0 <= i <= 20 * K)%Z ->
  lt (cents (5 * i)) 0 = false /\ gt (cents (5 * i)) (of_Z K) = false /\
  gt (cents (5 * i)) 0 = (0 <? i)%Z.
Proof.
  intros Hall Hi. unfold marks_in_range in Hall. rewrite forallb_forall in Hall.
  assert (Hin : In i (upto (20 * K + 1))) by (apply In_upto; lia).
  specialize (Hall i Hin).
  apply andb_true_iff in Hall as [[H1 H2]%andb_true_iff H3].
  apply negb_true_iff in H1, H2. split; [exact H1|]. split; [exact H2|].
  destruct (Z.eqb_spec i 0) as [->|Hne].
  - reflexivity.
  - simpl in H3. rewrite H3. symmetry. apply Z.ltb_lt. lia.
Qed.

Lemma grades_below_spec (N n : Z) (v : float) :
  grades_below N = true -> (0 <= n < N)%Z -> In v (rounding_to (5 * n)) ->
  (grade_point (calculate_grade v) <= grade_point (calculate_grade (cents (5 * n))))%Z.
Proof.
  intros Hall Hn Hv. unfold grades_below in Hall.
  rewrite forallb_forall in Hall.
  assert (Hin : In n (upto N)) by (apply In_upto; lia).
  specialize (Hall n Hin). rewrite forallb_forall in Hall.
  apply Z.leb_le, Hall. unfold rounding_to in Hv. apply List.filter_In in Hv. apply Hv.
Qed.

End GridFacts.

(** X17. For marks in range that are multiples of 0.05, the preview of the
    marks form shows the total that [add_or_update_marks] stores, with the
    grade of that total (and shows nothing when both marks are 0); the
    grade stored is never better than the grade previewed.  It can be
    worse, the stored grade being that of the total before rounding: the
    marks 3 and 47 are stored with the total 50 and the grade F, where the
    grade of 50 is C. *)
Theorem preview_and_stored_marks :
  (forall (py_float : string -> option float) (strip : string -> string) (now : Z)
          (sid subj mse_text ese_text : string) (i j : Z),
      (0 <= i <= 600)%Z -> (0 <= j <= 1400)%Z ->
      MarksPage.parse_input py_float strip mse_text = Some (Float64.cents (5 * i)) ->
      MarksPage.parse_input py_float strip ese_text = Some (Float64.cents (5 * j)) ->
      let total := Float64.cents (5 * (i + j)) in
      let stored := Dashboard.mark now sid subj (Float64.cents (5 * i)) (Float64.cents (5 * j)) in
      MarksPage.preview py_float strip mse_text ese_text =
        (if (0 <? i + j)%Z then Some (total, Grade.calculate_grade total) else None) /\
      stored !! "total"%string = Some (Mongo.VNum total) /\
      exists g, stored !! "grade"%string = Some (Mongo.VStr g) /\
                (Grade.grade_point g <= Grade.grade_point (Grade.calculate_grade total))%Z) /\
  (forall (now : Z) (sid subj : string),
      Dashboard.mark now sid subj 3 47 !! "total"%string = Some (Mongo.VNum 50) /\
      Dashboard.mark now sid subj 3 47 !! "grade"%string = Some (Mongo.VStr "F") /\
      Grade.calculate_grade (Float64.py_round2 (3 + 47)) = "C"%string).
Proof.
  split.
  - intros py_float strip now sid subj mse_text ese_text i j Hi Hj Hm He. cbv zeta.
    destruct (marks_in_range_spec 30 i marks_in_range_30 ltac:(lia)) as (Hm0 & Hm30 & Hmpos).
    destruct (marks_in_range_spec 70 j marks_in_range_70 ltac:(lia)) as (He0 & He70 & Hepos).
    split; [|split].
    + unfold MarksPage.preview. rewrite (read_marks_parsed _ _ _ _ _ _ Hm He).
      change (Float64.of_Z 30) with 30%float in Hm30.
      change (Float64.of_Z 70) with 70%float in He70.
      rewrite Hm0, Hm30, He0, He70, Hmpos, Hepos. cbn [orb negb andb].
      rewrite (rounding_to_spec _ _
                 (rows_in_spec (fun x y => (x + y)%float) 5 601 1401 2001 all_sums_ok i j
                    ltac:(lia) ltac:(lia) ltac:(lia))).
      destruct (Z.ltb_spec 0 i), (Z.ltb_spec 0 j), (Z.ltb_spec 0 (i + j)); try lia;
        reflexivity.
    + rewrite <- (check_rows_spec 5 601 1401 2001 all_totals_ok i j) by lia.
      apply mark_fields.
    + eexists. split; [apply mark_fields|].
      apply (grades_below_spec 2001); [apply grades_below_ok | lia |].
      apply (rows_in_spec Dashboard.raw_total 5 601 1401 2001); try lia.
      rewrite <- check_rows_rows_in. apply all_totals_ok.
  - intros now sid subj. split; [|split]; vm_compute; reflexivity.
Qed.
Lemma preview_and_stored_marks_witness :
  MarksPage.preview Sample.read_decimal Examples.strip "24.00" "56.00"
  = Some (Float64.cents (5 * (480 + 1120)),
          Grade.calculate_grade (Float64.cents (5 * (480 + 1120)))) /\
  Dashboard.mark 1 "21AIML001" "ML3001" (Float64.cents (5 * 480)) (Float64.cents (5 * 1120))
    !! "total"%string = Some (Mongo.VNum (Float64.cents (5 * (480 + 1120)))).
Proof.
  destruct (proj1 preview_and_stored_marks Sample.read_decimal Examples.strip 1%Z
              "21AIML001"%string "ML3001"%string "24.00"%string "56.00"%string 480%Z 1120%Z)
    as (Hpreview & Hstored & _).
  - lia.
  - lia.
  - compute_eq.
  - compute_eq.
  - split; [exact Hpreview | exact Hstored].
Defined.

(** ** Accounts of the bookstore *)

Section AccountFacts.
Import Mongo Bookstore Accounts.
Local Open Scope string_scope.

(** The outcomes of a POST to [register] that carries an address. *)
Lemma register_post (fresh : N) (form : gmap string string) (a : app) (email : string) :
  form !! "email" = Some email ->
  register fresh POST form a =
  if existsb (matches [("email", VStr email)]) (users a)
  then render_register (flash "Email already exists!" "error" a)
  else match form !! "name", form !! "password" with
       | Some name, Some password =>
           (flash "Account created successfully! Please login." "success"
                  (App (users a ++ [ <["_id" := VId fresh]>
                                       ({[ "name" := VStr name; "email" := VStr email;
                                           "password" := VStr password ]} : doc) ])%list
                       (session a) (flashes a)),
            RedirectLogin)
       | _, _ => (a, MissingField)
       end.
Proof.
  intros He. unfold register. rewrite He.
  destruct (find_one _ (users a)) as [d|] eqn:Hd.
  - assert (Hex : existsb (matches [("email", VStr email)]) (users a) = true)
      by (apply find_one_exists; eauto).
    rewrite Hex. reflexivity.
  - apply find_one_None in Hd. rewrite Hd. reflexivity.
Qed.

Lemma register_users (fresh : N) (m : http_method) (form : gmap string string) (a : app) :
  users (fst (register fresh m form a)) = users a \/
  exists name email password,
    existsb (matches [("email", VStr email)]) (users a) = false /\
    users (fst (register fresh m form a)) =
    (users a ++ [ <["_id" := VId fresh]>
                    ({[ "name" := VStr name; "email" := VStr email;
                        "password" := VStr password ]} : doc) ])%list.
Proof.
  destruct m; [left; reflexivity|].
  destruct (form !! "email") as [email|] eqn:He;
    [|left; unfold register; rewrite He; reflexivity].
  rewrite (register_post fresh form a email He).
  destruct (existsb _ (users a)) eqn:Hex; [left; reflexivity|].
  destruct (form !! "name") as [name|]; [|left; reflexivity].
  destruct (form !! "password") as [password|]; [|left; reflexivity].
  right. exists name, email, password. split; [exact Hex | reflexivity].
Qed.

Lemma register_session (fresh : N) (m : http_method) (form : gmap string string) (a : app) :
  session (fst (register fresh m form a)) = session a.
Proof.
  destruct m; [reflexivity|]. unfold register.
  destruct (form !! "email") as [email|]; [|reflexivity].
  destruct (find_one _ _); [reflexivity|].
  destruct (form !! "name"); [|reflexivity].
  destruct (form !! "password"); reflexivity.
Qed.

(** What [login] does to the users and to the session. *)
Lemma login_session (m : http_method) (form : gmap string string) (a : app) :
  users (fst (login m form a)) = users a /\
  (session (fst (login m form a)) = session a \/
   exists d v, In d (users a) /\ d !! "name" = Some v /\
               session (fst (login m form a)) = <["user" := v]> (session a)).
Proof.
  destruct m; [split; [reflexivity | left; reflexivity]|]. unfold login.
  destruct (form !! "email") as [email|]; [|split; [reflexivity | left; reflexivity]].
  destruct (form !! "password") as [password|]; [|split; [reflexivity | left; reflexivity]].
  destruct (find_one _ (users a)) as [user|] eqn:Hu;
    [|split; [reflexivity | left; reflexivity]].
  apply find_one_Some in Hu as [Hin _].
  destruct (user !! "name") as [name|] eqn:Hn; [|split; [reflexivity | left; reflexivity]].
  destruct name as [n|x|t|o]; (split; [reflexivity|]); right; exists user; eauto.
Qed.

Lemma login_no_server_error (m : http_method) (form : gmap string string) (a : app) :
  (forall d, In d (users a) -> exists n, d !! "name" = Some (VStr n)) ->
  snd (login m form a) <> ServerError.
Proof.
  intros Hnames. destruct m; [discriminate|]. unfold login.
  destruct (form !! "email") as [email|]; [|discriminate].
  destruct (form !! "password") as [password|]; [|discriminate].
  destruct (find_one _ (users a)) as [user|] eqn:Hu; [|discriminate].
  apply find_one_Some in Hu as [Hin _]. destruct (Hnames user Hin) as [n ->].
  discriminate.
Qed.

Lemma perform_accounts_ok (a : app) (act : action) : accounts_ok a -> accounts_ok (perform a act).
Proof.
  intros (Hnames & Huniq & Hsess). destruct act as [fresh m form | m form | ]; cbn [perform].
  - unfold accounts_ok. rewrite register_session.
    destruct (register_users fresh m form a)
      as [-> | (name & email & password & Hex & ->)]; [auto|].
    split; [|split].
    + intros d [Hd | [<-|[]]]%in_app_or; [auto|]. exists name.
      rewrite lookup_insert_ne by discriminate. reflexivity.
    + intros e. rewrite count_app, count_single.
      rewrite (matches_one_iff "email" email e)
        by (rewrite lookup_insert_ne by discriminate; reflexivity).
      destruct (String.eqb_spec email e) as [<-|_]; [|specialize (Huniq e); lia].
      apply count_zero in Hex. lia.
    + intros v Hv. destruct (Hsess v Hv) as (d & Hd & Hn). exists d.
      split; [apply in_or_app; auto | exact Hn].
  - destruct (login_session m form a) as [Hu Hs]. unfold accounts_ok. rewrite Hu.
    split; [exact Hnames|]. split; [exact Huniq|].
    destruct Hs as [-> | (d & v & Hd & Hn & ->)]; [exact Hsess|].
    intros w Hw. rewrite lookup_insert_eq in Hw. injection Hw as <-. eauto.
  - unfold accounts_ok. cbn [logout flash fst users session].
    split; [exact Hnames|]. split; [exact Huniq|].
    intros v Hv. rewrite lookup_delete_eq in Hv. discriminate Hv.
Qed.

Lemma fold_perform_accounts_ok (actions : list action) (a : app) :
  accounts_ok a -> accounts_ok (fold_left perform actions a).
Proof.
  revert a. induction actions as [|act actions IH]; intros a Ha; [exact Ha|].
  simpl. apply IH, perform_accounts_ok, Ha.
Qed.

End AccountFacts.

(** X18. A POST to [register] with a name, an address and a password
    creates the account exactly when no user holds the address, and
    redirects to the login page; a login with the same form then succeeds
    and puts the new name in the session.  When the address is taken, the
    users are left as they were and the registration page comes back with
    the message of the error.  [register] itself never touches the
    session. *)
Theorem register_then_login (fresh : N) (form : gmap string string) (a : Bookstore.app)
    (name email password : string) :
  form !! "name"%string = Some name ->
  form !! "email"%string = Some email ->
  form !! "password"%string = Some password ->
  let taken :=
    existsb (Mongo.matches [("email"%string, Mongo.VStr email)]) (Bookstore.users a) in
  let a' := fst (Accounts.register fresh Bookstore.POST form a) in
  let answer := snd (Accounts.register fresh Bookstore.POST form a) in
  (taken = true ->
   Bookstore.users a' = Bookstore.users a /\
   answer = Accounts.RegisterPage
              (Bookstore.flashes a ++ [("error"%string, "Email already exists!"%string)])) /\
  (taken = false ->
   answer = Accounts.RedirectLogin /\
   length (Bookstore.users a') = S (length (Bookstore.users a)) /\
   snd (Bookstore.login Bookstore.POST form a') = Bookstore.RedirectHome /\
   Bookstore.session (fst (Bookstore.login Bookstore.POST form a'))
   = <["user"%string := Mongo.VStr name]> (Bookstore.session a)) /\
  Bookstore.session a' = Bookstore.session a.
Proof.
  intros Hn He Hp. cbv zeta. rewrite (register_post fresh form a email He), Hn, Hp.
  destruct (existsb _ (Bookstore.users a)) eqn:Hex.
  - split; [intros _; split; reflexivity|]. split; [discriminate | reflexivity].
  - split; [discriminate|]. split; [|reflexivity]. intros _.
    split; [reflexivity|]. cbn [fst snd Bookstore.flash Bookstore.users].
    split; [rewrite length_app; simpl; lia|].
    rewrite (login_post form _ email password He Hp).
    unfold Bookstore.flash. cbn [Bookstore.users Bookstore.session Bookstore.flashes].
    rewrite (find_one_app_new _ (Bookstore.users a)
               (<["_id"%string := Mongo.VId fresh]>
                  {[ "name"%string := Mongo.VStr name; "email"%string := Mongo.VStr email;
                     "password"%string := Mongo.VStr password ]})).
    + rewrite lookup_insert_ne by discriminate.
      rewrite (lookup_insert_eq _ "name"%string). split; reflexivity.
    + destruct (existsb (Mongo.matches [_; _]) (Bookstore.users a)) eqn:Hboth; [|reflexivity].
      apply existsb_exists in Hboth as (d & Hd & Hm). apply matches_two in Hm as [Hm _].
      assert (existsb (Mongo.matches [("email"%string, Mongo.VStr email)])
                      (Bookstore.users a) = true)
        by (apply existsb_exists; exists d; split; [exact Hd | apply matches_one, Hm]).
      congruence.
    + apply matches_two. split; rewrite lookup_insert_ne by discriminate; reflexivity.
Qed.
Lemma register_then_login_witness :
  snd (Accounts.register 2 Bookstore.POST Examples.ravi_form Sample.one_user)
  = Accounts.RedirectLogin /\
  snd (Bookstore.login Bookstore.POST Examples.ravi_form
         (fst (Accounts.register 2 Bookstore.POST Examples.ravi_form Sample.one_user)))
  = Bookstore.RedirectHome.
Proof.
  destruct (register_then_login 2 Examples.ravi_form Sample.one_user
              "Ravi" "ravi@example.org" "pa55")
    as (_ & Hnew & _).
  - compute_eq.
  - compute_eq.
  - compute_eq.
  - destruct Hnew as (Hanswer & _ & Hlogin & _); [compute_eq|].
    split; [exact Hanswer | exact Hlogin].
Defined.

(** X19. Whatever a visitor does ([register], [login], [logout], in any
    order and with any forms), every user keeps a name, no address is
    registered twice, and the user of the session is the name of a
    registered user; so [login] never fails on a user without a name.
    After [logout] the session has no user, and the users are as before. *)
Theorem accounts_stay_consistent (actions : list Accounts.action) (a : Bookstore.app) :
  Accounts.accounts_ok a ->
  let a' := fold_left Accounts.perform actions a in
  Accounts.accounts_ok a' /\
  (forall m form, snd (Bookstore.login m form a') <> Bookstore.ServerError) /\
  Bookstore.session (fst (Accounts.logout a')) !! "user"%string = None /\
  Bookstore.users (fst (Accounts.logout a')) = Bookstore.users a'.
Proof.
  intros Ha. cbv zeta.
  pose proof (fold_perform_accounts_ok actions a Ha) as Ha'.
  split; [exact Ha'|]. split; [|split].
  - intros m form. apply login_no_server_error, Ha'.
  - apply lookup_delete_eq.
  - reflexivity.
Qed.
Lemma accounts_stay_consistent_witness :
  let a' := fold_left Accounts.perform
              [Accounts.Register 2 Bookstore.POST Examples.ravi_form;
               Accounts.Login Bookstore.POST Examples.ravi_form;
               Accounts.Logout] Sample.one_user in
  Accounts.accounts_ok a' /\
  (forall m form, snd (Bookstore.login m form a') <> Bookstore.ServerError) /\
  Bookstore.session (fst (Accounts.logout a')) !! "user"%string = None /\
  Bookstore.users (fst (Accounts.logout a')) = Bookstore.users a'.
Proof.
  apply (accounts_stay_consistent
           [Accounts.Register 2 Bookstore.POST Examples.ravi_form;
            Accounts.Login Bookstore.POST Examples.ravi_form;
            Accounts.Logout] Sample.one_user).
  split; [|split].
  - intros d [<-|[]]. exists "Asha"%string. compute_eq.
  - intros email. unfold Sample.one_user. cbn [Bookstore.users].
    rewrite count_single. destruct (Mongo.matches _ _); lia.
  - intros v Hv. discriminate Hv.
Defined.
